(** * DC-Diabetes-Access: cost resolver, pairing builder, trial flow, sort stage

    A shallow embedding of [dc_access.py] (class [DiabetesCostComparator]) and
    of [app.py] (the Flask view [index] and its helpers), followed by the
    properties of the specification that were checked against them.

    Python values are a small tagged union, Python exceptions an error monad,
    Python floats the primitive binary64 floats of Rocq, Python ints are [Z],
    Python dicts finite maps with string keys.

    What is modelled and how far:
    - a text is the bytes of its UTF-8 encoding. What [strip], [lower] and
      [int] do with ASCII text is written out; what they do with other text
      (the blanks, letters and digits of Unicode) is left to the class
      [Builtins], and so are the text of a float, the parsing of one, the
      longest decimal text that [int] and [str] convert, and the repetition
      of a text; every property holds for every instance;
    - a pandas frame is the list of its rows, a row the dict that [to_dict]
      returns; the loader and the console interface of [dc_access.py], and
      [build_coverage_map] of [app.py], are not modelled;
    - [list.sort] is a stable sort that compares keys with [<] only; where
      a NaN among the keys leaves [<] without an order, the arrangement of
      the rows is left to [Builtins] as well. *)

From Stdlib Require Import ZArith String Ascii List Floats DecimalString DecimalPos
  DecimalFacts Lia.
From stdpp Require Import gmap strings list sorting.

Local Open Scope string_scope.
Local Open Scope Z_scope.

(** ** Python values, exceptions and the builtins the program calls *)

Module Py.

(** The scalars a CSV-backed record can hold, plus [None]. *)
Inductive pyval :=
| VNone
| VStr (s : string)
| VInt (z : Z)
| VFloat (f : float).

Inductive exn :=
| TypeError | ValueError | AttributeError | OverflowError
| ZeroDivisionError | IndexError | MemoryError.

Inductive result (A : Type) :=
| Ok (a : A)
| Raise (e : exn).
Arguments Ok {A} a.
Arguments Raise {A} e.

#[export] Instance result_ret : MRet result := fun _ a => Ok a.
#[export] Instance result_bind : MBind result := fun _ _ k r =>
  match r with Ok a => k a | Raise e => Raise e end.

#[export] Instance result_fmap : FMap result := fun _ _ f r =>
  match r with Ok a => Ok (f a) | Raise e => Raise e end.

(** [try: body / except Exception: handler]. *)
Definition try_except {A} (body : result A) (handler : A) : A :=
  match body with Ok a => a | Raise _ => handler end.

Fixpoint mapM {A B} (f : A -> result B) (l : list A) : result (list B) :=
  match l with
  | [] => Ok []
  | x :: l' => y ← f x; ys ← mapM f l'; Ok (y :: ys)
  end.

(** A dict with string keys. *)
Abbreviation dict := (gmap string pyval).

(** [d.get(k)] and [d.get(k, default)]. *)
Definition dict_get (d : dict) (k : string) : pyval := default VNone (d !! k).
Definition dict_get_default (d : dict) (k : string) (dflt : pyval) : pyval :=
  default dflt (d !! k).

(** The same on a name bound to a dict or to [None]: attribute access on
    [None] raises [AttributeError]. *)
Definition obj_get (o : option dict) (k : string) : result pyval :=
  match o with Some d => Ok (dict_get d k) | None => Raise AttributeError end.
Definition obj_get_default (o : option dict) (k : string) (dflt : pyval)
  : result pyval :=
  match o with
  | Some d => Ok (dict_get_default d k dflt)
  | None => Raise AttributeError
  end.

(** *** Text

    A [str] is kept as the bytes of its UTF-8 encoding: equality of texts
    is equality of their bytes, and the byte order is Python's order on
    text (by code point). What [strip], [lower] and [int] do with ASCII
    text is written out here. What they do with text that has other
    characters follows the Unicode tables of the interpreter and is left to
    the class [Builtins]. *)

Definition is_ascii (c : ascii) : bool := (nat_of_ascii c <? 128)%nat.

(** [s.isascii()]. *)
Fixpoint isascii (s : string) : bool :=
  match s with
  | EmptyString => true
  | String c s' => is_ascii c && isascii s'
  end.

(** The ASCII blanks that [strip] removes: tab to carriage return, the
    four separators, the space. *)
Definition is_space (c : ascii) : bool :=
  let n := nat_of_ascii c in
  ((9 <=? n) && (n <=? 13) || (28 <=? n) && (n <=? 32))%nat.

(** The ASCII blanks that [int] skips, those of C's [isspace]: the four
    separators are not among them. *)
Definition is_c_space (c : ascii) : bool :=
  let n := nat_of_ascii c in
  ((9 <=? n) && (n <=? 13) || (n =? 32))%nat.

Definition lower_ascii (c : ascii) : ascii :=
  let n := nat_of_ascii c in
  if ((65 <=? n) && (n <=? 90))%nat then ascii_of_nat (n + 32) else c.

Fixpoint ascii_lower (s : string) : string :=
  match s with
  | EmptyString => EmptyString
  | String c s' => String (lower_ascii c) (ascii_lower s')
  end.

Fixpoint lstrip_by (blank : ascii -> bool) (s : string) : string :=
  match s with
  | EmptyString => EmptyString
  | String c s' => if blank c then lstrip_by blank s' else s
  end.

Definition rev_string (s : string) : string :=
  string_of_list_ascii (List.rev (list_ascii_of_string s)).

Definition strip_by (blank : ascii -> bool) (s : string) : string :=
  rev_string (lstrip_by blank (rev_string (lstrip_by blank s))).

Definition ascii_strip (s : string) : string := strip_by is_space s.

(** [s.replace(old, "")] for a non-empty [old]: [skip] counts the
    characters of a match that are still to be dropped. A match of ASCII
    text in UTF-8 bytes starts and ends between two characters. *)
Fixpoint remove_sub (old : string) (skip : nat) (s : string) : string :=
  match s with
  | EmptyString => EmptyString
  | String c s' =>
      match skip with
      | S k => remove_sub old k s'
      | O =>
          if String.prefix old s
          then remove_sub old (String.length old - 1) s'
          else String c (remove_sub old 0 s')
      end
  end.

Definition string_repeat (s : string) (n : Z) : string :=
  Nat.iter (Z.to_nat n) (String.append s) EmptyString.

(** *** Numbers *)

(** [float(n)] for an int: the nearest binary64, [OverflowError] beyond
    the finite range. *)
Definition float_of_int (z : Z) : result float :=
  let f := SF2Prim (binary_normalize prec emax z 0 false) in
  if PrimFloat.is_infinity f then Raise OverflowError else Ok f.

(** [a / b] on ints: the correctly rounded quotient. *)
Definition SF_of_Z (z : Z) : spec_float :=
  match z with
  | Z0 => S754_zero false
  | Zpos p => S754_finite false p 0
  | Zneg p => S754_finite true p 0
  end.

Definition int_truediv (a b : Z) : result float :=
  if b =? 0 then Raise ZeroDivisionError
  else
    let f := SF2Prim (SFdiv prec emax (SF_of_Z a) (SF_of_Z b)) in
    if PrimFloat.is_infinity f then Raise OverflowError else Ok f.

(** [int(s)] on ASCII text: surrounding blanks, a sign, decimal digits,
    single underscores between digits. The result is the value read and
    the number of digits it was read from, leading zeros included. *)
Definition digit_of (c : ascii) : option Z :=
  let n := nat_of_ascii c in
  if ((48 <=? n) && (n <=? 57))%nat then Some (Z.of_nat (n - 48)) else None.

Fixpoint parse_digits (acc count : Z) (after_digit : bool) (s : string)
  : option (Z * Z) :=
  match s with
  | EmptyString => if after_digit then Some (acc, count) else None
  | String c s' =>
      match digit_of c with
      | Some d => parse_digits (acc * 10 + d) (count + 1) true s'
      | None =>
          if Ascii.eqb c "_"%char && after_digit
          then match s' with
               | EmptyString => None
               | _ => parse_digits acc count false s'
               end
          else None
      end
  end.

Definition ascii_int (s : string) : option (Z * Z) :=
  let body := strip_by is_c_space s in
  let signed :=
    match body with
    | String "-"%char r => (-1, r)
    | String "+"%char r => (1, r)
    | _ => (1, body)
    end in
  match parse_digits 0 0 false signed.2 with
  | Some (n, count) => Some (signed.1 * n, count)
  | None => None
  end.

(** The decimal text of an int, and the number of its digits. *)
Definition decimal (z : Z) : string := NilZero.string_of_int (Z.to_int z).

Definition decimal_digits (z : Z) : Z :=
  Z.of_nat (String.length (decimal (Z.abs z))).

(** What the interpreter supplies and this development does not
    re-implement. Every property below holds for every instance. *)
Class Builtins := {
  (** [str(f)] and [float(s)]: [None] where [float] raises
      [ValueError]. *)
  str_of_float : float -> string;
  float_of_str : string -> option float;
  (** [s.strip()], [s.lower()] and [int(s)] on text that is not ASCII
      (Unicode blanks, letters, digits). *)
  unicode_strip : string -> string;
  unicode_lower : string -> string;
  int_of_unicode : string -> result Z;
  (** [sys.get_int_max_str_digits()]: the longest decimal text [int] and
      [str] convert, 4300 unless configured; 0 for no limit. Up to 640
      digits are converted whatever the limit. *)
  int_max_str_digits : Z;
  (** [s * n] for [0 < n < 2 ** 63]: the repeated text, or the error
      raised when it is too long for the machine. *)
  str_repeat : string -> Z -> result string;
  (** What [list.sort] makes of keyed rows when a key is NaN, so that
      [<] does not order the keys: some arrangement of the rows, which
      depends on the merge strategy of the interpreter. *)
  sort_unordered : forall A : Type, list (pyval * A) -> list (pyval * A);
  sort_unordered_perm :
    forall (A : Type) (l : list (pyval * A)), sort_unordered A l ≡ₚ l
}.

Section WithBuiltins.
Context `{Builtins}.

(** [s.strip()] and [s.lower()]. *)
Definition strip (s : string) : string :=
  if isascii s then ascii_strip s else unicode_strip s.

Definition lower (s : string) : string :=
  if isascii s then ascii_lower s else unicode_lower s.

(** Whether a decimal text of [digits] digits is over the limit on
    conversions between [int] and [str]. *)
Definition over_limit (digits : Z) : bool :=
  (640 <? digits) && (0 <? int_max_str_digits)
  && (int_max_str_digits <? digits).

(** [int(s)] on text. *)
Definition int_of_str (s : string) : result Z :=
  if isascii s then
    match ascii_int s with
    | Some (z, count) => if over_limit count then Raise ValueError else Ok z
    | None => Raise ValueError
    end
  else int_of_unicode s.

(** [str(n)] on an int. *)
Definition str_of_int (z : Z) : result string :=
  if over_limit (decimal_digits z) then Raise ValueError else Ok (decimal z).

(** [str(v)]. *)
Definition py_str (v : pyval) : result string :=
  match v with
  | VNone => Ok "None"
  | VStr s => Ok s
  | VInt z => str_of_int z
  | VFloat f => Ok (str_of_float f)
  end.

(** [float(v)]. *)
Definition py_float (v : pyval) : result float :=
  match v with
  | VNone => Raise TypeError
  | VStr s =>
      match float_of_str s with
      | Some f => Ok f
      | None => Raise ValueError
      end
  | VInt z => float_of_int z
  | VFloat f => Ok f
  end.
End WithBuiltins.

(** Truth value of a scalar. *)
Definition truthy (v : pyval) : bool :=
  match v with
  | VNone => false
  | VStr s => negb (String.eqb s "")
  | VInt z => negb (z =? 0)
  | VFloat f => negb (PrimFloat.eqb f 0)
  end.

Definition is_none (v : pyval) : bool :=
  match v with VNone => true | _ => false end.

(** [pd.isna(v)] on a scalar. *)
Definition pd_isna (v : pyval) : bool :=
  match v with
  | VNone => true
  | VFloat f => PrimFloat.is_nan f
  | _ => false
  end.

(** [f * n] with a float on the left and an int on the right. *)
Definition float_mul_int (f : float) (n : Z) : result float :=
  fn ← float_of_int n; Ok (PrimFloat.mul f fn).

(** [v * n] with an int on the right. A text is repeated: [n] must fit
    a machine index of 64 bits, and a text repeated no times or fewer is
    empty. *)
Definition py_mul_int `{Builtins} (v : pyval) (n : Z) : result pyval :=
  match v with
  | VNone => Raise TypeError
  | VStr s =>
      if (n <? - 2 ^ 63) || (2 ^ 63 <=? n) then Raise OverflowError
      else if n <=? 0 then Ok (VStr "")
      else if String.eqb s "" then Ok (VStr "")
      else VStr <$> str_repeat s n
  | VInt z => Ok (VInt (z * n))
  | VFloat f => VFloat <$> float_mul_int f n
  end.

(** [v / n] with an int on the right. *)
Definition py_truediv_int (v : pyval) (n : Z) : result float :=
  match v with
  | VInt z => int_truediv z n
  | VFloat f =>
      fn ← float_of_int n;
      if n =? 0 then Raise ZeroDivisionError else Ok (PrimFloat.div f fn)
  | _ => Raise TypeError
  end.

(** [f - v] with a float on the left. *)
Definition float_sub (f : float) (v : pyval) : result float :=
  match v with
  | VInt z => fz ← float_of_int z; Ok (PrimFloat.sub f fz)
  | VFloat g => Ok (PrimFloat.sub f g)
  | _ => Raise TypeError
  end.

(** *** Comparisons

    Python compares two numbers, int or float, by their exact values;
    a NaN compares false with everything. Every finite binary64 is an
    integer multiple of 2^-1074, so an exact value is kept as that
    integer multiple. *)
Inductive xnum :=
| XNegInf
| XFin (z : Z)
| XPosInf.

#[export] Instance xnum_eq_dec : EqDecision xnum.
Proof. solve_decision. Defined.

Definition exact_of_float (f : float) : option xnum :=
  match Prim2SF f with
  | S754_nan => None
  | S754_infinity s => Some (if s then XNegInf else XPosInf)
  | S754_zero _ => Some (XFin 0)
  | S754_finite s m e =>
      let n := Z.shiftl (Zpos m) (e + 1074) in
      Some (XFin (if s then - n else n))
  end.

Definition exact_of_int (z : Z) : xnum := XFin (Z.shiftl z 1074).

Definition xnum_ltb (a b : xnum) : bool :=
  match a, b with
  | XNegInf, XNegInf => false
  | XNegInf, _ => true
  | XFin _, XNegInf => false
  | XFin x, XFin y => x <? y
  | XFin _, XPosInf => true
  | XPosInf, _ => false
  end.

Definition xnum_eqb (a b : xnum) : bool :=
  match a, b with
  | XNegInf, XNegInf => true
  | XFin x, XFin y => x =? y
  | XPosInf, XPosInf => true
  | _, _ => false
  end.

(** The exact value of a number that is not NaN. *)
Definition exact (v : pyval) : option xnum :=
  match v with
  | VInt z => Some (exact_of_int z)
  | VFloat f => exact_of_float f
  | _ => None
  end.

Definition is_number (v : pyval) : bool :=
  match v with VInt _ | VFloat _ => true | _ => false end.

(** [a < b]. *)
Definition py_lt (a b : pyval) : result bool :=
  match a, b with
  | VStr x, VStr y => Ok (String.ltb x y)
  | (VInt _ | VFloat _), (VInt _ | VFloat _) =>
      match exact a, exact b with
      | Some x, Some y => Ok (xnum_ltb x y)
      | _, _ => Ok false
      end
  | _, _ => Raise TypeError
  end.

(** [a > b] on two ints. *)
Definition int_gt (a b : Z) : bool := b <? a.

(** One cell of [column == name] on a pandas column. *)
Definition pd_eq (cell name : pyval) : bool :=
  match cell, name with
  | VStr x, VStr y => String.eqb x y
  | (VInt _ | VFloat _), (VInt _ | VFloat _) =>
      match exact cell, exact name with
      | Some x, Some y => xnum_eqb x y
      | _, _ => false
      end
  | _, _ => false
  end.

(** [a == b] on two scalars. *)
Definition py_eq (a b : pyval) : bool :=
  match a, b with
  | VNone, VNone => true
  | _, _ => pd_eq a b
  end.

(** [xs[i]] on a list: negative indices count from the end. *)
Definition list_index {A} (xs : list A) (i : Z) : result A :=
  let n := Z.of_nat (length xs) in
  let j := if i <? 0 then i + n else i in
  if (0 <=? j) && (j <? n)
  then match xs !! Z.to_nat j with
       | Some x => Ok x
       | None => Raise IndexError
       end
  else Raise IndexError.

(** [a or b] on optional text: the first operand unless it is [None]
    or empty. *)
Definition str_truthy (o : option string) : bool :=
  match o with
  | Some s => negb (String.eqb s "")
  | None => false
  end.

Definition str_or (a b : option string) : option string :=
  if str_truthy a then a else b.

End Py.

(** ** dc_access.py *)

Module DcAccess.
Import Py.

(** The three frames read from the CSV files, each kept as its rows; a
    row is the dict [row.to_dict()] returns. The name columns
    [medicine_name] and [insurance_name] are read from these dicts. *)
Record DiabetesCostComparator := {
  medicines_df : list dict;
  insurance_df : list dict;
  coverage_df : list dict
}.

(** [df[col].tolist()]. *)
Definition column (df : list dict) (col : string) : list pyval :=
  map (fun row => dict_get row col) df.

(** [None] for an empty selection, else [sel.iloc[0].to_dict()]. *)
Definition first_row (sel : list dict) : option dict := head sel.

Definition get_medicine_info (self : DiabetesCostComparator)
  (medicine_name : pyval) : option dict :=
  first_row
    (List.filter (fun row => pd_eq (dict_get row "medicine_name") medicine_name)
       (medicines_df self)).

Definition get_insurance_info (self : DiabetesCostComparator)
  (insurance_name : pyval) : option dict :=
  first_row
    (List.filter (fun row => pd_eq (dict_get row "insurance_name") insurance_name)
       (insurance_df self)).

Definition get_coverage_info (self : DiabetesCostComparator)
  (insurance_name medicine_name : pyval) : option dict :=
  first_row
    (List.filter
       (fun row =>
          pd_eq (dict_get row "insurance_name") insurance_name
          && pd_eq (dict_get row "medicine_name") medicine_name)
       (coverage_df self)).

Section WithBuiltins.
Context `{Builtins}.

(** Lines 204-209: the coverage record counts only when it says "yes". *)
Definition covered_flag (coverage_info : option dict) : bool :=
  try_except
    (match coverage_info with
     | Some c =>
         s ← py_str (dict_get c "covered");
         Ok (String.eqb (lower (strip s)) "yes")
     | None => Ok false
     end)
    false.

(** Lines 214-221: the [try] block of the uncovered branch; [Some v] when
    it returns [v], [None] when control falls through to the fallback. *)
Definition cash_price_attempt (medicine_info insurance_info : option dict)
  (months : Z) : option pyval :=
  try_except
    (match insurance_info with
     | None =>
         gr ← obj_get medicine_info "goodrx_price";
         if negb (is_none gr) && negb (pd_isna gr)
         then f ← py_float gr; t ← float_mul_int f months; Ok (Some (VFloat t))
         else Ok None
     | Some _ => Ok None
     end)
    None.

(** Lines 226-230. *)
Definition copay_of (coverage_info : option dict) : result float :=
  copay ← obj_get coverage_info "copay_amount";
  Ok (try_except (py_float copay) 0%float).

(** Lines 232-237. A dict is true when it is not empty. *)
Definition dict_truthy (o : option dict) : bool :=
  match o with
  | Some d => negb (bool_decide (d = ∅))
  | None => false
  end.

Definition deductible_of (insurance_info : option dict) : float :=
  try_except
    (if dict_truthy insurance_info
     then
       d ← obj_get insurance_info "deductible";
       if negb (is_none d) then py_float d else Ok 0%float
     else Ok 0%float)
    0%float.

Definition calculate_total_cost
  (medicine_info insurance_info coverage_info : option dict) (months : Z)
  : result pyval :=
  if negb (covered_flag coverage_info) then
    match cash_price_attempt medicine_info insurance_info months with
    | Some v => Ok v
    | None =>
        avg ← obj_get_default medicine_info "average_cost_per_month" (VInt 0);
        py_mul_int avg months
    end
  else
    copay ← copay_of coverage_info;
    let deductible := deductible_of insurance_info in
    total_copays ← float_mul_int copay months;
    let total_cost := PrimFloat.add deductible total_copays in
    Ok (VFloat total_cost).

End WithBuiltins.
End DcAccess.

(** ** app.py *)

Module App.
Import Py DcAccess.

(** One row of the comparison table: the dict [add_pair] appends. A key
    the dict does not carry reads as [VNone] (or [None] for the flags),
    as [p.get] does. *)
Record pairing := {
  medicine_name : pyval;
  insurance_name : pyval;
  medicine : option dict;
  insurance : option dict;
  coverage : option dict;
  annual_cost : pyval;
  monthly_cost : pyval;
  full_monthly : pyval;
  full_annual : pyval;
  goodrx_price : pyval;
  goodrx_eligible : option bool;
  unauth_annual : pyval;
  copay_amount : pyval;
  monthly_savings : pyval;
  annual_savings : pyval;
  is_cash : option bool;
  is_higher_tier : option bool
}.

Definition set_unauth_annual (v : pyval) (p : pairing) : pairing :=
  {| medicine_name := medicine_name p; insurance_name := insurance_name p;
     medicine := medicine p; insurance := insurance p; coverage := coverage p;
     annual_cost := annual_cost p; monthly_cost := monthly_cost p;
     full_monthly := full_monthly p; full_annual := full_annual p;
     goodrx_price := goodrx_price p; goodrx_eligible := goodrx_eligible p;
     unauth_annual := v;
     copay_amount := copay_amount p; monthly_savings := monthly_savings p;
     annual_savings := annual_savings p; is_cash := is_cash p;
     is_higher_tier := is_higher_tier p |}.

Definition set_is_higher_tier (b : bool) (p : pairing) : pairing :=
  {| medicine_name := medicine_name p; insurance_name := insurance_name p;
     medicine := medicine p; insurance := insurance p; coverage := coverage p;
     annual_cost := annual_cost p; monthly_cost := monthly_cost p;
     full_monthly := full_monthly p; full_annual := full_annual p;
     goodrx_price := goodrx_price p; goodrx_eligible := goodrx_eligible p;
     unauth_annual := unauth_annual p;
     copay_amount := copay_amount p; monthly_savings := monthly_savings p;
     annual_savings := annual_savings p; is_cash := is_cash p;
     is_higher_tier := Some b |}.

Definition opt_float (o : option float) : pyval :=
  match o with Some f => VFloat f | None => VNone end.

Definition opt_text (o : option string) : pyval :=
  match o with Some s => VStr s | None => VNone end.

Definition has_key (d : dict) (k : string) : bool :=
  match d !! k with Some _ => true | None => false end.

(** [gr != ""]. *)
Definition ne_empty_str (v : pyval) : bool :=
  match v with VStr s => negb (String.eqb s "") | _ => true end.

Section WithBuiltins.
Context `{Builtins}.
Variable comparator : DiabetesCostComparator.

(** Lines 43-112; [selected_insurance] is the enclosing function's
    argument. *)
Definition add_pair (selected_insurance : option string)
  (med_name ins_name : pyval) : result pairing :=
  let med_info := get_medicine_info comparator med_name in
  let ins_info := get_insurance_info comparator ins_name in
  let cov_info := get_coverage_info comparator ins_name med_name in
  annual ← calculate_total_cost med_info ins_info cov_info 12;
  monthly ← py_truediv_int annual 12;
  let full_monthly0 :=
    try_except
      (v ← obj_get_default med_info "average_cost_per_month" (VInt 0);
       py_float v)
      0%float in
  let goodrx : option float :=
    try_except
      (gr ← obj_get med_info "goodrx_price";
       if negb (is_none gr) && ne_empty_str gr && negb (pd_isna gr)
       then Some <$> py_float gr
       else Ok None)
      None in
  let full_monthly1 :=
    match goodrx with
    | Some g => if negb (str_truthy selected_insurance) then g else full_monthly0
    | None => full_monthly0
    end in
  let full_annual1 := PrimFloat.mul full_monthly1 12 in
  let copay : option float :=
    match cov_info with
    | Some c =>
        if dict_truthy cov_info && has_key c "copay_amount"
           && negb (is_none (dict_get c "copay_amount"))
        then try_except (Some <$> py_float (dict_get c "copay_amount")) None
        else None
    | None => None
    end in
  let monthly_savings1 :=
    match copay with
    | Some c => Some (PrimFloat.sub full_monthly1 c)
    | None => None
    end in
  annual_savings1 ← float_sub full_annual1 annual;
  Ok {| medicine_name := med_name;
        insurance_name := ins_name;
        medicine := med_info;
        insurance := ins_info;
        coverage := cov_info;
        annual_cost := annual;
        monthly_cost := VFloat monthly;
        full_monthly := VFloat full_monthly1;
        full_annual := VFloat full_annual1;
        goodrx_price := opt_float goodrx;
        goodrx_eligible :=
          Some (match goodrx with Some _ => true | None => false end);
        unauth_annual := VNone;
        copay_amount := opt_float copay;
        monthly_savings := opt_float monthly_savings1;
        annual_savings := VFloat annual_savings1;
        is_cash := None;
        is_higher_tier := None |}.

(** Lines 29-131. The arguments are [None] or text, as [index] passes
    them. *)
Definition build_pairings (selected_medicine selected_insurance : option string)
  : result (list pairing) :=
  let med_list := column (medicines_df comparator) "medicine_name" in
  let ins_list := column (insurance_df comparator) "insurance_name" in
  let add := add_pair selected_insurance in
  let sm := str_truthy selected_medicine in
  let si := str_truthy selected_insurance in
  if negb sm && negb si then
    mapM (fun mi => add mi.1 mi.2) (list_prod med_list ins_list)
  else if sm && negb si then
    mapM (fun i => add (opt_text selected_medicine) i) ins_list
  else if negb sm && si then
    mapM (fun m => add m (opt_text selected_insurance)) med_list
  else
    p ← add (opt_text selected_medicine) (opt_text selected_insurance);
    Ok [p].

(** Lines 134-142. *)
Definition tier_num (tier_str : pyval) : option Z :=
  try_except
    (if negb (truthy tier_str) then Ok None
     else
       s ← py_str tier_str;
       Some <$> int_of_str (strip (remove_sub "tier" 0 (lower (strip s)))))
    None.

(** Lines 182-195. *)
Definition TRIAL_SEQUENCE : list string :=
  ["Metformin"; "Glipizide"; "Invokana"; "Januvia"; "Tirzepatide";
   "Semaglutide"; "Jardiance"].

Definition UNAUTHORIZED_COSTS : gmap (string * string) float :=
  {[ ("Cigna", "Empagliflozin") := 811%float;
     ("Cigna", "Januvia") := 721%float ]}.

(** [UNAUTHORIZED_COSTS.get((ins, med))]: only a pair of texts can equal
    a key. *)
Definition unauthorized_cost (ins med : pyval) : option float :=
  match ins, med with
  | VStr i, VStr m => UNAUTHORIZED_COSTS !! (i, m)
  | _, _ => None
  end.

(** Lines 370-375 (and 282-287): one turn of the loop. *)
Definition populate_unauth (p : pairing) : pairing :=
  set_unauth_annual
    (match unauthorized_cost (insurance_name p) (medicine_name p) with
     | Some u => VFloat u
     | None => full_annual p
     end)
    p.

(** Lines 358-368 (and 291-301): one turn of the loop. *)
Definition tier_of (cov : option dict) : option Z :=
  tier_num (if dict_truthy cov
            then match cov with Some c => dict_get c "tier_level" | None => VNone end
            else VNone).

Definition flag_higher_tier (selected_medicine : pyval) (p : pairing) : pairing :=
  let sel_cov :=
    get_coverage_info comparator (insurance_name p) selected_medicine in
  let sel_t := tier_of sel_cov in
  let p_t := tier_of (coverage p) in
  set_is_higher_tier
    (match p_t, sel_t with
     | Some a, Some b => int_gt a b
     | _, _ => false
     end)
    p.

(** Lines 334-355: the row offered for the cash channel, if any. *)
Definition cash_row (selected_medicine : pyval) : option pairing :=
  let med_info := get_medicine_info comparator selected_medicine in
  match med_info with
  | Some d =>
      if dict_truthy med_info && truthy (dict_get d "goodrx_price")
         && negb (pd_isna (dict_get d "goodrx_price"))
      then
        try_except
          (gr_annual ← calculate_total_cost med_info None None 12;
           monthly ← py_truediv_int gr_annual 12;
           fm ← py_float (dict_get d "goodrx_price");
           fa ← py_float (dict_get d "goodrx_price");
           Ok (Some
                 {| medicine_name := selected_medicine;
                    insurance_name := VStr "GoodRx (CVS - DC)";
                    medicine := med_info;
                    insurance := None;
                    coverage := None;
                    annual_cost := gr_annual;
                    monthly_cost := VFloat monthly;
                    full_monthly := VFloat fm;
                    full_annual := VFloat (PrimFloat.mul fa 12);
                    goodrx_price := VNone;
                    goodrx_eligible := None;
                    unauth_annual := VNone;
                    copay_amount := VNone;
                    monthly_savings := VNone;
                    annual_savings := VNone;
                    is_cash := Some true;
                    is_higher_tier := None |}))
          None
      else None
  | None => None
  end.

(** Lines 377-386 (and 306-317). *)
Definition name_key (v : pyval) : result pyval :=
  if truthy v
  then match v with
       | VStr s => Ok (VStr (lower s))
       | _ => Raise AttributeError
       end
  else Ok (VStr "").

Definition _key (sort_by : string) (p : pairing) : result pyval :=
  if String.eqb sort_by "medicine" then name_key (medicine_name p)
  else if String.eqb sort_by "insurance" then name_key (insurance_name p)
  else if String.eqb sort_by "monthly" then
    Ok (if negb (is_none (monthly_cost p)) then monthly_cost p
        else VFloat infinity)
  else if String.eqb sort_by "savings" then
    Ok (if negb (is_none (annual_savings p)) then annual_savings p
        else VFloat neg_infinity)
  else
    Ok (if negb (is_none (annual_cost p)) then annual_cost p
        else VFloat infinity).

End WithBuiltins.

(** [list.sort(key=..., reverse=...)]. The keys are computed first. The
    list is then put in order with [<] alone, an element never moving past
    one it is not smaller than; with [reverse] the list is reversed before
    and after, which is how CPython keeps equal elements in their original
    order in both directions. Where [<] orders the keys (numbers without a
    NaN, or texts) every stable sort gives the same list, written here as
    an insertion sort; so does every sort where [<] raises, which it does
    as soon as two keys of different kinds, or a [None], are among two or
    more. Where a key is NaN among numbers the outcome depends on which
    pairs the interpreter compares and is left to [sort_unordered]. *)
Fixpoint insert_by_key {A} (x : pyval * A) (l : list (pyval * A))
  : result (list (pyval * A)) :=
  match l with
  | [] => Ok [x]
  | y :: l' =>
      b ← py_lt y.1 x.1;
      if b : bool then r ← insert_by_key x l'; Ok (y :: r) else Ok (x :: l)
  end.

Fixpoint sort_by_key {A} (l : list (pyval * A)) : result (list (pyval * A)) :=
  match l with
  | [] => Ok []
  | x :: l' => s ← sort_by_key l'; insert_by_key x s
  end.

Definition is_nan_key (k : pyval) : bool :=
  match k with VFloat f => PrimFloat.is_nan f | _ => false end.

(** Numbers, a NaN among them. *)
Definition unordered (keys : list pyval) : bool :=
  forallb is_number keys && existsb is_nan_key keys.

Definition sort_keyed `{Builtins} {A} (l : list (pyval * A))
  : result (list (pyval * A)) :=
  if unordered (map fst l) then Ok (sort_unordered A l) else sort_by_key l.

Definition list_sort `{Builtins} {A} (key : A -> result pyval) (reverse : bool)
  (l : list A) : result (list A) :=
  keyed ← mapM (fun x => k ← key x; Ok (k, x)) l;
  sorted ← sort_keyed (if reverse then rev keyed else keyed);
  Ok (map snd (if reverse then rev sorted else sorted)).

(** *** The view *)

Inductive http_method := GET | POST.

(** The parts of the Flask request the view reads: [request.args] and
    [request.form], each read with [.get]. *)
Record request := {
  method : http_method;
  args : gmap string string;
  form : gmap string string
}.

(** The top card ([current]). *)
Record current_selection := {
  cur_medicine : option dict;
  cur_insurance : option dict;
  cur_coverage : option dict;
  cur_annual_cost : pyval;
  cur_monthly_cost : pyval
}.

(** What the trial questionnaire leaves behind (lines 197-231). *)
Record trial_state := {
  trial_selected : option string;
  trial_index : Z;
  trial_question : option string;
  skip_build_results : bool;
  show_all_after_trial : bool
}.

(** What the view hands to the template, the coverage map and the two
    name lists apart. *)
Record context := {
  ctx_selected_medicine : option string;
  ctx_selected_insurance : option string;
  ctx_current : option current_selection;
  ctx_pairings : list pairing;
  ctx_trial_question : option string;
  ctx_trial_index : Z
}.

Definition form_is (f : gmap string string) (k v : string) : bool :=
  match f !! k with Some x => String.eqb x v | None => false end.

(** Lines 205-208: [int(request.form.get("trial_index") or 0)], 0 when
    that raises. *)
Definition posted_trial_index `{Builtins} (f : gmap string string) : Z :=
  try_except
    (match str_or (f !! "trial_index") None with
     | Some s => int_of_str s
     | None => Ok 0
     end)
    0.

(** Lines 199-231. *)
Definition trial_flow `{Builtins} (f : gmap string string)
  : result trial_state :=
  let n := Z.of_nat (length TRIAL_SEQUENCE) in
  if form_is f "trial_action" "trial" then
    let trial_answer := f !! "trial_answer" in
    let idx := posted_trial_index f in
    match trial_answer with
    | Some a =>
        if String.eqb (lower (strip a)) "no" then
          if idx <? n then
            m ← list_index TRIAL_SEQUENCE idx;
            Ok {| trial_selected := Some m; trial_index := idx;
                  trial_question := None; skip_build_results := false;
                  show_all_after_trial := false |}
          else
            Ok {| trial_selected := None; trial_index := idx;
                  trial_question := None; skip_build_results := false;
                  show_all_after_trial := false |}
        else
          let idx' := idx + 1 in
          if idx' <? n then
            q ← list_index TRIAL_SEQUENCE idx';
            Ok {| trial_selected := None; trial_index := idx';
                  trial_question := Some q; skip_build_results := true;
                  show_all_after_trial := false |}
          else
            Ok {| trial_selected := None; trial_index := idx';
                  trial_question := None; skip_build_results := false;
                  show_all_after_trial := true |}
    | None =>
        Ok {| trial_selected := None; trial_index := idx;
              trial_question := None; skip_build_results := false;
              show_all_after_trial := false |}
    end
  else
    Ok {| trial_selected := None; trial_index := 0;
          trial_question := None; skip_build_results := false;
          show_all_after_trial := false |}.

Section WithBuiltins.
Context `{Builtins}.
Variable comparator : DiabetesCostComparator.

Definition sort_pairings (sort_by sort_order : string) (ps : list pairing)
  : result (list pairing) :=
  let reverse := String.eqb sort_order "desc" in
  list_sort (_key sort_by) reverse ps.

(** Lines 248-320: both fields chosen. *)
Definition exact_selection (selected_medicine selected_insurance : option string)
  (tried_flag : bool) (sort_by sort_order : string)
  : result (option current_selection * list pairing) :=
  let med := opt_text selected_medicine in
  let ins := opt_text selected_insurance in
  let med_info := get_medicine_info comparator med in
  let ins_info := get_insurance_info comparator ins in
  let cov_info := get_coverage_info comparator ins med in
  current ←
    (if dict_truthy med_info && dict_truthy ins_info then
       annual ← calculate_total_cost med_info ins_info cov_info 12;
       monthly ← py_truediv_int annual 12;
       Ok (Some {| cur_medicine := med_info; cur_insurance := ins_info;
                   cur_coverage := cov_info; cur_annual_cost := annual;
                   cur_monthly_cost := VFloat monthly |})
     else Ok None);
  all_for_med ← build_pairings comparator selected_medicine None;
  let others :=
    List.filter
      (fun p => negb (py_eq (medicine_name p) med && py_eq (insurance_name p) ins))
      all_for_med in
  let priced := map populate_unauth others in
  let flagged :=
    if tried_flag then map (flag_higher_tier comparator med) priced
    else priced in
  sorted ← sort_pairings sort_by sort_order flagged;
  Ok (current, sorted).

(** Lines 325-389: one or both fields left blank. *)
Definition broad_query (selected_medicine selected_insurance : option string)
  (tried_flag show_all : bool) (sort_by sort_order : string)
  : result (list pairing) :=
  all_pairs ←
    (if show_all then build_pairings comparator None None
     else build_pairings comparator selected_medicine selected_insurance);
  let with_cash :=
    if str_truthy selected_medicine && negb (str_truthy selected_insurance)
    then match cash_row comparator (opt_text selected_medicine) with
         | Some row => row :: all_pairs
         | None => all_pairs
         end
    else all_pairs in
  let flagged :=
    if tried_flag && str_truthy selected_medicine
    then map (flag_higher_tier comparator (opt_text selected_medicine)) with_cash
    else with_cash in
  let priced := map populate_unauth flagged in
  sort_pairings sort_by sort_order priced.

(** Lines 242-389: the results of a POST. *)
Definition build_results (selected_medicine selected_insurance : option string)
  (tried_flag skip show_all : bool) (sort_by sort_order : string)
  : result (option current_selection * list pairing) :=
  if skip && negb show_all then Ok (None, [])
  else if str_truthy selected_medicine && str_truthy selected_insurance then
    exact_selection selected_medicine selected_insurance tried_flag
      sort_by sort_order
  else
    ps ← broad_query selected_medicine selected_insurance tried_flag show_all
           sort_by sort_order;
    Ok (None, ps).

(** Lines 165-406. *)
Definition index (req : request) : result context :=
  match method req with
  | GET =>
      Ok {| ctx_selected_medicine := None; ctx_selected_insurance := None;
            ctx_current := None; ctx_pairings := [];
            ctx_trial_question := None; ctx_trial_index := 0 |}
  | POST =>
      let f := form req in
      ts ← trial_flow f;
      let selected_medicine :=
        str_or (str_or (trial_selected ts) (f !! "medicine")) None in
      let selected_insurance := str_or (f !! "insurance") None in
      let tried_flag := form_is f "tried" "on" in
      let sort_by := default "annual" (str_or (f !! "sort_by") None) in
      let sort_order := default "asc" (str_or (f !! "order") None) in
      res ← build_results selected_medicine selected_insurance tried_flag
              (skip_build_results ts) (show_all_after_trial ts)
              sort_by sort_order;
      Ok {| ctx_selected_medicine := selected_medicine;
            ctx_selected_insurance := selected_insurance;
            ctx_current := res.1; ctx_pairings := res.2;
            ctx_trial_question := trial_question ts;
            ctx_trial_index := trial_index ts |}
  end.

End WithBuiltins.
End App.

(** ** Sample data for the worked examples *)

Module Sample.
Import Py DcAccess App.

(** The integer a float stands for, when it stands for one. *)
Definition int_of_float_exact (f : float) : option Z :=
  match Prim2SF f with
  | S754_zero _ => Some 0
  | S754_finite s m e =>
      let v := if 0 <=? e then Some (Z.shiftl (Zpos m) e)
               else if Zpos m mod 2 ^ (- e) =? 0 then Some (Z.shiftr (Zpos m) (- e))
               else None in
      (fun n => if s then - n else n) <$> v
  | _ => None
  end.

(** An instance of the interpreter's part that is enough for the
    examples.
    - Floats: it prints NaN, the infinities and the integer-valued floats
      as Python does below 1e16 (any other float as the empty text, which
      no example reads), and parses the ASCII texts that [int] accepts.
    - Text that is not ASCII: [strip] removes the Unicode blanks in their
      UTF-8 encoding; [lower] changes the ASCII letters only; [int] takes
      each Unicode blank for a space and reads ASCII digits only (no
      example has other letters or digits).
    - The limit on conversions between [int] and [str] is the default
      one, 4300 digits.
    - A text is repeated up to 2 ** 20 bytes; a longer one is refused as
      if memory were short.
    - [list.sort] with a NaN key arranges the rows as CPython 3.11 does
      with fewer than 64 of them ([count_run] and [binarysort] of
      listobject.c); no example sorts more rows. *)
Definition sample_str_of_float (f : float) : string :=
  if PrimFloat.is_nan f then "nan"
  else if PrimFloat.eqb f infinity then "inf"
  else if PrimFloat.eqb f neg_infinity then "-inf"
  else
    match int_of_float_exact f with
    | Some n =>
        let negative_zero := PrimFloat.eqb (PrimFloat.div 1 f) neg_infinity in
        (if negative_zero then "-0" else decimal n) ++ ".0"
    | None => ""
    end.

Definition sample_float_of_str (s : string) : option float :=
  match ascii_int s with
  | Some (n, _) => match float_of_int n with Ok f => Some f | Raise _ => None end
  | None => None
  end.

(** The Unicode blanks that take two or three bytes: U+0085, U+00A0;
    U+1680, U+2000 to U+200A, U+2028, U+2029, U+202F, U+205F, U+3000. *)
Definition blank2 (a b : ascii) : bool :=
  let a := nat_of_ascii a in
  let b := nat_of_ascii b in
  ((a =? 194) && ((b =? 133) || (b =? 160)))%nat.

Definition blank3 (a b c : ascii) : bool :=
  let a := nat_of_ascii a in
  let b := nat_of_ascii b in
  let c := nat_of_ascii c in
  ((a =? 225) && (b =? 154) && (c =? 128)
   || (a =? 226) && (b =? 128)
      && ((128 <=? c) && (c <=? 138) || (c =? 168) || (c =? 169) || (c =? 175))
   || (a =? 226) && (b =? 129) && (c =? 159)
   || (a =? 227) && (b =? 128) && (c =? 128))%nat.

(** Leading blanks dropped; [backwards] when the bytes are read from
    the end of the text. *)
Fixpoint drop_blanks (backwards : bool) (s : string) : string :=
  match s with
  | EmptyString => s
  | String a r1 =>
      if is_space a then drop_blanks backwards r1
      else
        match r1 with
        | EmptyString => s
        | String b r2 =>
            if (if backwards then blank2 b a else blank2 a b)
            then drop_blanks backwards r2
            else
              match r2 with
              | EmptyString => s
              | String c r3 =>
                  if (if backwards then blank3 c b a else blank3 a b c)
                  then drop_blanks backwards r3
                  else s
              end
        end
  end.

Definition sample_strip (s : string) : string :=
  rev_string (drop_blanks true (rev_string (drop_blanks false s))).

(** Each Unicode blank of two or three bytes replaced by a space. *)
Fixpoint blanks_to_spaces (s : string) : string :=
  match s with
  | EmptyString => s
  | String a r1 =>
      match r1 with
      | EmptyString => s
      | String b r2 =>
          if blank2 a b then String " " (blanks_to_spaces r2)
          else
            match r2 with
            | EmptyString => String a (blanks_to_spaces r1)
            | String c r3 =>
                if blank3 a b c then String " " (blanks_to_spaces r3)
                else String a (blanks_to_spaces r1)
            end
      end
  end.

Definition sample_int (s : string) : result Z :=
  let body := blanks_to_spaces s in
  if isascii body then
    match ascii_int body with
    | Some (z, count) => if 4300 <? count then Raise ValueError else Ok z
    | None => Raise ValueError
    end
  else Raise ValueError.

Definition sample_repeat (s : string) (n : Z) : result string :=
  if Z.of_nat (String.length s) * n <=? 2 ^ 20
  then Ok (string_repeat s n)
  else Raise MemoryError.

(** [a < b] on the keys of two rows, both numbers. *)
Definition key_lt {A} (a b : pyval * A) : bool :=
  match py_lt a.1 b.1 with Ok r => r | Raise _ => false end.

(** [count_run]: how many rows after [prev] go on a run that does not
    descend, or one that strictly descends. *)
Fixpoint run_ascending {A} (prev : pyval * A) (l : list (pyval * A)) : nat :=
  match l with
  | [] => 0
  | x :: l' => if key_lt x prev then 0 else S (run_ascending x l')
  end.

Fixpoint run_descending {A} (prev : pyval * A) (l : list (pyval * A)) : nat :=
  match l with
  | [] => 0
  | x :: l' => if key_lt x prev then S (run_descending x l') else 0
  end.

(** The length of the run the list starts with, and whether it
    descends. *)
Definition count_run {A} (l : list (pyval * A)) : nat * bool :=
  match l with
  | [] => (0, false)
  | [x] => (1, false)
  | x :: y :: l' =>
      if key_lt y x then (2 + run_descending y l', true)
      else (2 + run_ascending y l', false)
  end%nat.

(** [binarysort]: where [pivot] goes in the sorted rows before it. The
    search halves [l, r) until it is empty; [fuel] bounds its steps. *)
Fixpoint bisect {A} (fuel : nat) (pivot : pyval * A) (sorted : list (pyval * A))
  (l r : nat) : nat :=
  match fuel with
  | O => l
  | S k =>
      if (l <? r)%nat then
        let p := (l + (r - l) / 2)%nat in
        match sorted !! p with
        | Some y =>
            if key_lt pivot y then bisect k pivot sorted l p
            else bisect k pivot sorted (S p) r
        | None => l
        end
      else l
  end.

Definition binary_insert {A} (sorted : list (pyval * A)) (pivot : pyval * A)
  : list (pyval * A) :=
  let i := bisect (S (length sorted)) pivot sorted 0 (length sorted) in
  (take i sorted ++ pivot :: drop i sorted)%list.

Definition small_sort (A : Type) (l : list (pyval * A)) : list (pyval * A) :=
  let '(n, descending) := count_run l in
  let run := take n l in
  foldl binary_insert (if descending then rev run else run) (drop n l).

Lemma binary_insert_perm {A} (sorted : list (pyval * A)) (pivot : pyval * A) :
  binary_insert sorted pivot ≡ₚ pivot :: sorted.
Proof.
  unfold binary_insert. rewrite <- Permutation_middle.
  now rewrite take_drop.
Qed.

Lemma binarysort_perm {A} (rest sorted : list (pyval * A)) :
  foldl binary_insert sorted rest ≡ₚ (sorted ++ rest)%list.
Proof.
  revert sorted. induction rest as [|x rest IH]; intros sorted; cbn [foldl].
  - now rewrite app_nil_r.
  - rewrite IH, binary_insert_perm. apply Permutation_middle.
Qed.

Lemma small_sort_perm (A : Type) (l : list (pyval * A)) : small_sort A l ≡ₚ l.
Proof.
  unfold small_sort. destruct (count_run l) as [n descending].
  rewrite binarysort_perm.
  transitivity (take n l ++ drop n l)%list; [|now rewrite take_drop].
  apply Permutation_app_tail.
  destruct descending; [symmetry; apply Permutation_rev | reflexivity].
Qed.

#[export] Instance builtins : Builtins :=
  {| str_of_float := sample_str_of_float;
     float_of_str := sample_float_of_str;
     unicode_strip := sample_strip;
     unicode_lower := ascii_lower;
     int_of_unicode := sample_int;
     int_max_str_digits := 4300;
     str_repeat := sample_repeat;
     sort_unordered := small_sort;
     sort_unordered_perm := small_sort_perm |}.

Definition medicine_row (name : string) (avg goodrx : pyval) : dict :=
  {[ "medicine_name" := VStr name;
     "average_cost_per_month" := avg;
     "goodrx_price" := goodrx ]}.

Definition insurance_row (name : string) (deductible : pyval) : dict :=
  {[ "insurance_name" := VStr name;
     "deductible" := deductible;
     "coverage_percentage" := VInt 80 ]}.

Definition coverage_row (ins med : string) (covered copay tier : pyval) : dict :=
  {[ "insurance_name" := VStr ins;
     "medicine_name" := VStr med;
     "covered" := covered;
     "copay_amount" := copay;
     "tier_level" := tier ]}.

Definition metformin := medicine_row "Metformin" (VFloat 4) (VFloat nan).
Definition glipizide := medicine_row "Glipizide" (VFloat 10) (VFloat 25).
Definition januvia := medicine_row "Januvia" (VFloat 500) (VFloat 0).
Definition cigna := insurance_row "Cigna" (VFloat 100).
Definition aetna := insurance_row "Aetna" (VFloat 250).

Definition clinic : DiabetesCostComparator :=
  {| medicines_df := [metformin; glipizide; januvia];
     insurance_df := [cigna; aetna];
     coverage_df :=
       [coverage_row "Cigna" "Metformin" (VStr "Yes") (VFloat 10) (VStr "Tier 1");
        coverage_row "Cigna" "Glipizide" (VStr "No") (VFloat nan) (VStr "Tier 2");
        coverage_row "Aetna" "Glipizide" (VStr " yes ") (VFloat 5) (VStr "Tier 3")] |}.

(** A bare row with the given names, annual cost and annual savings. *)
Definition row (med ins : string) (annual savings : pyval) : pairing :=
  {| medicine_name := VStr med; insurance_name := VStr ins;
     medicine := None; insurance := None; coverage := None;
     annual_cost := annual; monthly_cost := VNone;
     full_monthly := VNone; full_annual := VNone;
     goodrx_price := VNone; goodrx_eligible := None;
     unauth_annual := VNone; copay_amount := VNone;
     monthly_savings := VNone; annual_savings := savings;
     is_cash := None; is_higher_tier := None |}.

Definition post (fields : list (string * string)) : request :=
  {| method := POST; args := ∅; form := list_to_map fields |}.

End Sample.


(** ** The specification's wording, for comparison with the code *)

Module Spec.
Import Py DcAccess App.

Section WithBuiltins.
Context `{Builtins}.

(** "Numeric", in the specification's sense: present, not null, readable
    as a float, and not NaN. *)
Definition numeric (v : pyval) : option float :=
  match py_float v with
  | Ok f => if PrimFloat.is_nan f then None else Some f
  | Raise _ => None
  end.

(** "0 if missing or non-numeric". *)
Definition number_or_zero (v : pyval) : float := default 0%float (numeric v).

(** What the code does instead: 0 only where [float] raises. *)
Definition amount_or_zero (v : pyval) : float :=
  match py_float v with Ok f => f | Raise _ => 0%float end.

Definition deductible_amount (insurance_info : option dict) : float :=
  match insurance_info with
  | Some d => amount_or_zero (dict_get d "deductible")
  | None => 0%float
  end.

(** Covered branch as worded: copay × months + deductible, the copay 0 if
    missing or non-numeric. *)
Definition claimed_covered_cost (insurance_info : option dict) (cov : dict)
  (months : Z) : result pyval :=
  fm ← float_of_int months;
  Ok (VFloat (PrimFloat.add
                (PrimFloat.mul (number_or_zero (dict_get cov "copay_amount")) fm)
                (deductible_amount insurance_info))).


(** The text [tier_num] hands to [int]: "Tier 2" gives "2". *)
Definition tier_text (s : string) : string :=
  strip (remove_sub "tier" 0 (lower (strip s))).

(** "The pairing's tier number is strictly greater than that of the
    selected medicine under the pairing's insurance, both parsed". *)
Definition higher_tier (comparator : DiabetesCostComparator)
  (selected_medicine : pyval) (p : pairing) : Prop :=
  exists p_t sel_t,
    tier_of (coverage p) = Some p_t
    /\ tier_of (get_coverage_info comparator (insurance_name p) selected_medicine)
       = Some sel_t
    /\ sel_t < p_t.

(** The flag a pairing carries says exactly that. *)
Definition flagged_as (comparator : DiabetesCostComparator)
  (selected_medicine : pyval) (p : pairing) : Prop :=
  exists b, is_higher_tier p = Some b
    /\ (b = true <-> higher_tier comparator selected_medicine p).

End WithBuiltins.

(** The place of a sort key in Python's order: a number other than NaN
    by its exact value, a text by its bytes. [<] is defined between two
    numbers and between two texts; that numbers come before texts below
    only makes the order total, and no property compares the two. *)
Inductive sort_rank :=
| RNum (x : xnum)
| RText (s : string).

#[global] Instance sort_rank_eq_dec : EqDecision sort_rank.
Proof. solve_decision. Defined.

Definition rank_ltb (a b : sort_rank) : bool :=
  match a, b with
  | RNum x, RNum y => xnum_ltb x y
  | RText s, RText t => String.ltb s t
  | RNum _, RText _ => true
  | RText _, RNum _ => false
  end.

Definition is_text_rank (a : sort_rank) : bool :=
  match a with RText _ => true | RNum _ => false end.

Definition rank_of_key (k : pyval) : option sort_rank :=
  match k with
  | VStr s => Some (RText s)
  | _ => RNum <$> exact k
  end.

(** A stable sort on ranks, by insertion from the right: what
    [list_sort] computes when the keys are numbers other than NaN, or
    texts. *)
Fixpoint insert_ranked {A} (rank : A -> sort_rank) (x : A) (l : list A) : list A :=
  match l with
  | [] => [x]
  | y :: l' =>
      if rank_ltb (rank y) (rank x) then y :: insert_ranked rank x l'
      else x :: l
  end.

Definition sort_ranked {A} (rank : A -> sort_rank) (l : list A) : list A :=
  foldr (insert_ranked rank) [] l.

(** [a <= b] on ranks. *)
Definition rank_le (a b : sort_rank) : Prop := rank_ltb b a = false.

(** The rank of a row under a sort key, when the key has one. *)
Definition key_rank `{Builtins} (sort_by : string) (p : pairing)
  : option sort_rank :=
  match _key sort_by p with
  | Ok k => rank_of_key k
  | Raise _ => None
  end.

Definition rank_of `{Builtins} (sort_by : string) (p : pairing) : sort_rank :=
  default (RNum (XFin 0)) (key_rank sort_by p).

(** The keys of the rows are numbers other than NaN, or they are
    texts. *)
Definition ordered_keys `{Builtins} (sort_by : string) (ps : list pairing)
  : Prop :=
  Forall (fun p => exists x, key_rank sort_by p = Some (RNum x)) ps
  \/ Forall (fun p => exists s, key_rank sort_by p = Some (RText s)) ps.

(** "monthly_cost = annual_cost / 12", in Python's arithmetic. *)
Definition monthly_is_annual_over_12 (annual monthly : pyval) : Prop :=
  VFloat <$> py_truediv_int annual 12 = Ok monthly.

Definition pairing_monthly_ok (p : pairing) : Prop :=
  monthly_is_annual_over_12 (annual_cost p) (monthly_cost p).

End Spec.


(** ** app.py: the money filter *)

Module Money.
Import Py.

(** [int(v)] on a float: the integer part, towards zero. *)
Definition int_of_float (v : float) : result Z :=
  match Prim2SF v with
  | S754_zero _ => Ok 0
  | S754_infinity _ => Raise OverflowError
  | S754_nan => Raise ValueError
  | S754_finite s m e =>
      Ok (cond_Zopp s
            (if 0 <=? e then Z.pos m * 2 ^ e else Z.pos m / 2 ^ (- e)))
  end.

(** The integer nearest to [num / den], ties to the even one
    ([0 <= num], [0 < den]). *)
Definition round_half_even (num den : Z) : Z :=
  let q := num / den in
  let r := num mod den in
  if 2 * r <? den then q
  else if den <? 2 * r then q + 1
  else if Z.even q then q else q + 1.

Definition two_digits (n : Z) : string :=
  let pad := if n <? 10 then "0" else "" in
  (pad ++ decimal n)%string.

(** [f"{v:.2f}"]: the decimal with two places nearest to the exact value
    of [v], ties to even; the sign is kept, also on a zero. *)
Definition format_2f (v : float) : string :=
  match Prim2SF v with
  | S754_nan => "nan"
  | S754_infinity s => if s then "-inf" else "inf"
  | S754_zero s => if s then "-0.00" else "0.00"
  | S754_finite s m e =>
      let cents :=
        if 0 <=? e then Z.pos m * 2 ^ e * 100
        else round_half_even (Z.pos m * 100) (2 ^ (- e)) in
      let sign := if s then "-" else "" in
      let whole := decimal (cents / 100) in
      (sign ++ whole ++ "." ++ two_digits (cents mod 100))%string
  end.

Section WithBuiltins.
Context `{Builtins}.

(** Lines 15-26. *)
Definition format_money (value : pyval) : result pyval :=
  match py_float value with
  | Raise TypeError | Raise ValueError =>
      Ok (if is_none value then VStr "" else value)
  | Raise e => Raise e
  | Ok v =>
      if PrimFloat.is_nan v then Ok (VStr "")
      else
        n ← int_of_float v;
        d ← float_sub v (VInt n);
        if PrimFloat.ltb (PrimFloat.abs d) 0x1.12e0be826d695p-30
        then VStr <$> str_of_int n
        else Ok (VStr (format_2f v))
  end.

End WithBuiltins.

End Money.

(** ** Shapes the pairing builder is compared with *)

Module Shape.
Import Py DcAccess App.

(** The (medicine, insurance) names [build_pairings] goes through, in
    order, for a selection. *)
Definition enumeration (comparator : DiabetesCostComparator)
  (selected_medicine selected_insurance : option string) : list (pyval * pyval) :=
  let med_list := column (medicines_df comparator) "medicine_name" in
  let ins_list := column (insurance_df comparator) "insurance_name" in
  match str_truthy selected_medicine, str_truthy selected_insurance with
  | false, false => list_prod med_list ins_list
  | true, false => map (fun i => (opt_text selected_medicine, i)) ins_list
  | false, true => map (fun m => (m, opt_text selected_insurance)) med_list
  | true, true => [(opt_text selected_medicine, opt_text selected_insurance)]
  end.

Definition names (p : pairing) : pyval * pyval :=
  (medicine_name p, insurance_name p).

(** A cell that equals itself under [==]: text and numbers other than NaN. *)
Definition self_equal (v : pyval) : bool := pd_eq v v.

(** [found] is the first row of [rows] that passes [test], or [None] when
    none does. *)
Definition first_match (test : dict -> bool) (rows : list dict)
  (found : option dict) : Prop :=
  match found with
  | None => Forall (fun row => test row = false) rows
  | Some d =>
      exists before after,
        rows = (before ++ d :: after)%list
        /\ test d = true
        /\ Forall (fun row => test row = false) before
  end.

(** A medicine row the resolver can always price: its average cost is a
    float (NaN included) or the column is missing. *)
Definition priced (row : dict) : Prop :=
  match row !! "average_cost_per_month" with
  | None | Some (VFloat _) => True
  | Some _ => False
  end.


(** The derived money fields of a row [add_pair] builds, for the
    enclosing [selected_insurance]. *)
Definition savings_consistent (selected_insurance : option string)
  (p : pairing) : Prop :=
  exists fm,
    full_monthly p = VFloat fm
    /\ full_annual p = VFloat (PrimFloat.mul fm 12)
    /\ VFloat <$> float_sub (PrimFloat.mul fm 12) (annual_cost p)
       = Ok (annual_savings p)
    /\ match copay_amount p with
       | VNone => monthly_savings p = VNone
       | VFloat c => monthly_savings p = VFloat (PrimFloat.sub fm c)
       | _ => False
       end
    /\ (str_truthy selected_insurance = false ->
        forall g, goodrx_price p = VFloat g -> fm = g).

(** The unauthorized price a row ends up with. *)
Definition unauth_settled (p : pairing) : Prop :=
  unauth_annual p =
    match unauthorized_cost (insurance_name p) (medicine_name p) with
    | Some u => VFloat u
    | None => full_annual p
    end.

(** A row of the selected medicine [m]: its coverage record is that
    medicine's under the row's insurance, or absent. *)
Definition own_row (comparator : DiabetesCostComparator) (m : string)
  (p : pairing) : Prop :=
  coverage p = get_coverage_info comparator (insurance_name p) (VStr m)
  \/ coverage p = None.

Definition is_text (v : pyval) : bool :=
  match v with VStr _ => true | _ => false end.

(** All the sort keys of the rows are numbers (NaN included), or all are
    text. *)
Definition comparable_keys `{Builtins} (sort_by : string) (ps : list pairing)
  : Prop :=
  Forall (fun p => exists k, _key sort_by p = Ok k /\ is_number k = true) ps
  \/ Forall (fun p => exists k, _key sort_by p = Ok k /\ is_text k = true) ps.

End Shape.

(** ** Text without blanks, text that [lower] and [replace] leave alone *)

Module Text.
Import Py.

Definition plain (s : string) : Prop :=
  Forall (fun c => is_space c = false) (list_ascii_of_string s).

Definition inert (c : ascii) : Prop := lower_ascii c = c /\ c <> "t"%char.

Definition blank (s : string) : Prop :=
  Forall (fun c => is_space c = true) (list_ascii_of_string s).

End Text.

(** ** A frame with a blank name cell *)

Module Cases.
Import Py DcAccess App.

(** [Sample.clinic] with one more medicine row, its name cell empty in the
    file (NaN in the frame). *)
Definition blank_row : dict :=
  {[ "medicine_name" := VFloat nan;
     "average_cost_per_month" := VFloat 7;
     "goodrx_price" := VFloat nan ]}.

Definition blank_clinic : DiabetesCostComparator :=
  {| medicines_df := medicines_df Sample.clinic ++ [blank_row];
     insurance_df := insurance_df Sample.clinic;
     coverage_df := coverage_df Sample.clinic |}.

End Cases.

(** * Properties *)

Import Py DcAccess App.

(** ** Floats *)

Lemma SFadd_comm (x y : spec_float) : SFadd prec emax x y = SFadd prec emax y x.
Proof.
  destruct x as [[]|[]| |[] mx ex], y as [[]|[]| |[] my ey]; cbn; try reflexivity;
    rewrite (Z.min_comm ey ex); f_equal; apply Z.add_comm.
Qed.

Lemma float_add_comm (x y : float) : PrimFloat.add x y = PrimFloat.add y x.
Proof.
  apply Prim2SF_inj. rewrite !add_spec. apply SFadd_comm.
Qed.

(** ** Cost resolver *)

Section CostResolver.
Context `{Builtins}.

Lemma amount_or_zero_none : Spec.amount_or_zero VNone = 0%float.
Proof. reflexivity. Qed.

Lemma amount_or_zero_float (f : float) : Spec.amount_or_zero (VFloat f) = f.
Proof. reflexivity. Qed.

Lemma amount_or_zero_not_text (s : string) :
  float_of_str s = None -> Spec.amount_or_zero (VStr s) = 0%float.
Proof. intros E. unfold Spec.amount_or_zero. cbn. now rewrite E. Qed.

Lemma deductible_of_amount (ins : option dict) :
  deductible_of ins = Spec.deductible_amount ins.
Proof.
  unfold deductible_of, Spec.deductible_amount, Spec.amount_or_zero, dict_truthy.
  destruct ins as [d|]; [|reflexivity].
  case_bool_decide as E; cbn.
  - subst d. reflexivity.
  - destruct (dict_get d "deductible"); cbn; try reflexivity.
Qed.


Lemma float_of_int_raises (n : Z) (e : exn) :
  float_of_int n = Raise e -> e = OverflowError.
Proof.
  unfold float_of_int. destruct (PrimFloat.is_infinity _); [|discriminate].
  now intros [= <-].
Qed.

(** C1, as amended. When the coverage record says "yes" (trimmed, any
    case), the resolver returns copay_amount × months + deductible for
    every medicine argument, the months taken as a float: a duration that
    [float] cannot represent raises OverflowError. The copay is 0 where
    [float] rejects the field (missing, [None], text that is not a number)
    and is otherwise used as it is, a NaN included; the deductible is 0 when
    the insurance is absent or [float] rejects the field. No other field of
    the three records enters the result. *)
Theorem covered_cost_is_copay_times_months_plus_deductible
  (med ins : option dict) (cov : dict) (months : Z) :
  covered_flag (Some cov) = true ->
  (forall fm, float_of_int months = Ok fm ->
   calculate_total_cost med ins (Some cov) months =
     Ok (VFloat (PrimFloat.add
                   (PrimFloat.mul (Spec.amount_or_zero (dict_get cov "copay_amount")) fm)
                   (Spec.deductible_amount ins))))
  /\ (forall e, float_of_int months = Raise e ->
      e = OverflowError
      /\ calculate_total_cost med ins (Some cov) months = Raise OverflowError)
  /\ Spec.amount_or_zero VNone = 0%float
  /\ (forall s, float_of_str s = None -> Spec.amount_or_zero (VStr s) = 0%float)
  /\ (forall f, Spec.amount_or_zero (VFloat f) = f)
  /\ Spec.deductible_amount None = 0%float.
Proof.
  intros Hc.
  assert (E : calculate_total_cost med ins (Some cov) months =
              (fm ← float_of_int months;
               Ok (VFloat (PrimFloat.add
                             (PrimFloat.mul
                                (Spec.amount_or_zero (dict_get cov "copay_amount")) fm)
                             (Spec.deductible_amount ins))))).
  { unfold calculate_total_cost. rewrite Hc. cbn.
    rewrite deductible_of_amount. unfold float_mul_int.
    destruct (float_of_int months); cbn; [|reflexivity].
    now rewrite float_add_comm. }
  split; [|split; [|split; [|split; [|split]]]].
  - intros fm Hm. now rewrite E, Hm.
  - intros e Hm. pose proof (float_of_int_raises _ _ Hm) as ->.
    split; [reflexivity|]. now rewrite E, Hm.
  - apply amount_or_zero_none.
  - apply amount_or_zero_not_text.
  - apply amount_or_zero_float.
  - reflexivity.
Qed.


Lemma numeric_float (v : pyval) (g : float) :
  Spec.numeric v = Some g ->
  py_float v = Ok g /\ is_none v = false /\ pd_isna v = false.
Proof.
  unfold Spec.numeric.
  destruct v as [|s|z|f]; cbn.
  - discriminate.
  - destruct (float_of_str s) as [f|]; [|discriminate].
    destruct (PrimFloat.is_nan f); [discriminate|]. now intros [= ->].
  - destruct (float_of_int z) as [f|]; [|discriminate].
    destruct (PrimFloat.is_nan f); [discriminate|]. now intros [= ->].
  - destruct (PrimFloat.is_nan f); [discriminate|]. now intros [= ->].
Qed.

Lemma cash_price_attempt_numeric (med : dict) (g : float) (n : Z) (fn : float) :
  Spec.numeric (dict_get med "goodrx_price") = Some g ->
  float_of_int n = Ok fn ->
  cash_price_attempt (Some med) None n = Some (VFloat (PrimFloat.mul g fn)).
Proof.
  intros Hg Hn. apply numeric_float in Hg as (Hf & Hnone & Hna).
  unfold cash_price_attempt. cbn. rewrite Hnone, Hna, Hf. cbn.
  unfold float_mul_int. rewrite Hn. reflexivity.
Qed.

Lemma float_of_int_12 : float_of_int 12 = Ok 12%float.
Proof. vm_compute. reflexivity. Qed.

Lemma cash_cost_12 (med : dict) (g : float) :
  Spec.numeric (dict_get med "goodrx_price") = Some g ->
  calculate_total_cost (Some med) None None 12 = Ok (VFloat (PrimFloat.mul g 12)).
Proof.
  intros Hg. unfold calculate_total_cost. cbn.
  rewrite (cash_price_attempt_numeric med g 12 12%float Hg float_of_int_12).
  reflexivity.
Qed.

Lemma cash_price_attempt_overflow (med : dict) (g : float) (n : Z) (e : exn) :
  Spec.numeric (dict_get med "goodrx_price") = Some g ->
  float_of_int n = Raise e ->
  cash_price_attempt (Some med) None n = None.
Proof.
  intros Hg Hn. apply numeric_float in Hg as (Hf & Hnone & Hna).
  unfold cash_price_attempt. cbn. rewrite Hnone, Hna, Hf. cbn.
  unfold float_mul_int. rewrite Hn. reflexivity.
Qed.

(** C3, as amended. For a medicine with a numeric cash price, no
    insurance supplied and the covered flag false, the resolver returns
    goodrx_price × months for every duration that [float] can represent;
    with no coverage record and twelve months that is goodrx_price × 12.
    For a duration that [float] cannot represent the product raises inside
    the [try] block, and the resolver returns what the fallback gives,
    average_cost_per_month × months. *)
Theorem cash_cost_is_goodrx_times_months
  (med : dict) (cov : option dict) (months : Z) (g : float) :
  Spec.numeric (dict_get med "goodrx_price") = Some g ->
  covered_flag cov = false ->
  (forall fm, float_of_int months = Ok fm ->
     calculate_total_cost (Some med) None cov months
     = Ok (VFloat (PrimFloat.mul g fm)))
  /\ (forall e, float_of_int months = Raise e ->
      calculate_total_cost (Some med) None cov months
      = py_mul_int (dict_get_default med "average_cost_per_month" (VInt 0)) months)
  /\ calculate_total_cost (Some med) None None 12 = Ok (VFloat (PrimFloat.mul g 12)).
Proof.
  intros Hg Hc. split; [|split].
  - intros fm Hm. unfold calculate_total_cost. rewrite Hc. cbn.
    rewrite (cash_price_attempt_numeric med g months fm Hg Hm). reflexivity.
  - intros e Hm. unfold calculate_total_cost. rewrite Hc. cbn.
    rewrite (cash_price_attempt_overflow med g months e Hg Hm). reflexivity.
  - apply cash_cost_12, Hg.
Qed.



End CostResolver.

(** ** The error monad and the list helpers *)

Lemma bind_Ok {A B} (r : result A) (k : A -> result B) (b : B) :
  (r ≫= k) = Ok b -> exists a, r = Ok a /\ k a = Ok b.
Proof. destruct r as [a|e]; cbn; [eauto | discriminate]. Qed.

Ltac bind_inv H :=
  let a := fresh "a" in
  let E := fresh "E" in
  apply bind_Ok in H; destruct H as (a & E & H).

Lemma mapM_Forall2 {A B} (f : A -> result B) (l : list A) (ys : list B) :
  mapM f l = Ok ys -> Forall2 (fun x y => f x = Ok y) l ys.
Proof.
  revert ys. induction l as [|x l IH]; intros ys Hm; cbn in Hm.
  - injection Hm as <-. constructor.
  - bind_inv Hm. bind_inv Hm. injection Hm as <-. constructor; auto.
Qed.

Lemma mapM_Forall {A B} (P : B -> Prop) (f : A -> result B) (l : list A)
  (ys : list B) :
  (forall x y, f x = Ok y -> P y) -> mapM f l = Ok ys -> Forall P ys.
Proof.
  intros Hf Hm. apply mapM_Forall2 in Hm.
  induction Hm; constructor; eauto.
Qed.

Lemma mapM_keyed {A} (key : A -> result pyval) (l : list A)
  (keyed : list (pyval * A)) :
  mapM (fun x => k ← key x; Ok (k, x)) l = Ok keyed ->
  map snd keyed = l /\ Forall (fun kx => key kx.2 = Ok kx.1) keyed.
Proof.
  revert keyed. induction l as [|x l IH]; intros keyed Hm; cbn in Hm.
  - injection Hm as <-. split; constructor.
  - bind_inv Hm. bind_inv E. injection E as <-. bind_inv Hm. injection Hm as <-.
    destruct (IH _ E) as [IH1 IH2]. cbn. split; [now rewrite IH1|].
    constructor; auto.
Qed.

Lemma Forall_list_filter {A} (P : A -> Prop) (f : A -> bool) (l : list A) :
  Forall P l -> Forall P (List.filter f l).
Proof.
  induction 1 as [|x l Hx Hl IH]; cbn; [constructor|].
  destruct (f x); [constructor|]; auto.
Qed.

Lemma insert_by_key_perm {A} (x : pyval * A) (l s : list (pyval * A)) :
  insert_by_key x l = Ok s -> s ≡ₚ x :: l.
Proof.
  revert s. induction l as [|y l IH]; intros s Hi; cbn in Hi.
  - injection Hi as <-. reflexivity.
  - bind_inv Hi. destruct a.
    + bind_inv Hi. injection Hi as <-. rewrite (IH _ E0). apply perm_swap.
    + injection Hi as <-. reflexivity.
Qed.

Lemma sort_by_key_perm {A} (l s : list (pyval * A)) :
  sort_by_key l = Ok s -> s ≡ₚ l.
Proof.
  revert s. induction l as [|x l IH]; intros s Hs; cbn in Hs.
  - injection Hs as <-. reflexivity.
  - bind_inv Hs. apply insert_by_key_perm in Hs. rewrite Hs, (IH _ E). reflexivity.
Qed.

Lemma sort_keyed_perm `{Builtins} {A} (l s : list (pyval * A)) :
  sort_keyed l = Ok s -> s ≡ₚ l.
Proof.
  unfold sort_keyed. destruct (unordered (map fst l)).
  - intros [= <-]. apply sort_unordered_perm.
  - apply sort_by_key_perm.
Qed.

Lemma list_sort_perm `{Builtins} {A} (key : A -> result pyval) (reverse : bool)
  (l s : list A) :
  list_sort key reverse l = Ok s -> s ≡ₚ l.
Proof.
  unfold list_sort. intros Hs. bind_inv Hs. bind_inv Hs. injection Hs as <-.
  apply mapM_keyed in E as [E _]. apply sort_keyed_perm in E0.
  rewrite <- E.
  destruct reverse.
  - rewrite <- !Permutation_rev, E0, <- Permutation_rev. reflexivity.
  - now rewrite E0.
Qed.

(** ** Pairing builder *)

Section PairingBuilder.
Context `{Builtins}.
Variable comparator : DiabetesCostComparator.

Lemma add_pair_monthly (si : option string) (m i : pyval) (p : pairing) :
  add_pair comparator si m i = Ok p -> Spec.pairing_monthly_ok p.
Proof.
  unfold add_pair. intros Ha. bind_inv Ha. bind_inv Ha. bind_inv Ha.
  injection Ha as <-.
  unfold Spec.pairing_monthly_ok, Spec.monthly_is_annual_over_12. cbn.
  now rewrite E0.
Qed.

Lemma build_pairings_Forall (P : pairing -> Prop)
  (sm si : option string) (ps : list pairing) :
  (forall si' m i p, add_pair comparator si' m i = Ok p -> P p) ->
  build_pairings comparator sm si = Ok ps -> Forall P ps.
Proof.
  intros HP. unfold build_pairings.
  repeat case_match; intros Hb;
    try (eapply mapM_Forall; [|exact Hb]; cbn; intros; eapply HP; eassumption).
  bind_inv Hb. injection Hb as <-. repeat constructor. eapply HP; eassumption.
Qed.

Lemma cash_row_monthly (m : pyval) (row : pairing) :
  cash_row comparator m = Some row -> Spec.pairing_monthly_ok row.
Proof.
  unfold cash_row. destruct (get_medicine_info comparator m) as [d|]; [|discriminate].
  case_match; [|discriminate].
  destruct (calculate_total_cost (Some d) None None 12) as [a|]; [|discriminate]. cbn.
  destruct (py_truediv_int a 12) as [mo|] eqn:Em; [|discriminate]. cbn.
  destruct (py_float (dict_get d "goodrx_price")) as [g|]; [|discriminate]. cbn.
  intros [= <-].
  unfold Spec.pairing_monthly_ok, Spec.monthly_is_annual_over_12. cbn.
  now rewrite Em.
Qed.

Lemma sort_pairings_Forall (P : pairing -> Prop) (sb so : string)
  (ps s : list pairing) :
  sort_pairings sb so ps = Ok s -> Forall P ps -> Forall P s.
Proof.
  intros Hs HP. apply list_sort_perm in Hs. now rewrite Hs.
Qed.

Lemma results_monthly (sm si : option string) (tried skip show_all : bool)
  (sb so : string) (cur : option current_selection) (ps : list pairing) :
  build_results comparator sm si tried skip show_all sb so = Ok (cur, ps) ->
  Forall Spec.pairing_monthly_ok ps
  /\ (forall c, cur = Some c ->
      Spec.monthly_is_annual_over_12 (cur_annual_cost c) (cur_monthly_cost c)).
Proof.
  unfold build_results.
  destruct (skip && negb show_all).
  { intros [= <- <-]. split; [constructor | discriminate]. }
  destruct (str_truthy sm && str_truthy si).
  - unfold exact_selection. intros Hr.
    apply bind_Ok in Hr as (current & E & Hr).
    apply bind_Ok in Hr as (all_for_med & Hb & Hr).
    apply bind_Ok in Hr as (sorted & Hs & Hr).
    injection Hr as <- <-. split.
    + eapply sort_pairings_Forall; [exact Hs|].
      assert (Hall : Forall Spec.pairing_monthly_ok all_for_med)
        by (eapply build_pairings_Forall; [apply add_pair_monthly | exact Hb]).
      apply (Forall_list_filter _
               (fun p => negb (py_eq (medicine_name p) (opt_text sm)
                                 && py_eq (insurance_name p) (opt_text si)))) in Hall.
      destruct tried.
      * rewrite !Forall_map. eapply Forall_impl; [exact Hall|]. auto.
      * rewrite Forall_map. eapply Forall_impl; [exact Hall|]. auto.
    + intros c ->. destruct (dict_truthy _ && dict_truthy _); [|discriminate].
      apply bind_Ok in E as (annual & _ & E).
      apply bind_Ok in E as (monthly & Em & E). injection E as <-.
      unfold Spec.monthly_is_annual_over_12. cbn. now rewrite Em.
  - intros Hr. apply bind_Ok in Hr as (sorted & Hq & Hr).
    injection Hr as <- <-. split; [|discriminate].
    unfold broad_query in Hq. apply bind_Ok in Hq as (pairs & Hb & Hs).
    eapply sort_pairings_Forall; [exact Hs|].
    assert (Hall : Forall Spec.pairing_monthly_ok pairs).
    { destruct show_all;
        (eapply build_pairings_Forall; [apply add_pair_monthly | exact Hb]). }
    assert (Hcash : Forall Spec.pairing_monthly_ok
              (if str_truthy sm && negb (str_truthy si)
               then match cash_row comparator (opt_text sm) with
                    | Some row => row :: pairs
                    | None => pairs
                    end
               else pairs)).
    { destruct (str_truthy sm && negb (str_truthy si)); [|exact Hall].
      destruct (cash_row comparator (opt_text sm)) eqn:Ec; [|exact Hall].
      constructor; [eapply cash_row_monthly; exact Ec | exact Hall]. }
    rewrite Forall_map.
    destruct (tried && str_truthy sm).
    + rewrite Forall_map. eapply Forall_impl; [exact Hcash|]. auto.
    + eapply Forall_impl; [exact Hcash|]. auto.
Qed.

(** C4. Every pairing produced for output has monthly_cost = annual_cost /
    12: the rows [build_pairings] returns, the cash-channel row, and in the
    context the view renders both the rows and the current-selection
    summary. *)
Theorem monthly_cost_is_annual_cost_over_12 :
  (forall sm si ps, build_pairings comparator sm si = Ok ps ->
     Forall Spec.pairing_monthly_ok ps)
  /\ (forall m row, cash_row comparator m = Some row ->
     Spec.pairing_monthly_ok row)
  /\ (forall req ctx, index comparator req = Ok ctx ->
     Forall Spec.pairing_monthly_ok (ctx_pairings ctx)
     /\ (forall c, ctx_current ctx = Some c ->
         Spec.monthly_is_annual_over_12 (cur_annual_cost c) (cur_monthly_cost c))).
Proof.
  split; [|split].
  - intros sm si ps. apply build_pairings_Forall, add_pair_monthly.
  - apply cash_row_monthly.
  - intros req ctx. unfold index. destruct (method req).
    + intros [= <-]. cbn. split; [constructor | discriminate].
    + intros Hi. apply bind_Ok in Hi as (ts & _ & Hi).
      apply bind_Ok in Hi as ([cur ps] & Hr & Hi). injection Hi as <-. cbn.
      eapply results_monthly. exact Hr.
Qed.

Lemma truediv_float_12 (x : float) :
  py_truediv_int (VFloat x) 12 = Ok (PrimFloat.div x 12).
Proof. unfold py_truediv_int. rewrite float_of_int_12. reflexivity. Qed.

Lemma truthy_dict_get (d : dict) (k : string) :
  truthy (dict_get d k) = true -> dict_truthy (Some d) = true.
Proof.
  unfold dict_truthy. case_bool_decide as E; [|reflexivity].
  subst d. unfold dict_get. rewrite lookup_empty. discriminate.
Qed.

Lemma add_pair_not_cash (si : option string) (m i : pyval) (p : pairing) :
  add_pair comparator si m i = Ok p -> is_cash p = None.
Proof.
  unfold add_pair. intros Ha. bind_inv Ha. bind_inv Ha. bind_inv Ha.
  now injection Ha as <-.
Qed.

Lemma build_pairings_not_cash (sm si : option string) (ps : list pairing) :
  build_pairings comparator sm si = Ok ps -> Forall (fun p => is_cash p = None) ps.
Proof. apply build_pairings_Forall. apply add_pair_not_cash. Qed.

(** The cash channel where it is offered. When a medicine is selected,
    insurance is left unselected and the step builds results, and the
    medicine's cash price is numeric and true as a condition (not zero),
    exactly one cash-channel row is put at position 0 of the pairing list
    before the flags, the unauthorized prices and the sort: it carries no
    insurance and no coverage record, is the only row tagged [is_cash], and
    has full_annual = annual_cost = goodrx_price × 12. *)
Lemma cash_row_is_prepended
  (m : string) (d : dict) (g : float) (tried show_all : bool) (sb so : string) :
  m <> "" ->
  get_medicine_info comparator (VStr m) = Some d ->
  Spec.numeric (dict_get d "goodrx_price") = Some g ->
  truthy (dict_get d "goodrx_price") = true ->
  exists row,
    cash_row comparator (VStr m) = Some row
    /\ medicine_name row = VStr m
    /\ insurance row = None /\ coverage row = None
    /\ is_cash row = Some true
    /\ full_annual row = VFloat (PrimFloat.mul g 12)
    /\ annual_cost row = VFloat (PrimFloat.mul g 12)
    /\ forall pairs,
         (if show_all then build_pairings comparator None None
          else build_pairings comparator (Some m) None) = Ok pairs ->
         Forall (fun p => is_cash p = None) pairs
         /\ build_results comparator (Some m) None tried false show_all sb so =
            (ps ← sort_pairings sb so
                    (map populate_unauth
                       (if tried
                        then map (flag_higher_tier comparator (VStr m)) (row :: pairs)
                        else row :: pairs));
             Ok (None, ps)).
Proof.
  intros Hm Hget Hg Ht.
  assert (Hrow : exists row, cash_row comparator (VStr m) = Some row
            /\ medicine_name row = VStr m
            /\ insurance row = None /\ coverage row = None
            /\ is_cash row = Some true
            /\ full_annual row = VFloat (PrimFloat.mul g 12)
            /\ annual_cost row = VFloat (PrimFloat.mul g 12)).
  { unfold cash_row. rewrite Hget, (truthy_dict_get _ _ Ht), Ht.
    destruct (numeric_float _ _ Hg) as (Hf & _ & Hna). rewrite Hna. cbn [negb andb].
    rewrite (cash_cost_12 d g Hg). cbn [mbind result_bind].
    rewrite truediv_float_12, Hf. cbn.
    eexists. repeat split. }
  destruct Hrow as (row & Hrow & Hrest).
  exists row. split; [exact Hrow|].
  repeat (split; [apply Hrest|]).
  intros pairs Hb. split.
  - destruct show_all; eapply build_pairings_not_cash; exact Hb.
  - assert (Hsm : str_truthy (Some m) = true).
    { cbn. destruct (String.eqb_spec m ""); [contradiction | reflexivity]. }
    unfold build_results, broad_query. rewrite Hsm. cbn [str_truthy negb andb opt_text].
    rewrite Hb, Hrow, andb_true_r. cbn [mbind result_bind].
    destruct tried; reflexivity.
Qed.



Lemma add_pair_medicine_name (si : option string) (m i : pyval) (p : pairing) :
  add_pair comparator si m i = Ok p -> medicine_name p = m.
Proof.
  unfold add_pair. intros Ha. bind_inv Ha. bind_inv Ha. bind_inv Ha.
  now injection Ha as <-.
Qed.

Lemma build_pairings_for_medicine (m : string) (si : option string)
  (ps : list pairing) :
  m <> "" ->
  build_pairings comparator (Some m) si = Ok ps ->
  Forall (fun p => medicine_name p = VStr m) ps.
Proof.
  intros Hm. unfold build_pairings.
  assert (Hsm : str_truthy (Some m) = true).
  { cbn. destruct (String.eqb_spec m ""); [contradiction | reflexivity]. }
  rewrite Hsm. cbn [negb andb opt_text].
  destruct (str_truthy si); cbn [negb andb]; intros Hb.
  - bind_inv Hb. injection Hb as <-. repeat constructor.
    eapply add_pair_medicine_name; eassumption.
  - eapply mapM_Forall; [|exact Hb]. cbn. intros i p.
    apply add_pair_medicine_name.
Qed.

Lemma cash_row_medicine_name (m : pyval) (row : pairing) :
  cash_row comparator m = Some row -> medicine_name row = m.
Proof.
  unfold cash_row. destruct (get_medicine_info comparator m) as [d|]; [|discriminate].
  case_match; [|discriminate].
  destruct (calculate_total_cost (Some d) None None 12) as [a|]; [|discriminate]. cbn.
  destruct (py_truediv_int a 12) as [mo|]; [|discriminate]. cbn.
  destruct (py_float (dict_get d "goodrx_price")) as [g|]; [|discriminate]. cbn.
  now intros [= <-].
Qed.

Lemma results_for_medicine (m : string) (si : option string) (tried : bool)
  (sb so : string) (cur : option current_selection) (ps : list pairing) :
  m <> "" ->
  build_results comparator (Some m) si tried false false sb so = Ok (cur, ps) ->
  Forall (fun p => medicine_name p = VStr m) ps.
Proof.
  intros Hm. unfold build_results. cbn [andb].
  assert (Hsm : str_truthy (Some m) = true).
  { cbn. destruct (String.eqb_spec m ""); [contradiction | reflexivity]. }
  rewrite Hsm. cbn [andb]. destruct (str_truthy si) eqn:Hsi.
  - unfold exact_selection. intros Hr.
    apply bind_Ok in Hr as (current & _ & Hr).
    apply bind_Ok in Hr as (all_for_med & Hb & Hr).
    apply bind_Ok in Hr as (sorted & Hs & Hr). injection Hr as <- <-.
    eapply sort_pairings_Forall; [exact Hs|].
    apply (build_pairings_for_medicine m None _ Hm) in Hb.
    apply (Forall_list_filter _
             (fun p => negb (py_eq (medicine_name p) (opt_text (Some m))
                               && py_eq (insurance_name p) (opt_text si)))) in Hb.
    destruct tried; rewrite ?Forall_map;
      (eapply Forall_impl; [exact Hb|]); auto.
  - intros Hr. apply bind_Ok in Hr as (sorted & Hq & Hr). injection Hr as <- <-.
    unfold broad_query in Hq. apply bind_Ok in Hq as (pairs & Hb & Hs).
    eapply sort_pairings_Forall; [exact Hs|].
    apply (build_pairings_for_medicine m si _ Hm) in Hb.
    rewrite Hsm, Hsi. cbn [negb andb opt_text].
    assert (Hcash : Forall (fun p => medicine_name p = VStr m)
              match cash_row comparator (VStr m) with
              | Some row => row :: pairs
              | None => pairs
              end).
    { destruct (cash_row comparator (VStr m)) eqn:Ec; [|exact Hb].
      constructor; [eapply cash_row_medicine_name; exact Ec | exact Hb]. }
    rewrite andb_true_r.
    destruct tried; rewrite ?Forall_map;
      (eapply Forall_impl; [exact Hcash|]); auto.
Qed.

(** A name with no medicine record: the resolver is handed [None] and its
    fallback reads a field of it. *)
Lemma resolver_without_medicine (ins cov : option dict) (months : Z) :
  covered_flag cov = false ->
  calculate_total_cost None ins cov months = Raise AttributeError.
Proof.
  intros Hc. unfold calculate_total_cost. rewrite Hc. cbn.
  unfold cash_price_attempt. now destruct ins.
Qed.

Lemma add_pair_unknown_medicine (si : option string) (m i : pyval) :
  get_medicine_info comparator m = None ->
  covered_flag (get_coverage_info comparator i m) = false ->
  add_pair comparator si m i = Raise AttributeError.
Proof.
  intros Hm Hc. unfold add_pair. rewrite Hm.
  now rewrite (resolver_without_medicine _ _ 12 Hc).
Qed.

Lemma build_pairings_unknown_medicine (m : string) (i0 : pyval) (rest : list pyval) :
  m <> "" ->
  column (insurance_df comparator) "insurance_name" = i0 :: rest ->
  get_medicine_info comparator (VStr m) = None ->
  covered_flag (get_coverage_info comparator i0 (VStr m)) = false ->
  build_pairings comparator (Some m) None = Raise AttributeError.
Proof.
  intros Hm Hins Hnone Hc. unfold build_pairings.
  assert (Hsm : str_truthy (Some m) = true).
  { cbn. destruct (String.eqb_spec m ""); [contradiction | reflexivity]. }
  rewrite Hsm, Hins. cbn [str_truthy negb andb opt_text mapM].
  now rewrite (add_pair_unknown_medicine None (VStr m) i0 Hnone Hc).
Qed.

End PairingBuilder.

(** ** Trial flow *)






Section TrialFlow.
Context `{Builtins}.
Variable comparator : DiabetesCostComparator.


End TrialFlow.

(** ** Text: blanks, letter case, decimal digits *)

Lemma rev_string_involutive s : rev_string (rev_string s) = s.
Proof.
  unfold rev_string. rewrite list_ascii_of_string_of_list_ascii.
  rewrite List.rev_involutive. apply string_of_list_ascii_of_string.
Qed.

Lemma list_ascii_app s t :
  list_ascii_of_string (s ++ t)
  = (list_ascii_of_string s ++ list_ascii_of_string t)%list.
Proof.
  induction s as [|c s IH]; [reflexivity|].
  change (list_ascii_of_string (String c s ++ t))
    with (c :: list_ascii_of_string (s ++ t)).
  now rewrite IH.
Qed.

Lemma rev_string_app s t : rev_string (s ++ t) = rev_string t ++ rev_string s.
Proof.
  unfold rev_string. rewrite list_ascii_app, List.rev_app_distr.
  generalize (List.rev (list_ascii_of_string t)) as l.
  induction l as [|c l IH]; [reflexivity|].
  change (string_of_list_ascii ((c :: l) ++ ?r)%list)
    with (String c (string_of_list_ascii (l ++ r)%list)).
  cbn [app string_of_list_ascii]. rewrite IH. reflexivity.
Qed.

Lemma rev_string_nonempty s : s <> "" -> rev_string s <> "".
Proof.
  intros Hs Hr. apply Hs. rewrite <- (rev_string_involutive s), Hr. reflexivity.
Qed.

Lemma isascii_app s t : isascii (s ++ t) = isascii s && isascii t.
Proof.
  induction s as [|c s IH]; [reflexivity|].
  change (isascii (String c s ++ t)) with (is_ascii c && isascii (s ++ t)).
  cbn [isascii]. now rewrite IH, andb_assoc.
Qed.

Lemma isascii_Forall s :
  Forall (fun c => is_ascii c = true) (list_ascii_of_string s) -> isascii s = true.
Proof.
  induction s as [|c s IH]; [reflexivity|]. cbn [list_ascii_of_string isascii].
  intros Hs. apply Forall_cons in Hs as [-> Hs]. now apply IH.
Qed.

Lemma blank_is_ascii c : is_space c = true -> is_ascii c = true.
Proof. destruct c as [[] [] [] [] [] [] [] []]; vm_compute; congruence. Qed.

Lemma isascii_blank s : Text.blank s -> isascii s = true.
Proof.
  intros Hs. apply isascii_Forall. eapply Forall_impl; [exact Hs|].
  intros c. apply blank_is_ascii.
Qed.

(** *** [strip] *)

Section Strip.
Variable blank : ascii -> bool.

Let clear (s : string) : Prop :=
  Forall (fun c => blank c = false) (list_ascii_of_string s).

Lemma lstrip_clear s : clear s -> lstrip_by blank s = s.
Proof.
  destruct s as [|c s]; [reflexivity|]. unfold clear. cbn [list_ascii_of_string].
  intros Hp. apply Forall_cons in Hp as [Hc _]. cbn [lstrip_by]. now rewrite Hc.
Qed.

Lemma clear_rev s : clear s -> clear (rev_string s).
Proof.
  unfold clear, rev_string. rewrite list_ascii_of_string_of_list_ascii.
  apply List.Forall_rev.
Qed.

Lemma strip_clear s : clear s -> strip_by blank s = s.
Proof.
  intros Hp. unfold strip_by. rewrite (lstrip_clear s Hp).
  rewrite (lstrip_clear _ (clear_rev s Hp)). apply rev_string_involutive.
Qed.

Lemma lstrip_blanks sep s :
  Forall (fun c => blank c = true) (list_ascii_of_string sep) ->
  lstrip_by blank (sep ++ s) = lstrip_by blank s.
Proof.
  induction sep as [|c sep IH]; [reflexivity|]. cbn [list_ascii_of_string].
  intros Hs. apply Forall_cons in Hs as [Hc Hs].
  change (lstrip_by blank (String c sep ++ s))
    with (if blank c then lstrip_by blank (sep ++ s) else String c (sep ++ s)).
  rewrite Hc. now apply IH.
Qed.

Lemma strip_blanks_clear sep s :
  Forall (fun c => blank c = true) (list_ascii_of_string sep) ->
  clear s -> strip_by blank (sep ++ s) = s.
Proof.
  intros Hsep Hs. unfold strip_by. rewrite lstrip_blanks by assumption.
  now apply strip_clear.
Qed.

Lemma lstrip_head s t :
  s <> "" -> clear s -> lstrip_by blank (s ++ t) = s ++ t.
Proof.
  destruct s as [|c s]; [congruence|]. intros _ Hs.
  apply Forall_cons in Hs as [Hc _].
  change (lstrip_by blank (String c s ++ t))
    with (if blank c then lstrip_by blank (s ++ t) else String c (s ++ t)).
  now rewrite Hc.
Qed.

Lemma lstrip_first c r :
  blank c = false -> lstrip_by blank (String c r) = String c r.
Proof. intros Hc. cbn [lstrip_by]. now rewrite Hc. Qed.

Lemma strip_between s m t :
  s <> "" -> clear s -> t <> "" -> clear t ->
  strip_by blank (s ++ m ++ t) = s ++ m ++ t.
Proof.
  intros Hs Hps Ht Hpt. unfold strip_by. rewrite lstrip_head by assumption.
  assert (Hr : lstrip_by blank (rev_string (s ++ m ++ t))
               = rev_string (s ++ m ++ t)).
  { rewrite !rev_string_app.
    pose proof (rev_string_nonempty t Ht) as Hn.
    pose proof (clear_rev t Hpt) as Hp.
    destruct (rev_string t) as [|c r]; [congruence|].
    apply Forall_cons in Hp as [Hc _]. now apply lstrip_first. }
  rewrite Hr. apply rev_string_involutive.
Qed.

End Strip.

Lemma strip_plain s : Text.plain s -> ascii_strip s = s.
Proof. apply strip_clear. Qed.

Lemma strip_blanks_plain sep s :
  Text.blank sep -> Text.plain s -> ascii_strip (sep ++ s) = s.
Proof. apply strip_blanks_clear. Qed.

Lemma strip_between_plain s m t :
  s <> "" -> Text.plain s -> t <> "" -> Text.plain t ->
  ascii_strip (s ++ m ++ t) = s ++ m ++ t.
Proof. apply strip_between. Qed.

Lemma c_space_is_space c : is_space c = false -> is_c_space c = false.
Proof. destruct c as [[] [] [] [] [] [] [] []]; vm_compute; congruence. Qed.

(** [int] skips nothing around a text that [strip] leaves alone. *)
Lemma c_strip_plain s : Text.plain s -> strip_by is_c_space s = s.
Proof.
  intros Hs. apply strip_clear. eapply Forall_impl; [exact Hs|].
  intros c. apply c_space_is_space.
Qed.

(** *** [lower] and [replace] *)

Lemma lower_inert s :
  Forall Text.inert (list_ascii_of_string s) -> ascii_lower s = s.
Proof.
  induction s as [|c s IH]; [reflexivity|]. cbn [list_ascii_of_string ascii_lower].
  intros Hs. apply Forall_cons in Hs as [[Hc _] Hs]. now rewrite Hc, IH.
Qed.

Lemma remove_sub_inert s :
  Forall Text.inert (list_ascii_of_string s) -> remove_sub "tier" 0 s = s.
Proof.
  induction s as [|c s IH]; [reflexivity|]. cbn [list_ascii_of_string].
  intros Hs. apply Forall_cons in Hs as [[_ Hc] Hs].
  cbn [remove_sub String.prefix].
  destruct (Ascii.ascii_dec "t" c) as [<- | _]; [congruence|].
  now rewrite IH.
Qed.

Lemma lower_app s t : ascii_lower (s ++ t) = ascii_lower s ++ ascii_lower t.
Proof.
  induction s as [|c s IH]; [reflexivity|].
  change (ascii_lower (String c s ++ t))
    with (String (lower_ascii c) (ascii_lower (s ++ t))).
  now rewrite IH.
Qed.

Lemma blank_inert c : is_space c = true -> Text.inert c.
Proof.
  destruct c as [[] [] [] [] [] [] [] []]; vm_compute; intros; split;
    congruence.
Qed.

Lemma lower_tier_label label :
  ascii_lower label = "tier" ->
  label <> "" /\ Text.plain label /\ isascii label = true.
Proof.
  destruct label as [|c1 [|c2 [|c3 [|c4 [|c5 l]]]]]; try discriminate.
  cbn [ascii_lower]. intros Hl. injection Hl as H1 H2 H3 H4.
  split; [discriminate|].
  assert (Hc : forall c d : ascii,
             lower_ascii c = d -> is_space d = false -> is_ascii d = true ->
             is_space c = false /\ is_ascii c = true).
  { intros c d <-. destruct c as [[] [] [] [] [] [] [] []]; vm_compute;
      intros; split; congruence. }
  destruct (Hc _ _ H1 eq_refl eq_refl) as [S1 A1].
  destruct (Hc _ _ H2 eq_refl eq_refl) as [S2 A2].
  destruct (Hc _ _ H3 eq_refl eq_refl) as [S3 A3].
  destruct (Hc _ _ H4 eq_refl eq_refl) as [S4 A4].
  split.
  - unfold Text.plain. cbn [list_ascii_of_string]. repeat constructor; assumption.
  - cbn [isascii]. now rewrite A1, A2, A3, A4.
Qed.

Lemma remove_sub_tier r :
  remove_sub "tier" 0 ("tier" ++ r) = remove_sub "tier" 0 r.
Proof. now destruct r. Qed.

(** *** Decimal text of an int and its reading *)

Lemma parse_digits_acc d p c :
  parse_digits (Z.pos p) c true (NilEmpty.string_of_uint d)
  = Some (Z.pos (Pos.of_uint_acc d p),
          c + Z.of_nat (String.length (NilEmpty.string_of_uint d))).
Proof.
  revert p c. induction d; intros p c;
    cbn [NilEmpty.string_of_uint Pos.of_uint_acc String.length];
    [now rewrite Z.add_0_r| ..];
    cbn [parse_digits];
    match goal with |- context [digit_of ?c] =>
      let v := eval vm_compute in (digit_of c) in
      change (digit_of c) with v; cbv iota end;
    match goal with |- parse_digits ?a _ _ _ = Some (Z.pos (Pos.of_uint_acc _ ?q), _) =>
      replace a with (Z.pos q) by lia end;
    rewrite IHd; f_equal; f_equal; lia.
Qed.

Lemma parse_digits_uint d b c :
  d <> Decimal.Nil \/ b = true ->
  parse_digits 0 c b (NilEmpty.string_of_uint d)
  = Some (Z.of_N (Pos.of_uint d),
          c + Z.of_nat (String.length (NilEmpty.string_of_uint d))).
Proof.
  revert b c. induction d; intros b c Hb;
    cbn [NilEmpty.string_of_uint Pos.of_uint String.length];
    [destruct Hb as [Hb | ->]; [congruence | now rewrite Z.add_0_r] | ..];
    cbn [parse_digits];
    match goal with |- context [digit_of ?c] =>
      let v := eval vm_compute in (digit_of c) in
      change (digit_of c) with v; cbv iota end;
    try (rewrite IHd by (now right); f_equal; f_equal; lia);
    cbn [Z.of_N];
    match goal with |- parse_digits ?a _ _ _ = Some (Z.pos (Pos.of_uint_acc _ ?q), _) =>
      change a with (Z.pos q) end;
    rewrite parse_digits_acc; f_equal; f_equal; lia.
Qed.

Lemma plain_uint d : Text.plain (NilEmpty.string_of_uint d).
Proof.
  unfold Text.plain. induction d; cbn [NilEmpty.string_of_uint list_ascii_of_string];
    constructor; (reflexivity || assumption).
Qed.

Lemma inert_uint d :
  Forall Text.inert (list_ascii_of_string (NilEmpty.string_of_uint d)).
Proof.
  induction d; cbn [NilEmpty.string_of_uint list_ascii_of_string];
    constructor; try assumption; split; (reflexivity || discriminate).
Qed.

Lemma isascii_uint d : isascii (NilEmpty.string_of_uint d) = true.
Proof. induction d; cbn [NilEmpty.string_of_uint isascii]; auto. Qed.

Lemma nilzero_uint d :
  d <> Decimal.Nil -> NilZero.string_of_uint d = NilEmpty.string_of_uint d.
Proof. now destruct d. Qed.

Lemma decimal_pos p : decimal (Z.pos p) = NilEmpty.string_of_uint (Pos.to_uint p).
Proof.
  unfold decimal. cbn [Z.to_int NilZero.string_of_int].
  apply nilzero_uint, DecimalPos.Unsigned.to_uint_nonnil.
Qed.

Lemma decimal_neg p :
  decimal (Z.neg p) = String "-" (NilEmpty.string_of_uint (Pos.to_uint p)).
Proof.
  unfold decimal. cbn [Z.to_int NilZero.string_of_int]. f_equal.
  apply nilzero_uint, DecimalPos.Unsigned.to_uint_nonnil.
Qed.

Lemma uint_nonempty p : NilEmpty.string_of_uint (Pos.to_uint p) <> "".
Proof.
  pose proof (DecimalPos.Unsigned.to_uint_nonnil p) as Hn.
  destruct (Pos.to_uint p); (congruence || discriminate).
Qed.

Lemma decimal_nonempty z : decimal z <> "".
Proof.
  destruct z as [|p|p]; [discriminate| |].
  - rewrite decimal_pos. apply uint_nonempty.
  - rewrite decimal_neg. discriminate.
Qed.

Lemma plain_decimal z : Text.plain (decimal z).
Proof.
  destruct z as [|p|p].
  - repeat constructor.
  - rewrite decimal_pos. apply plain_uint.
  - rewrite decimal_neg. constructor; [reflexivity | apply plain_uint].
Qed.

Lemma inert_decimal z : Forall Text.inert (list_ascii_of_string (decimal z)).
Proof.
  destruct z as [|p|p].
  - repeat constructor; discriminate.
  - rewrite decimal_pos. apply inert_uint.
  - rewrite decimal_neg. constructor; [split; [reflexivity | discriminate]|].
    apply inert_uint.
Qed.

Lemma isascii_decimal z : isascii (decimal z) = true.
Proof.
  destruct z as [|p|p]; [reflexivity| |].
  - rewrite decimal_pos. apply isascii_uint.
  - rewrite decimal_neg. cbn [isascii]. apply isascii_uint.
Qed.

Lemma ascii_int_decimal z : ascii_int (decimal z) = Some (z, decimal_digits z).
Proof.
  unfold ascii_int, decimal_digits. rewrite (c_strip_plain _ (plain_decimal z)).
  destruct z as [|p|p]; [reflexivity| |].
  - rewrite decimal_pos.
    assert (Hs : (match NilEmpty.string_of_uint (Pos.to_uint p) with
                  | String "-"%char r => (-1, r)
                  | String "+"%char r => (1, r)
                  | _ => (1, NilEmpty.string_of_uint (Pos.to_uint p))
                  end) = (1, NilEmpty.string_of_uint (Pos.to_uint p))).
    { destruct (Pos.to_uint p); reflexivity. }
    rewrite Hs. cbn [fst snd Z.abs].
    rewrite parse_digits_uint by (left; apply DecimalPos.Unsigned.to_uint_nonnil).
    rewrite DecimalPos.Unsigned.of_to.
    change (Z.abs (Z.pos p)) with (Z.pos p). rewrite decimal_pos. reflexivity.
  - rewrite decimal_neg. cbn [fst snd Z.abs].
    rewrite parse_digits_uint by (left; apply DecimalPos.Unsigned.to_uint_nonnil).
    rewrite DecimalPos.Unsigned.of_to.
    change (Z.abs (Z.neg p)) with (Z.pos p). rewrite decimal_pos. reflexivity.
Qed.

(** *** How long a decimal text is *)

Lemma of_uint_acc_lower d p :
  Z.pos p * 10 ^ Z.of_nat (String.length (NilEmpty.string_of_uint d))
  <= Z.pos (Pos.of_uint_acc d p).
Proof.
  revert p. induction d; intros p;
    cbn [NilEmpty.string_of_uint Pos.of_uint_acc String.length];
    [cbn; lia| ..];
    (etransitivity; [|apply IHd]);
    rewrite Nat2Z.inj_succ, Z.pow_succ_r by lia;
    pose proof (Z.pow_pos_nonneg 10
                  (Z.of_nat (String.length (NilEmpty.string_of_uint d))));
    nia.
Qed.

Lemma uint_head_lower d :
  Decimal.nzhead d = d -> d <> Decimal.Nil ->
  10 ^ (Z.of_nat (String.length (NilEmpty.string_of_uint d)) - 1)
  <= Z.of_N (Pos.of_uint d).
Proof.
  intros Hd Hn.
  destruct d; [congruence | now apply DecimalFacts.nzhead_nonzero in Hd | ..];
    cbn [NilEmpty.string_of_uint Pos.of_uint String.length Z.of_N];
    rewrite Nat2Z.inj_succ;
    replace (Z.succ (Z.of_nat (String.length (NilEmpty.string_of_uint d))) - 1)
      with (Z.of_nat (String.length (NilEmpty.string_of_uint d))) by lia;
    (etransitivity; [|apply of_uint_acc_lower]);
    pose proof (Z.pow_pos_nonneg 10
                  (Z.of_nat (String.length (NilEmpty.string_of_uint d))));
    nia.
Qed.

Lemma to_uint_nzhead p : Decimal.nzhead (Pos.to_uint p) = Pos.to_uint p.
Proof.
  pose proof (DecimalPos.Unsigned.to_of (Pos.to_uint p)) as Hu.
  rewrite DecimalPos.Unsigned.of_to in Hu. cbn [N.to_uint] in Hu.
  rewrite <- DecimalFacts.unorm_nzhead; [now symmetry|].
  intros Hz. apply DecimalFacts.unorm_0 in Hz. rewrite <- Hu in Hz.
  now apply DecimalPos.Unsigned.to_uint_nonzero in Hz.
Qed.

Lemma decimal_digits_lower p :
  10 ^ (decimal_digits (Z.pos p) - 1) <= Z.pos p.
Proof.
  unfold decimal_digits. change (Z.abs (Z.pos p)) with (Z.pos p).
  rewrite decimal_pos.
  etransitivity;
    [apply uint_head_lower;
     [apply to_uint_nzhead | apply DecimalPos.Unsigned.to_uint_nonnil]|].
  now rewrite DecimalPos.Unsigned.of_to.
Qed.

Lemma decimal_digits_abs z : decimal_digits (Z.abs z) = decimal_digits z.
Proof. unfold decimal_digits. now rewrite Z.abs_idemp. Qed.

(** A number below 10 ^ k has at most k digits. *)
Lemma decimal_digits_bound z k :
  1 <= k -> Z.abs z < 10 ^ k -> decimal_digits z <= k.
Proof.
  intros Hk Hz. rewrite <- decimal_digits_abs.
  destruct (Z.abs z) as [|p|p] eqn:Ea;
    [change (decimal_digits 0) with 1; lia| |lia].
  pose proof (decimal_digits_lower p) as Hl.
  destruct (Z.le_gt_cases (decimal_digits (Z.pos p)) k) as [|Hgt]; [assumption|].
  assert (10 ^ k <= 10 ^ (decimal_digits (Z.pos p) - 1))
    by (apply Z.pow_le_mono_r; lia).
  lia.
Qed.

Section ReadBack.
Context `{Builtins}.

Lemma int_of_str_decimal z :
  int_of_str (decimal z)
  = if over_limit (decimal_digits z) then Raise ValueError else Ok z.
Proof.
  unfold int_of_str. now rewrite isascii_decimal, ascii_int_decimal.
Qed.

Lemma over_limit_below z :
  Z.abs z < 10 ^ 640 -> over_limit (decimal_digits z) = false.
Proof.
  intros Hz. unfold over_limit.
  pose proof (decimal_digits_bound z 640 ltac:(lia) Hz).
  destruct (Z.ltb_spec 640 (decimal_digits z)); [lia | reflexivity].
Qed.

Lemma str_of_int_reads_back z s : str_of_int z = Ok s -> int_of_str s = Ok z.
Proof.
  unfold str_of_int. destruct (over_limit (decimal_digits z)) eqn:E; [discriminate|].
  intros [= <-]. now rewrite int_of_str_decimal, E.
Qed.

Lemma strip_ascii s : isascii s = true -> strip s = ascii_strip s.
Proof. intros E. unfold strip. now rewrite E. Qed.

Lemma lower_ascii_text s : isascii s = true -> lower s = ascii_lower s.
Proof. intros E. unfold lower. now rewrite E. Qed.

Lemma posted_index_decimal (z : Z) (f : gmap string string) :
  f !! "trial_index" = Some (decimal z) ->
  posted_trial_index f = if over_limit (decimal_digits z) then 0 else z.
Proof.
  intros Hf. unfold posted_trial_index, str_or, str_truthy. rewrite Hf.
  destruct (String.eqb_spec (decimal z) "") as [He | _].
  - now apply decimal_nonempty in He.
  - cbn [negb]. rewrite int_of_str_decimal.
    now destruct (over_limit (decimal_digits z)).
Qed.

Lemma tier_text_of_label label sep z :
  ascii_lower label = "tier" ->
  Text.blank sep ->
  Spec.tier_text (label ++ sep ++ decimal z) = decimal z.
Proof.
  intros Hl Hsep. destruct (lower_tier_label label Hl) as (Hne & Hpl & Hal).
  assert (Hin : Forall Text.inert (list_ascii_of_string (sep ++ decimal z))).
  { rewrite list_ascii_app. apply Forall_app. split.
    - eapply Forall_impl; [exact Hsep|]. intros c Hc. now apply blank_inert.
    - apply inert_decimal. }
  assert (Ha : isascii (sep ++ decimal z) = true)
    by (rewrite isascii_app, (isascii_blank _ Hsep), isascii_decimal; reflexivity).
  assert (Hall : isascii (label ++ sep ++ decimal z) = true)
    by (rewrite isascii_app, Hal, Ha; reflexivity).
  unfold Spec.tier_text.
  rewrite (strip_ascii _ Hall).
  rewrite strip_between_plain by auto using decimal_nonempty, plain_decimal.
  rewrite (lower_ascii_text _ Hall).
  rewrite lower_app, Hl, (lower_inert _ Hin).
  rewrite remove_sub_tier, (remove_sub_inert _ Hin).
  rewrite (strip_ascii _ Ha).
  now apply strip_blanks_plain, plain_decimal.
Qed.

Lemma tier_text_decimal z : Spec.tier_text (decimal z) = decimal z.
Proof.
  unfold Spec.tier_text.
  rewrite (strip_ascii _ (isascii_decimal z)), (strip_plain _ (plain_decimal z)).
  rewrite (lower_ascii_text _ (isascii_decimal z)), (lower_inert _ (inert_decimal z)).
  rewrite (remove_sub_inert _ (inert_decimal z)).
  now rewrite (strip_ascii _ (isascii_decimal z)), (strip_plain _ (plain_decimal z)).
Qed.

Lemma tier_num_of_label label sep z :
  ascii_lower label = "tier" ->
  Text.blank sep ->
  tier_num (VStr (label ++ sep ++ decimal z))
  = if over_limit (decimal_digits z) then None else Some z.
Proof.
  intros Hl Hsep. destruct (lower_tier_label label Hl) as (Hne & _ & _).
  unfold tier_num.
  assert (Ht : truthy (VStr (label ++ sep ++ decimal z)) = true).
  { destruct label; [congruence | reflexivity]. }
  rewrite Ht. cbn [negb py_str mbind result_bind].
  change (strip (remove_sub "tier" 0 (lower (strip (label ++ sep ++ decimal z)))))
    with (Spec.tier_text (label ++ sep ++ decimal z)).
  rewrite (tier_text_of_label label sep z Hl Hsep), int_of_str_decimal.
  now destruct (over_limit (decimal_digits z)).
Qed.

Lemma tier_num_of_int z :
  tier_num (VInt z)
  = if (z =? 0) || over_limit (decimal_digits z) then None else Some z.
Proof.
  unfold tier_num. cbn [truthy py_str]. destruct (z =? 0); [reflexivity|].
  cbn [negb orb]. unfold str_of_int.
  destruct (over_limit (decimal_digits z)) eqn:E; [reflexivity|].
  cbn [mbind result_bind].
  change (strip (remove_sub "tier" 0 (lower (strip (decimal z)))))
    with (Spec.tier_text (decimal z)).
  now rewrite tier_text_decimal, int_of_str_decimal, E.
Qed.

End ReadBack.

(** ** Tier comparison flag *)

Section TierFlag.
Context `{Builtins}.
Variable comparator : DiabetesCostComparator.

Lemma tier_num_eq (v : pyval) :
  tier_num v =
    if truthy v
    then match py_str v with
         | Ok s =>
             match int_of_str (Spec.tier_text s) with
             | Ok n => Some n
             | Raise _ => None
             end
         | Raise _ => None
         end
    else None.
Proof.
  unfold tier_num, Spec.tier_text. destruct (truthy v); [|reflexivity]. cbn.
  destruct (py_str v) as [s|e]; [|reflexivity]. cbn.
  now destruct (int_of_str _).
Qed.

Lemma flag_higher_tier_spec (sel : pyval) (p : pairing) :
  exists b, is_higher_tier (flag_higher_tier comparator sel p) = Some b
    /\ (b = true <-> Spec.higher_tier comparator sel p).
Proof.
  unfold flag_higher_tier, Spec.higher_tier. cbn.
  destruct (tier_of (coverage p)) as [a|];
    destruct (tier_of (get_coverage_info comparator (insurance_name p) sel)) as [b|];
    eexists; (split; [reflexivity|]).
  - unfold int_gt. rewrite Z.ltb_lt. split.
    + intros Hlt. exists a, b. auto.
    + intros (a' & b' & [= <-] & [= <-] & Hlt). exact Hlt.
  - split; [discriminate|]. intros (? & ? & _ & [=] & _).
  - split; [discriminate|]. intros (? & ? & [=] & _).
  - split; [discriminate|]. intros (? & ? & [=] & _).
Qed.

Lemma flagged_populate (sel : pyval) (p : pairing) :
  Spec.flagged_as comparator sel p ->
  Spec.flagged_as comparator sel (populate_unauth p).
Proof. intros Hp. exact Hp. Qed.

Lemma flagged_flag (sel : pyval) (p : pairing) :
  Spec.flagged_as comparator sel (flag_higher_tier comparator sel p).
Proof.
  destruct (flag_higher_tier_spec sel p) as (b & Hb & Hiff).
  exists b. split; [exact Hb|]. exact Hiff.
Qed.

Lemma flagged_flag_populate (sel : pyval) (p : pairing) :
  Spec.flagged_as comparator sel (flag_higher_tier comparator sel (populate_unauth p)).
Proof.
  destruct (flag_higher_tier_spec sel (populate_unauth p)) as (b & Hb & Hiff).
  exists b. split; [exact Hb|]. exact Hiff.
Qed.

(** C8. When the caller has tried the selected medicine M and results are
    built, every pairing's [is_higher_tier] is set, and is true exactly
    when the tier of M under the pairing's insurance and the pairing's own
    tier both parse as numbers and the pairing's is strictly greater. A tier
    that is absent, that [str] cannot write or that [int] rejects parses to
    no number, so the flag is then false; nothing is raised on the way. A
    label that spells "tier" in any letter case, then blanks, then the
    decimal text of an int parses to that int, and so does a cell that
    holds the int itself, 0 apart, unless the int has more digits than the
    interpreter converts, which no int below 10 ^ 640 has. "Tier 2" parses
    to 2. *)
Theorem is_higher_tier_iff_both_parse_and_greater
  (m : string) (si : option string) (skip show_all : bool) (sb so : string)
  (cur : option current_selection) (ps : list pairing) :
  m <> "" ->
  build_results comparator (Some m) si true skip show_all sb so = Ok (cur, ps) ->
  Forall (fun p =>
            exists b, is_higher_tier p = Some b
              /\ (b = true <-> Spec.higher_tier comparator (VStr m) p)) ps
  /\ (forall v s e, py_str v = Ok s ->
        int_of_str (Spec.tier_text s) = Raise e -> tier_num v = None)
  /\ (forall v e, py_str v = Raise e -> tier_num v = None)
  /\ (forall v, truthy v = false -> tier_num v = None)
  /\ (forall sel p,
        tier_of (coverage p) = None
        \/ tier_of (get_coverage_info comparator (insurance_name p) sel) = None ->
        is_higher_tier (flag_higher_tier comparator sel p) = Some false)
  /\ (forall label sep z,
        ascii_lower label = "tier" -> Text.blank sep ->
        tier_num (VStr (label ++ sep ++ decimal z))
        = if over_limit (decimal_digits z) then None else Some z)
  /\ (forall z,
        tier_num (VInt z)
        = if (z =? 0) || over_limit (decimal_digits z) then None else Some z)
  /\ (forall z, Z.abs z < 10 ^ 640 -> over_limit (decimal_digits z) = false)
  /\ tier_num (VStr "Tier 2") = Some 2.
Proof.
  intros Hm Hr.
  assert (Hsm : str_truthy (Some m) = true).
  { cbn. destruct (String.eqb_spec m ""); [contradiction | reflexivity]. }
  split; [|split; [|split; [|split; [|split; [|split; [|split; [|split]]]]]]];
    [| | | | | apply tier_num_of_label | apply tier_num_of_int
     | apply over_limit_below | ].
  - change (Forall (Spec.flagged_as comparator (VStr m)) ps).
    unfold build_results in Hr. rewrite Hsm in Hr. cbn [andb negb] in Hr.
    destruct (skip && negb show_all); [injection Hr as <- <-; constructor|].
    destruct (str_truthy si).
    + unfold exact_selection in Hr.
      apply bind_Ok in Hr as (current & _ & Hr).
      apply bind_Ok in Hr as (all_for_med & _ & Hr).
      apply bind_Ok in Hr as (sorted & Hs & Hr). injection Hr as <- <-.
      eapply sort_pairings_Forall; [exact Hs|].
      rewrite !Forall_map. apply Forall_forall. intros p _. cbn [opt_text].
      apply flagged_flag_populate.
    + apply bind_Ok in Hr as (sorted & Hq & Hr). injection Hr as <- <-.
      unfold broad_query in Hq. apply bind_Ok in Hq as (pairs & _ & Hs).
      eapply sort_pairings_Forall; [exact Hs|].
      rewrite Hsm. cbn [andb opt_text].
      rewrite !Forall_map. apply Forall_forall. intros p _.
      apply flagged_populate, flagged_flag.
  - intros v s e Hs He. rewrite tier_num_eq, Hs, He. now destruct (truthy v).
  - intros v e He. rewrite tier_num_eq, He. now destruct (truthy v).
  - intros v Hv. now rewrite tier_num_eq, Hv.
  - intros sel p Hnone. unfold flag_higher_tier. cbn.
    destruct Hnone as [-> | ->]; [reflexivity|].
    now destruct (tier_of (coverage p)).
  - vm_compute. reflexivity.
Qed.

End TierFlag.

(** ** Sort stage *)

Lemma xnum_ltb_irrefl (a : xnum) : xnum_ltb a a = false.
Proof. destruct a; cbn; auto using Z.ltb_irrefl. Qed.

Lemma xnum_ltb_asym (a b : xnum) : xnum_ltb a b = true -> xnum_ltb b a = false.
Proof. destruct a, b; cbn; try easy. rewrite Z.ltb_lt, Z.ltb_ge. lia. Qed.

Lemma xnum_ltb_trans (a b c : xnum) :
  xnum_ltb a b = true -> xnum_ltb b c = true -> xnum_ltb a c = true.
Proof. destruct a, b, c; cbn; try easy. rewrite !Z.ltb_lt. lia. Qed.

Lemma xnum_tied (a b : xnum) :
  xnum_ltb a b = false -> xnum_ltb b a = false -> a = b.
Proof.
  destruct a, b; cbn; try easy. rewrite !Z.ltb_ge. intros. f_equal. lia.
Qed.

Lemma xnum_eqb_eq (a b : xnum) : xnum_eqb a b = true <-> a = b.
Proof.
  destruct a, b; cbn; try easy. rewrite Z.eqb_eq.
  split; [now intros -> | now intros [= ->]].
Qed.

(** The order on text. *)

Lemma ascii_compare_refl (a : ascii) : Ascii.compare a a = Eq.
Proof. apply N.compare_refl. Qed.

Lemma ascii_compare_trans (a b c : ascii) :
  Ascii.compare a b = Lt -> Ascii.compare b c = Lt -> Ascii.compare a c = Lt.
Proof. unfold Ascii.compare. rewrite !N.compare_lt_iff. lia. Qed.

Lemma string_compare_refl (s : string) : String.compare s s = Eq.
Proof.
  induction s as [|a s IH]; [reflexivity|]. cbn.
  now rewrite ascii_compare_refl.
Qed.

Lemma string_compare_trans (s t u : string) :
  String.compare s t = Lt -> String.compare t u = Lt -> String.compare s u = Lt.
Proof.
  revert t u. induction s as [|a s IH]; intros [|b t] [|c u]; cbn;
    try easy.
  destruct (Ascii.compare a b) eqn:Eab; try discriminate;
    destruct (Ascii.compare b c) eqn:Ebc; try discriminate.
  - apply Ascii.compare_eq_iff in Eab as ->. rewrite Ebc. apply IH.
  - apply Ascii.compare_eq_iff in Eab as ->. now rewrite Ebc.
  - apply Ascii.compare_eq_iff in Ebc as ->. now rewrite Eab.
  - now rewrite (ascii_compare_trans _ _ _ Eab Ebc).
Qed.

Lemma string_ltb_irrefl (s : string) : String.ltb s s = false.
Proof. unfold String.ltb. now rewrite string_compare_refl. Qed.

Lemma string_ltb_asym (s t : string) :
  String.ltb s t = true -> String.ltb t s = false.
Proof.
  unfold String.ltb. rewrite (String.compare_antisym t s).
  now destruct (String.compare s t).
Qed.

Lemma string_ltb_trans (s t u : string) :
  String.ltb s t = true -> String.ltb t u = true -> String.ltb s u = true.
Proof.
  unfold String.ltb.
  destruct (String.compare s t) eqn:Est; try discriminate.
  destruct (String.compare t u) eqn:Etu; try discriminate.
  now rewrite (string_compare_trans _ _ _ Est Etu).
Qed.

Lemma string_tied (s t : string) :
  String.ltb s t = false -> String.ltb t s = false -> s = t.
Proof.
  unfold String.ltb. rewrite (String.compare_antisym t s).
  destruct (String.compare s t) eqn:E; cbn; try discriminate.
  intros _ _. now apply String.compare_eq_iff.
Qed.

(** The order on ranks. *)

Lemma rank_ltb_irrefl (a : Spec.sort_rank) : Spec.rank_ltb a a = false.
Proof. destruct a; cbn; auto using xnum_ltb_irrefl, string_ltb_irrefl. Qed.

Lemma rank_ltb_asym (a b : Spec.sort_rank) :
  Spec.rank_ltb a b = true -> Spec.rank_ltb b a = false.
Proof.
  destruct a, b; cbn; auto using xnum_ltb_asym, string_ltb_asym.
Qed.

Lemma rank_ltb_trans (a b c : Spec.sort_rank) :
  Spec.rank_ltb a b = true -> Spec.rank_ltb b c = true ->
  Spec.rank_ltb a c = true.
Proof.
  destruct a, b, c; cbn; try easy;
    eauto using xnum_ltb_trans, string_ltb_trans.
Qed.

Lemma rank_tied (a b : Spec.sort_rank) :
  Spec.rank_ltb a b = false -> Spec.rank_ltb b a = false -> a = b.
Proof.
  destruct a, b; cbn; try easy; intros H1 H2; f_equal;
    eauto using xnum_tied, string_tied.
Qed.

Lemma rank_le_of_lt (a b : Spec.sort_rank) :
  Spec.rank_ltb a b = true -> Spec.rank_le a b.
Proof. apply rank_ltb_asym. Qed.

Lemma rank_le_trans (a b c : Spec.sort_rank) :
  Spec.rank_le a b -> Spec.rank_le b c -> Spec.rank_le a c.
Proof.
  unfold Spec.rank_le. intros Hab Hbc.
  destruct (Spec.rank_ltb c a) eqn:Hca; [|reflexivity].
  destruct (Spec.rank_ltb a b) eqn:Hlt.
  - now rewrite (rank_ltb_trans _ _ _ Hca Hlt) in Hbc.
  - rewrite (rank_tied _ _ Hlt Hab) in Hca. congruence.
Qed.

Lemma rank_le_pos_inf (x : xnum) :
  Spec.rank_le (Spec.RNum XPosInf) (Spec.RNum x) -> x = XPosInf.
Proof. unfold Spec.rank_le. now destruct x. Qed.

Lemma rank_le_neg_inf (x : xnum) :
  Spec.rank_le (Spec.RNum x) (Spec.RNum XNegInf) -> x = XNegInf.
Proof. unfold Spec.rank_le. now destruct x. Qed.

Section RankedSort.
Context {A : Type}.
Variable rank : A -> Spec.sort_rank.

Let le (x y : A) : Prop := Spec.rank_le (rank x) (rank y).
Let ge (x y : A) : Prop := Spec.rank_le (rank y) (rank x).
Let lt (x y : A) : Prop := Spec.rank_ltb (rank x) (rank y) = true.
Let tied_with (r : Spec.sort_rank) (x : A) : bool := bool_decide (rank x = r).

Lemma insert_ranked_perm (x : A) (l : list A) :
  Spec.insert_ranked rank x l ≡ₚ x :: l.
Proof.
  induction l as [|y l IH]; cbn; [reflexivity|].
  destruct (Spec.rank_ltb (rank y) (rank x)); [|reflexivity].
  rewrite IH. apply perm_swap.
Qed.

Lemma sort_ranked_perm (l : list A) : Spec.sort_ranked rank l ≡ₚ l.
Proof.
  induction l as [|x l IH]; cbn; [reflexivity|].
  now rewrite insert_ranked_perm, IH.
Qed.

Lemma insert_ranked_sorted (x : A) (l : list A) :
  StronglySorted le l -> StronglySorted le (Spec.insert_ranked rank x l).
Proof.
  induction 1 as [|y l Hl IH Hy]; cbn.
  - repeat constructor.
  - destruct (Spec.rank_ltb (rank y) (rank x)) eqn:E.
    + constructor; [exact IH|].
      rewrite insert_ranked_perm. constructor; [|exact Hy].
      apply rank_le_of_lt, E.
    + constructor; [now constructor|].
      assert (Hxy : le x y) by exact E.
      constructor; [exact Hxy|].
      eapply Forall_impl; [exact Hy|]. intros z Hz.
      eapply rank_le_trans; [exact Hxy | exact Hz].
Qed.

Lemma sort_ranked_sorted (l : list A) : StronglySorted le (Spec.sort_ranked rank l).
Proof.
  induction l as [|x l IH]; cbn; [constructor|].
  now apply insert_ranked_sorted.
Qed.

Lemma insert_ranked_stable (r : Spec.sort_rank) (x : A) (l : list A) :
  List.filter (tied_with r) (Spec.insert_ranked rank x l)
  = List.filter (tied_with r) (x :: l).
Proof.
  induction l as [|y l IH]; [reflexivity|].
  cbn [Spec.insert_ranked].
  destruct (Spec.rank_ltb (rank y) (rank x)) eqn:E; [|reflexivity].
  cbn [List.filter] in *. rewrite IH. unfold tied_with.
  repeat case_bool_decide; try reflexivity.
  exfalso. assert (Hyx : rank y = rank x) by congruence.
  rewrite Hyx, rank_ltb_irrefl in E. discriminate.
Qed.

Lemma sort_ranked_stable (r : Spec.sort_rank) (l : list A) :
  List.filter (tied_with r) (Spec.sort_ranked rank l) = List.filter (tied_with r) l.
Proof.
  induction l as [|x l IH]; [reflexivity|].
  cbn [Spec.sort_ranked foldr]. rewrite insert_ranked_stable.
  cbn [List.filter]. fold (Spec.sort_ranked rank l). now rewrite IH.
Qed.

Lemma rev_sorted (R : relation A) (l : list A) :
  StronglySorted R l -> StronglySorted (flip R) (rev l).
Proof.
  induction 1 as [|x l Hl IH Hx]; cbn; [constructor|].
  apply StronglySorted_app. split; [|split; [exact IH | repeat constructor]].
  intros y z Hy Hz. apply list_elem_of_singleton in Hz as ->.
  rewrite Forall_forall in Hx. apply Hx.
  apply list_elem_of_In, in_rev, list_elem_of_In. exact Hy.
Qed.

Lemma rev_sort_rev_perm (l : list A) : rev (Spec.sort_ranked rank (rev l)) ≡ₚ l.
Proof. now rewrite <- Permutation_rev, sort_ranked_perm, <- Permutation_rev. Qed.

Lemma rev_sort_rev_sorted (l : list A) :
  StronglySorted ge (rev (Spec.sort_ranked rank (rev l))).
Proof. apply (rev_sorted le), sort_ranked_sorted. Qed.

Lemma rev_sort_rev_stable (r : Spec.sort_rank) (l : list A) :
  List.filter (tied_with r) (rev (Spec.sort_ranked rank (rev l)))
  = List.filter (tied_with r) l.
Proof.
  now rewrite filter_rev, sort_ranked_stable, filter_rev, rev_involutive.
Qed.

Lemma sorted_strict (l : list A) :
  NoDup (map rank l) -> StronglySorted le l -> StronglySorted lt l.
Proof.
  induction l as [|x l IH]; intros Hnd Hs; [constructor|].
  cbn in Hnd. apply NoDup_cons in Hnd as [Hx Hnd].
  apply StronglySorted_inv in Hs as [Hs Hall].
  constructor; [now apply IH|].
  rewrite Forall_forall in Hall |- *. intros y Hy.
  unfold lt. destruct (Spec.rank_ltb (rank x) (rank y)) eqn:E; [reflexivity|].
  exfalso. apply Hx. rewrite (rank_tied _ _ E (Hall y Hy)).
  apply list_elem_of_fmap_2. exact Hy.
Qed.

Lemma sort_ranked_rev_no_ties (l : list A) :
  NoDup (map rank l) ->
  Spec.sort_ranked rank (rev l) = Spec.sort_ranked rank l.
Proof.
  intros Hnd.
  assert (Hasym : AntiSymm eq lt).
  { intros x y Hxy Hyx. unfold lt in *.
    apply rank_ltb_asym in Hxy. congruence. }
  apply (StronglySorted_unique lt).
  - apply sorted_strict; [|apply sort_ranked_sorted].
    now rewrite sort_ranked_perm, <- Permutation_rev.
  - apply sorted_strict; [|apply sort_ranked_sorted].
    now rewrite sort_ranked_perm.
  - now rewrite !sort_ranked_perm, <- Permutation_rev.
Qed.

End RankedSort.

Lemma exact_is_number (v : pyval) (x : xnum) : exact v = Some x -> is_number v = true.
Proof. destruct v; cbn; congruence. Qed.

Lemma py_lt_exact (a b : pyval) (x y : xnum) :
  exact a = Some x -> exact b = Some y -> py_lt a b = Ok (xnum_ltb x y).
Proof.
  intros Ha Hb. unfold py_lt.
  destruct a, b; try discriminate; now rewrite Ha, Hb.
Qed.

Lemma rank_of_number (k : pyval) (x : xnum) :
  Spec.rank_of_key k = Some (Spec.RNum x) -> exact k = Some x.
Proof.
  destruct k; cbn; try discriminate.
  - now intros [= ->].
  - destruct (exact_of_float f); cbn; [now intros [= ->] | discriminate].
Qed.

Lemma rank_of_text (k : pyval) (s : string) :
  Spec.rank_of_key k = Some (Spec.RText s) -> k = VStr s.
Proof.
  destruct k; cbn; try discriminate.
  - now intros [= ->].
  - destruct (exact_of_float f); discriminate.
Qed.

Lemma py_lt_rank (a b : pyval) (x y : Spec.sort_rank) :
  Spec.rank_of_key a = Some x -> Spec.rank_of_key b = Some y ->
  Spec.is_text_rank x = Spec.is_text_rank y ->
  py_lt a b = Ok (Spec.rank_ltb x y).
Proof.
  intros Ha Hb Hk. destruct x as [x|s], y as [y|t]; try discriminate.
  - apply rank_of_number in Ha, Hb. now apply py_lt_exact.
  - apply rank_of_text in Ha, Hb. subst. reflexivity.
Qed.

Lemma ranked_key_not_nan (k : pyval) :
  is_Some (Spec.rank_of_key k) -> is_nan_key k = false.
Proof.
  destruct k as [| | |f]; try reflexivity. cbn. unfold exact_of_float.
  intros [r Hr]. destruct (PrimFloat.is_nan f) eqn:E; [|reflexivity].
  unfold PrimFloat.is_nan in E. rewrite FloatAxioms.eqb_spec in E.
  destruct (Prim2SF f) as [s|s| |s m e]; try discriminate Hr.
  all: exfalso; revert E; unfold SFeqb, SFcompare.
  - now destruct s.
  - now destruct s.
  - rewrite Z.compare_refl, Pos.compare_cont_refl. now destruct s.
Qed.

Section KeyedSort.
Context `{Builtins} {A : Type}.
Variable rank : A -> Spec.sort_rank.
Variable text : bool.

Let keyed_rank (kx : pyval * A) : Spec.sort_rank := rank kx.2.
Let exact_key (kx : pyval * A) : Prop :=
  Spec.rank_of_key kx.1 = Some (rank kx.2)
  /\ Spec.is_text_rank (rank kx.2) = text.

Lemma insert_by_key_ranked (x : pyval * A) (l : list (pyval * A)) :
  exact_key x -> Forall exact_key l ->
  insert_by_key x l = Ok (Spec.insert_ranked keyed_rank x l).
Proof.
  intros [Hx Hkx]. induction 1 as [|y l [Hy Hky] Hl IH]; [reflexivity|].
  cbn [insert_by_key Spec.insert_ranked].
  rewrite (py_lt_rank _ _ _ _ Hy Hx) by congruence.
  cbn [mbind result_bind]. unfold keyed_rank at 1 2.
  destruct (Spec.rank_ltb (rank y.2) (rank x.2)); [|reflexivity].
  now rewrite IH.
Qed.

Lemma sort_by_key_ranked (l : list (pyval * A)) :
  Forall exact_key l -> sort_by_key l = Ok (Spec.sort_ranked keyed_rank l).
Proof.
  induction 1 as [|x l Hx Hl IH]; [reflexivity|].
  cbn [sort_by_key]. rewrite IH. cbn [mbind result_bind].
  rewrite insert_by_key_ranked; [reflexivity | exact Hx |].
  now rewrite sort_ranked_perm.
Qed.

Lemma ranked_keys_ordered (l : list (pyval * A)) :
  Forall exact_key l -> unordered (map fst l) = false.
Proof.
  intros Hl. unfold unordered. apply andb_false_iff. right.
  induction Hl as [|x l [Hx _] _ IH]; [reflexivity|]. cbn.
  rewrite IH, orb_false_r. apply ranked_key_not_nan. rewrite Hx. eauto.
Qed.

Lemma sort_keyed_ranked (l : list (pyval * A)) :
  Forall exact_key l -> sort_keyed l = Ok (Spec.sort_ranked keyed_rank l).
Proof.
  intros Hl. unfold sort_keyed. rewrite (ranked_keys_ordered l Hl).
  now apply sort_by_key_ranked.
Qed.

Lemma map_snd_insert_ranked (x : pyval * A) (l : list (pyval * A)) :
  map snd (Spec.insert_ranked keyed_rank x l)
  = Spec.insert_ranked rank x.2 (map snd l).
Proof.
  induction l as [|y l IH]; [reflexivity|].
  cbn [Spec.insert_ranked map]. unfold keyed_rank at 1 2.
  destruct (Spec.rank_ltb (rank y.2) (rank x.2)); [|reflexivity].
  cbn [map]. now rewrite IH.
Qed.

Lemma map_snd_sort_ranked (l : list (pyval * A)) :
  map snd (Spec.sort_ranked keyed_rank l) = Spec.sort_ranked rank (map snd l).
Proof.
  induction l as [|x l IH]; [reflexivity|].
  cbn [Spec.sort_ranked foldr map].
  rewrite map_snd_insert_ranked. fold (Spec.sort_ranked keyed_rank l).
  now rewrite IH.
Qed.

Lemma mapM_keyed_exact (key : A -> result pyval) (l : list A) :
  Forall (fun x => exists k, key x = Ok k
                     /\ Spec.rank_of_key k = Some (rank x)
                     /\ Spec.is_text_rank (rank x) = text) l ->
  exists keyed,
    mapM (fun x => k ← key x; Ok (k, x)) l = Ok keyed
    /\ map snd keyed = l /\ Forall exact_key keyed.
Proof.
  induction 1 as [|x l (k & Hk & Hx & Ht) Hl (keyed & Hm & Hs & He)].
  - exists []. repeat split; constructor.
  - exists ((k, x) :: keyed). cbn [mapM]. rewrite Hk. cbn [mbind result_bind].
    rewrite Hm. cbn. rewrite Hs. repeat split.
    constructor; [split; [exact Hx | exact Ht] | exact He].
Qed.

Lemma list_sort_ranked (key : A -> result pyval) (reverse : bool) (l : list A) :
  Forall (fun x => exists k, key x = Ok k
                     /\ Spec.rank_of_key k = Some (rank x)
                     /\ Spec.is_text_rank (rank x) = text) l ->
  list_sort key reverse l =
    Ok (if reverse then rev (Spec.sort_ranked rank (rev l))
        else Spec.sort_ranked rank l).
Proof.
  intros Hl. destruct (mapM_keyed_exact key l Hl) as (keyed & Hm & Hs & He).
  unfold list_sort. rewrite Hm. cbn [mbind result_bind].
  destruct reverse.
  - rewrite sort_keyed_ranked.
    + cbn [mbind result_bind].
      now rewrite map_rev, map_snd_sort_ranked, map_rev, Hs.
    + apply Forall_forall. intros kx Hkx. rewrite Forall_forall in He.
      apply He. apply list_elem_of_In, in_rev, list_elem_of_In in Hkx. exact Hkx.
  - rewrite sort_keyed_ranked; [|exact He]. cbn [mbind result_bind].
    now rewrite map_snd_sort_ranked, Hs.
Qed.

End KeyedSort.

Section SortStage.
Context `{Builtins}.

Lemma sorted_tail (R : relation pairing) (l1 l2 : list pairing) (p : pairing) :
  StronglySorted R (l1 ++ p :: l2)%list -> Forall (R p) l2.
Proof.
  intros Hs. apply StronglySorted_app in Hs as (_ & _ & Hs).
  now apply StronglySorted_inv in Hs as [_ Hs].
Qed.

Lemma sorted_front (R : relation pairing) (l1 l2 : list pairing) (p : pairing) :
  StronglySorted R (l1 ++ p :: l2)%list -> Forall (fun q => R q p) l1.
Proof.
  intros Hs. apply StronglySorted_app in Hs as (Hs & _ & _).
  apply Forall_forall. intros q Hq. apply Hs; [exact Hq | left].
Qed.

Lemma ordered_keys_ranked (sb : string) (ps : list pairing) :
  Spec.ordered_keys sb ps ->
  exists text,
    Forall (fun p => exists k, _key sb p = Ok k
                       /\ Spec.rank_of_key k = Some (Spec.rank_of sb p)
                       /\ Spec.is_text_rank (Spec.rank_of sb p) = text) ps.
Proof.
  intros [Hall | Hall]; [exists false | exists true];
    (eapply Forall_impl; [exact Hall|]); cbn; intros p [r Hr];
    unfold Spec.rank_of; rewrite Hr; cbn;
    unfold Spec.key_rank in Hr; destruct (_key sb p) as [k|]; try discriminate;
    exists k; auto.
Qed.

Lemma number_keys (sb : string) (ps : list pairing) (p : pairing) (x : xnum) :
  Spec.ordered_keys sb ps -> p ∈ ps -> Spec.rank_of sb p = Spec.RNum x ->
  Forall (fun q => exists y, Spec.rank_of sb q = Spec.RNum y) ps.
Proof.
  intros [Hall | Hall] Hp Hx.
  - eapply Forall_impl; [exact Hall|]. cbn. intros q [y Hy].
    exists y. unfold Spec.rank_of. now rewrite Hy.
  - rewrite Forall_forall in Hall. destruct (Hall p Hp) as [s Hs].
    unfold Spec.rank_of in Hx. rewrite Hs in Hx. discriminate.
Qed.

Lemma name_key_text (v : pyval) (s : string) :
  v = VStr s -> name_key v = Ok (VStr (lower s)).
Proof.
  intros ->. unfold name_key. cbn.
  destruct (String.eqb_spec s "") as [-> | _]; reflexivity.
Qed.

Lemma infinite_rank_rows (sb : string) (ps l : list pairing) (p : pairing)
  (x : xnum) (R : Spec.sort_rank -> Prop) :
  Spec.ordered_keys sb ps -> p ∈ ps -> l ⊆ ps ->
  Spec.rank_of sb p = Spec.RNum x ->
  (forall y, R (Spec.RNum y) -> y = x) ->
  Forall (fun q => R (Spec.rank_of sb q)) l ->
  Forall (fun q => Spec.rank_of sb q = Spec.RNum x) l.
Proof.
  intros Hkeys Hp Hl Hx HR Hall.
  pose proof (number_keys sb ps p x Hkeys Hp Hx) as Hnum.
  rewrite Forall_forall in Hnum, Hall |- *. intros q Hq.
  destruct (Hnum q (Hl q Hq)) as [y Hy]. rewrite Hy. f_equal.
  apply HR. rewrite <- Hy. now apply Hall.
Qed.

(** C6, as amended. Over rows whose keys [<] orders (numbers other than
    NaN, a missing one read as an infinity; or texts, as the medicine and
    insurance keys are for rows with text names) the sort stage returns a
    list in both directions; the monthly and annual keys read a missing
    cost as +infinity, which sorts last ascending; the savings key reads
    missing savings as -infinity, which sorts first ascending and last
    descending; both results are permutations of the input, ordered by the
    key, and rows with equal keys keep their input order in both directions;
    when no two rows are tied the descending result is the ascending one
    reversed. *)
Theorem sort_stage_is_total_and_stable (sb : string) (ps : list pairing) :
  let rank := Spec.rank_of sb in
  let tied_with (r : Spec.sort_rank) (p : pairing) := bool_decide (rank p = r) in
  Spec.ordered_keys sb ps ->
  (forall p, monthly_cost p = VNone ->
     _key "monthly" p = Ok (VFloat infinity)
     /\ Spec.key_rank "monthly" p = Some (Spec.RNum XPosInf))
  /\ (forall p, annual_cost p = VNone ->
     _key "annual" p = Ok (VFloat infinity)
     /\ Spec.key_rank "annual" p = Some (Spec.RNum XPosInf))
  /\ (forall p, annual_savings p = VNone ->
     _key "savings" p = Ok (VFloat neg_infinity)
     /\ Spec.key_rank "savings" p = Some (Spec.RNum XNegInf))
  /\ (forall p s, medicine_name p = VStr s ->
     Spec.key_rank "medicine" p = Some (Spec.RText (lower s)))
  /\ (forall p s, insurance_name p = VStr s ->
     Spec.key_rank "insurance" p = Some (Spec.RText (lower s)))
  /\ exists asc desc,
       sort_pairings sb "asc" ps = Ok asc
       /\ sort_pairings sb "desc" ps = Ok desc
       /\ asc ≡ₚ ps /\ desc ≡ₚ ps
       /\ StronglySorted (fun p q => Spec.rank_le (rank p) (rank q)) asc
       /\ StronglySorted (fun p q => Spec.rank_le (rank q) (rank p)) desc
       /\ (forall r, List.filter (tied_with r) asc = List.filter (tied_with r) ps)
       /\ (forall r, List.filter (tied_with r) desc = List.filter (tied_with r) ps)
       /\ (NoDup (map rank ps) -> desc = rev asc)
       /\ (forall l1 p l2, asc = (l1 ++ p :: l2)%list ->
           rank p = Spec.RNum XPosInf ->
           Forall (fun q => rank q = Spec.RNum XPosInf) l2)
       /\ (forall l1 p l2, asc = (l1 ++ p :: l2)%list ->
           rank p = Spec.RNum XNegInf ->
           Forall (fun q => rank q = Spec.RNum XNegInf) l1)
       /\ (forall l1 p l2, desc = (l1 ++ p :: l2)%list ->
           rank p = Spec.RNum XNegInf ->
           Forall (fun q => rank q = Spec.RNum XNegInf) l2).
Proof.
  intros rank tied_with Hkeys.
  split; [|split; [|split; [|split; [|split]]]].
  - intros p Hp. unfold Spec.key_rank, _key. cbn. rewrite Hp. cbn.
    split; [reflexivity | vm_compute; reflexivity].
  - intros p Hp. unfold Spec.key_rank, _key. cbn. rewrite Hp. cbn.
    split; [reflexivity | vm_compute; reflexivity].
  - intros p Hp. unfold Spec.key_rank, _key. cbn. rewrite Hp. cbn.
    split; [reflexivity | vm_compute; reflexivity].
  - intros p s Hp. unfold Spec.key_rank, _key. cbn.
    now rewrite (name_key_text _ _ Hp).
  - intros p s Hp. unfold Spec.key_rank, _key. cbn.
    now rewrite (name_key_text _ _ Hp).
  - destruct (ordered_keys_ranked sb ps Hkeys) as [text Hranked].
    exists (Spec.sort_ranked rank ps), (rev (Spec.sort_ranked rank (rev ps))).
    assert (Hasc : StronglySorted (fun p q => Spec.rank_le (rank p) (rank q))
                     (Spec.sort_ranked rank ps)) by apply sort_ranked_sorted.
    assert (Hdesc : StronglySorted (fun p q => Spec.rank_le (rank q) (rank p))
                      (rev (Spec.sort_ranked rank (rev ps))))
      by apply rev_sort_rev_sorted.
    assert (Hpa : Spec.sort_ranked rank ps ≡ₚ ps) by apply sort_ranked_perm.
    assert (Hpd : rev (Spec.sort_ranked rank (rev ps)) ≡ₚ ps)
      by apply rev_sort_rev_perm.
    split; [|split; [|split; [|split; [|split; [|split; [|split;
      [|split; [|split; [|split; [|split]]]]]]]]]].
    + unfold sort_pairings. cbn [String.eqb Ascii.eqb Bool.eqb].
      now rewrite (list_sort_ranked rank text (_key sb) false ps Hranked).
    + unfold sort_pairings. cbn [String.eqb Ascii.eqb Bool.eqb].
      now rewrite (list_sort_ranked rank text (_key sb) true ps Hranked).
    + exact Hpa.
    + exact Hpd.
    + exact Hasc.
    + exact Hdesc.
    + intros r. apply sort_ranked_stable.
    + intros r. apply rev_sort_rev_stable.
    + intros Hnd. now rewrite sort_ranked_rev_no_ties.
    + intros l1 p l2 E Hp. rewrite E in Hasc, Hpa. apply sorted_tail in Hasc.
      apply (infinite_rank_rows sb ps l2 p XPosInf
               (fun r => Spec.rank_le (rank p) r)); try assumption.
      * rewrite <- Hpa. set_solver.
      * intros q Hq. rewrite <- Hpa. set_solver.
      * intros y Hy. rewrite Hp in Hy. now apply rank_le_pos_inf.
    + intros l1 p l2 E Hp. rewrite E in Hasc, Hpa. apply sorted_front in Hasc.
      apply (infinite_rank_rows sb ps l1 p XNegInf
               (fun r => Spec.rank_le r (rank p))); try assumption.
      * rewrite <- Hpa. set_solver.
      * intros q Hq. rewrite <- Hpa. set_solver.
      * intros y Hy. rewrite Hp in Hy. now apply rank_le_neg_inf.
    + intros l1 p l2 E Hp. rewrite E in Hdesc, Hpd. apply sorted_tail in Hdesc.
      apply (infinite_rank_rows sb ps l2 p XNegInf
               (fun r => Spec.rank_le r (rank p))); try assumption.
      * rewrite <- Hpd. set_solver.
      * intros q Hq. rewrite <- Hpd. set_solver.
      * intros y Hy. rewrite Hp in Hy. now apply rank_le_neg_inf.
Qed.

End SortStage.

(** ** Lookups *)

Lemma first_match_spec (test : dict -> bool) (rows : list dict) :
  Shape.first_match test rows (first_row (List.filter test rows)).
Proof.
  unfold Shape.first_match, first_row.
  induction rows as [|r rows IH]; cbn; [constructor|].
  destruct (test r) eqn:E; cbn.
  - exists [], rows. repeat split; [exact E | constructor].
  - destruct (head (List.filter test rows)) as [d|].
    + destruct IH as (before & after & -> & Hd & Hb).
      exists (r :: before), after. repeat split; [exact Hd|]. now constructor.
    + now constructor.
Qed.

(** X1: a lookup returns the first row of its frame whose name cell (both
    name cells, for coverage) equals the name asked for, and [None] exactly
    when no row does. *)
Theorem lookups_return_first_matching_row
  (self : DiabetesCostComparator) (med ins : pyval) :
  Shape.first_match (fun row => pd_eq (dict_get row "medicine_name") med)
    (medicines_df self) (get_medicine_info self med)
  /\ Shape.first_match (fun row => pd_eq (dict_get row "insurance_name") ins)
       (insurance_df self) (get_insurance_info self ins)
  /\ Shape.first_match
       (fun row => pd_eq (dict_get row "insurance_name") ins
                   && pd_eq (dict_get row "medicine_name") med)
       (coverage_df self) (get_coverage_info self ins med).
Proof. repeat split; apply first_match_spec. Qed.

(** ** Enumeration *)

Lemma mapM_map {A B C} (f : A -> result B) (g : B -> C) (h : A -> C)
  (l : list A) (ys : list B) :
  (forall x y, f x = Ok y -> g y = h x) ->
  mapM f l = Ok ys -> map g ys = map h l.
Proof.
  intros Hf Hm. apply mapM_Forall2 in Hm.
  induction Hm as [|x y l ys Hxy _ IH]; cbn; [reflexivity|].
  now rewrite (Hf _ _ Hxy), IH.
Qed.

Lemma mapM_raises {A B} (f : A -> result B) (l : list A) (x : A) (e : exn) :
  x ∈ l -> f x = Raise e -> forall ys, mapM f l <> Ok ys.
Proof.
  intros Hx Hf. induction l as [|a l IH]; [inversion Hx|].
  apply elem_of_cons in Hx as [<- | Hx]; intros ys; cbn.
  - now rewrite Hf.
  - destruct (f a); [|discriminate]. cbn.
    destruct (mapM f l) as [zs|] eqn:E; [|discriminate].
    now destruct (IH Hx zs).
Qed.


Section Enumeration.
Context `{Builtins}.
Variable comparator : DiabetesCostComparator.

Lemma add_pair_names (si : option string) (m i : pyval) (p : pairing) :
  add_pair comparator si m i = Ok p -> Shape.names p = (m, i).
Proof.
  unfold add_pair. intros Ha. bind_inv Ha. bind_inv Ha. bind_inv Ha.
  now injection Ha as <-.
Qed.

Lemma build_pairings_names (sm si : option string) (ps : list pairing) :
  build_pairings comparator sm si = Ok ps ->
  map Shape.names ps = Shape.enumeration comparator sm si.
Proof.
  unfold build_pairings, Shape.enumeration.
  destruct (str_truthy sm), (str_truthy si); cbn [negb andb]; intros Hb.
  - bind_inv Hb. injection Hb as <-. cbn. f_equal.
    eapply add_pair_names; eassumption.
  - eapply mapM_map; [|exact Hb]. cbn. intros i p. apply add_pair_names.
  - eapply mapM_map; [|exact Hb]. cbn. intros m p. apply add_pair_names.
  - rewrite <- (map_id (list_prod _ _)).
    eapply mapM_map; [|exact Hb]. cbn. intros [m i] p. apply add_pair_names.
Qed.

(** X2: whenever [build_pairings] returns, its rows are, in order, the
    full medicine-by-insurance product when nothing is selected, the
    selected medicine against every insurance, every medicine against the
    selected insurance, or the one selected pair. *)
Theorem build_pairings_enumerates
  (sm si : option string) (ps : list pairing) :
  build_pairings comparator sm si = Ok ps ->
  map Shape.names ps = Shape.enumeration comparator sm si.
Proof. apply build_pairings_names. Qed.

End Enumeration.

Section Completion.
Context `{Builtins}.
Variable comparator : DiabetesCostComparator.





Lemma never_equal (cell v : pyval) : Shape.self_equal v = false -> pd_eq cell v = false.
Proof.
  unfold Shape.self_equal.
  destruct v as [|s|z|f]; cbn.
  - now destruct cell.
  - now rewrite String.eqb_refl.
  - unfold exact_of_int. cbn. now rewrite Z.eqb_refl.
  - destruct (exact_of_float f) as [x|] eqn:E.
    + intros Hx. assert (xnum_eqb x x = true) by now apply xnum_eqb_eq.
      congruence.
    + intros _. destruct cell; cbn; try reflexivity; rewrite ?E; try reflexivity.
      now destruct (exact_of_float f0).
Qed.

Lemma filter_none (test : dict -> bool) (rows : list dict) :
  (forall r, test r = false) -> List.filter test rows = [].
Proof.
  intros Ht. induction rows as [|r rows IH]; cbn; [reflexivity|].
  now rewrite Ht.
Qed.

Lemma add_pair_blank_name (si : option string) (v i : pyval) :
  Shape.self_equal v = false ->
  add_pair comparator si v i = Raise AttributeError.
Proof.
  intros Hv. apply add_pair_unknown_medicine.
  - unfold get_medicine_info.
    rewrite filter_none; [reflexivity|]. intros r. now apply never_equal.
  - unfold get_coverage_info.
    rewrite filter_none; [reflexivity|]. intros r.
    now rewrite (never_equal _ v Hv), andb_false_r.
Qed.

(** X4: a medicine row whose name cell is [None] or NaN (a blank cell)
    makes [build_pairings] raise for every request that goes through all the
    medicines: the unfiltered product, as soon as there is an insurance row,
    and the per-insurance list. *)
Theorem blank_medicine_name_aborts_enumeration
  (v : pyval) (sm si : option string) :
  v ∈ column (medicines_df comparator) "medicine_name" ->
  Shape.self_equal v = false ->
  str_truthy sm = false ->
  (str_truthy si = false -> insurance_df comparator <> []) ->
  forall ps, build_pairings comparator sm si <> Ok ps.
Proof.
  intros Hv Hne Hsm Hins. unfold build_pairings. rewrite Hsm. cbn [negb andb].
  destruct (str_truthy si).
  - cbn [negb]. eapply mapM_raises; [exact Hv|]. now apply add_pair_blank_name.
  - cbn [negb].
    destruct (column (insurance_df comparator) "insurance_name") as [|i0 rest] eqn:Ei.
    { destruct (insurance_df comparator); [now destruct Hins | discriminate Ei]. }
    apply (mapM_raises _ _ (v, i0) AttributeError).
    + apply list_elem_of_In, in_prod_iff. split.
      * now apply list_elem_of_In.
      * left. reflexivity.
    + cbn. now apply add_pair_blank_name.
Qed.

End Completion.

(** ** Derived fields *)

Section DerivedFields.
Context `{Builtins}.
Variable comparator : DiabetesCostComparator.

Lemma add_pair_savings (si : option string) (m i : pyval) (p : pairing) :
  add_pair comparator si m i = Ok p -> Shape.savings_consistent si p.
Proof.
  unfold add_pair. intros Ha.
  apply bind_Ok in Ha as (annual & Hc & Ha).
  apply bind_Ok in Ha as (monthly & Hm & Ha).
  apply bind_Ok in Ha as (savings & Hs & Ha).
  injection Ha as <-. unfold Shape.savings_consistent. cbn.
  eexists. split; [reflexivity|]. split; [reflexivity|].
  split; [now rewrite Hs|]. split.
  - match goal with |- context [opt_float ?c] => destruct c end; reflexivity.
  - intros Hsi g. rewrite Hsi. cbn [negb].
    match goal with |- context [opt_float ?c] => destruct c end; cbn;
      [now intros [= ->] | discriminate].
Qed.

Lemma build_pairings_rows (P : pairing -> Prop)
  (sm si : option string) (ps : list pairing) :
  (forall m i p, add_pair comparator si m i = Ok p -> P p) ->
  build_pairings comparator sm si = Ok ps -> Forall P ps.
Proof.
  intros HP. unfold build_pairings.
  repeat case_match; intros Hb;
    try (eapply mapM_Forall; [|exact Hb]; cbn; intros; eapply HP; eassumption).
  bind_inv Hb. injection Hb as <-. repeat constructor. eapply HP; eassumption.
Qed.

(** X5: in every row [build_pairings] returns, full_annual is full_monthly
    × 12, annual_savings is full_annual − annual_cost, monthly_savings is
    full_monthly − copay_amount when the row has a copay and [None]
    otherwise, and with no insurance selected a row that has a cash price
    takes it as its full_monthly. *)
Theorem pairing_money_fields_are_consistent
  (sm si : option string) (ps : list pairing) :
  build_pairings comparator sm si = Ok ps ->
  Forall (Shape.savings_consistent si) ps.
Proof. apply build_pairings_rows. intros m i p. apply add_pair_savings. Qed.

End DerivedFields.

Section Results.
Context `{Builtins}.
Variable comparator : DiabetesCostComparator.

Lemma results_rows (P : pairing -> Prop)
  (sm si : option string) (tried skip show_all : bool) (sb so : string)
  (cur : option current_selection) (ps : list pairing) :
  (forall p, P p -> P (populate_unauth p)) ->
  (forall sel p, P p -> P (flag_higher_tier comparator sel p)) ->
  (forall si' m i p, add_pair comparator si' m i = Ok p -> P p) ->
  (forall m row, cash_row comparator m = Some row -> P row) ->
  build_results comparator sm si tried skip show_all sb so = Ok (cur, ps) ->
  Forall P ps.
Proof.
  intros Hpop Hflag Hadd Hcash. unfold build_results.
  destruct (skip && negb show_all); [intros [= <- <-]; constructor|].
  destruct (str_truthy sm && str_truthy si).
  - unfold exact_selection. intros Hr.
    apply bind_Ok in Hr as (current & _ & Hr).
    apply bind_Ok in Hr as (all_for_med & Hb & Hr).
    apply bind_Ok in Hr as (sorted & Hs & Hr). injection Hr as <- <-.
    eapply sort_pairings_Forall; [exact Hs|].
    apply (build_pairings_Forall comparator P) in Hb; [|exact Hadd].
    apply (Forall_list_filter _
             (fun p => negb (py_eq (medicine_name p) (opt_text sm)
                               && py_eq (insurance_name p) (opt_text si)))) in Hb.
    destruct tried; rewrite ?Forall_map;
      (eapply Forall_impl; [exact Hb|]); cbn; auto.
  - intros Hr. apply bind_Ok in Hr as (sorted & Hq & Hr). injection Hr as <- <-.
    unfold broad_query in Hq. apply bind_Ok in Hq as (pairs & Hb & Hs).
    eapply sort_pairings_Forall; [exact Hs|].
    assert (Hall : Forall P pairs).
    { destruct show_all;
        (eapply (build_pairings_Forall comparator P); [exact Hadd | exact Hb]). }
    assert (Hwith : Forall P
              (if str_truthy sm && negb (str_truthy si)
               then match cash_row comparator (opt_text sm) with
                    | Some row => row :: pairs
                    | None => pairs
                    end
               else pairs)).
    { destruct (str_truthy sm && negb (str_truthy si)); [|exact Hall].
      destruct (cash_row comparator (opt_text sm)) eqn:Ec; [|exact Hall].
      constructor; [eapply Hcash; exact Ec | exact Hall]. }
    rewrite Forall_map.
    destruct (tried && str_truthy sm); rewrite ?Forall_map;
      (eapply Forall_impl; [exact Hwith|]); cbn; auto.
Qed.

Lemma index_rows (P : pairing -> Prop) (req : request) (ctx : context) :
  (forall p, P p -> P (populate_unauth p)) ->
  (forall sel p, P p -> P (flag_higher_tier comparator sel p)) ->
  (forall si' m i p, add_pair comparator si' m i = Ok p -> P p) ->
  (forall m row, cash_row comparator m = Some row -> P row) ->
  index comparator req = Ok ctx -> Forall P (ctx_pairings ctx).
Proof.
  intros Hpop Hflag Hadd Hcash. unfold index. destruct (method req).
  - intros [= <-]. constructor.
  - intros Hi. apply bind_Ok in Hi as (ts & _ & Hi).
    apply bind_Ok in Hi as ([cur ps] & Hr & Hi). injection Hi as <-. cbn.
    eapply results_rows; eauto.
Qed.

End Results.

Section Unauthorized.
Context `{Builtins}.
Variable comparator : DiabetesCostComparator.

Lemma unauthorized_cost_table (i m : pyval) (u : float) :
  unauthorized_cost i m = Some u <->
  i = VStr "Cigna"
  /\ ((m = VStr "Empagliflozin" /\ u = 811%float)
      \/ (m = VStr "Januvia" /\ u = 721%float)).
Proof.
  unfold unauthorized_cost, UNAUTHORIZED_COSTS. split.
  - destruct i as [|i| |], m as [|m| |]; try discriminate.
    rewrite lookup_insert. case_decide as E1.
    + injection E1 as <- <-. intros [= <-]. auto.
    + rewrite lookup_singleton. case_decide as E2.
      * injection E2 as <- <-. intros [= <-]. auto.
      * discriminate.
  - intros (-> & [[-> ->] | [-> ->]]); reflexivity.
Qed.

Lemma results_populated (P : pairing -> Prop)
  (sm si : option string) (tried skip show_all : bool) (sb so : string)
  (cur : option current_selection) (ps : list pairing) :
  (forall p, P (populate_unauth p)) ->
  (forall sel p, P p -> P (flag_higher_tier comparator sel p)) ->
  build_results comparator sm si tried skip show_all sb so = Ok (cur, ps) ->
  Forall P ps.
Proof.
  intros Hpop Hflag. unfold build_results.
  destruct (skip && negb show_all); [intros [= <- <-]; constructor|].
  destruct (str_truthy sm && str_truthy si).
  - unfold exact_selection. intros Hr.
    apply bind_Ok in Hr as (current & _ & Hr).
    apply bind_Ok in Hr as (all_for_med & _ & Hr).
    apply bind_Ok in Hr as (sorted & Hs & Hr). injection Hr as <- <-.
    eapply sort_pairings_Forall; [exact Hs|].
    destruct tried; rewrite ?Forall_map; apply Forall_forall; intros p _; cbn; auto.
  - intros Hr. apply bind_Ok in Hr as (sorted & Hq & Hr). injection Hr as <- <-.
    unfold broad_query in Hq. apply bind_Ok in Hq as (pairs & _ & Hs).
    eapply sort_pairings_Forall; [exact Hs|].
    rewrite Forall_map. apply Forall_forall. intros p _. cbn. apply Hpop.
Qed.

(** X6: every row of a context the view returns carries an unauthorized
    annual price: the table's figure when its (insurance, medicine) names
    are a key of [UNAUTHORIZED_COSTS], whatever its full_annual, and its
    full_annual otherwise. The table has two keys: (Cigna, Empagliflozin)
    at 811 and (Cigna, Januvia) at 721. *)
Theorem unauthorized_price_is_table_or_full_annual
  (req : request) (ctx : context) :
  index comparator req = Ok ctx ->
  Forall Shape.unauth_settled (ctx_pairings ctx)
  /\ (forall i m u,
        unauthorized_cost i m = Some u <->
        i = VStr "Cigna"
        /\ ((m = VStr "Empagliflozin" /\ u = 811%float)
            \/ (m = VStr "Januvia" /\ u = 721%float))).
Proof.
  intros Hi. split; [|apply unauthorized_cost_table].
  unfold index in Hi. destruct (method req).
  - injection Hi as <-. constructor.
  - apply bind_Ok in Hi as (ts & _ & Hi).
    apply bind_Ok in Hi as ([cur ps] & Hr & Hi). injection Hi as <-. cbn.
    eapply (results_populated Shape.unauth_settled); [| |exact Hr].
    + intros p. unfold Shape.unauth_settled. reflexivity.
    + intros sel p Hp. exact Hp.
Qed.

End Unauthorized.

Section CashChannel.
Context `{Builtins}.

(** X7: with an insurance record supplied, the cost depends on the
    medicine record through its average cost only: two records with the same
    average_cost_per_month entry, whatever their cash prices, cost the same. *)
Theorem insured_cost_ignores_cash_price
  (med med' ins : dict) (cov : option dict) (months : Z) :
  med !! "average_cost_per_month" = med' !! "average_cost_per_month" ->
  calculate_total_cost (Some med) (Some ins) cov months
  = calculate_total_cost (Some med') (Some ins) cov months.
Proof.
  intros Havg. unfold calculate_total_cost.
  destruct (covered_flag cov); cbn [negb]; [reflexivity|].
  cbn. unfold dict_get_default. now rewrite Havg.
Qed.

End CashChannel.

Section OwnRows.
Context `{Builtins}.
Variable comparator : DiabetesCostComparator.

Lemma add_pair_own_row (si : option string) (m : string) (i : pyval) (p : pairing) :
  add_pair comparator si (VStr m) i = Ok p -> Shape.own_row comparator m p.
Proof.
  unfold add_pair. intros Ha. bind_inv Ha. bind_inv Ha. bind_inv Ha.
  injection Ha as <-. left. reflexivity.
Qed.

Lemma cash_row_no_coverage (m : pyval) (row : pairing) :
  cash_row comparator m = Some row -> coverage row = None.
Proof.
  unfold cash_row. destruct (get_medicine_info comparator m) as [d|]; [|discriminate].
  case_match; [|discriminate].
  destruct (calculate_total_cost (Some d) None None 12) as [a|]; [|discriminate]. cbn.
  destruct (py_truediv_int a 12) as [mo|]; [|discriminate]. cbn.
  destruct (py_float (dict_get d "goodrx_price")) as [g|]; [|discriminate]. cbn.
  now intros [= <-].
Qed.

Lemma tier_of_none : tier_of None = None.
Proof. reflexivity. Qed.

Lemma flag_own_row (m : string) (p : pairing) :
  Shape.own_row comparator m p ->
  is_higher_tier (flag_higher_tier comparator (VStr m) p) = Some false.
Proof.
  intros [Hp | Hp]; unfold flag_higher_tier; cbn; rewrite Hp.
  - destruct (tier_of _) as [a|]; [|reflexivity].
    unfold int_gt. now rewrite Z.ltb_irrefl.
  - rewrite tier_of_none. reflexivity.
Qed.

Lemma build_pairings_own_rows (m : string) (si : option string) (ps : list pairing) :
  m <> "" ->
  build_pairings comparator (Some m) si = Ok ps -> Forall (Shape.own_row comparator m) ps.
Proof.
  intros Hm. unfold build_pairings.
  assert (Hsm : str_truthy (Some m) = true).
  { cbn. destruct (String.eqb_spec m ""); [contradiction | reflexivity]. }
  rewrite Hsm. cbn [negb andb opt_text].
  destruct (str_truthy si); cbn [negb andb]; intros Hb.
  - bind_inv Hb. injection Hb as <-. constructor; [|constructor].
    eapply add_pair_own_row; eassumption.
  - eapply mapM_Forall; [|exact Hb]. cbn. intros i p. apply add_pair_own_row.
Qed.

(** X8: when a medicine is selected, "tried" is ticked and the list is
    that medicine's own pairings (any request but the one that ends the
    trial questionnaire), every row is flagged [is_higher_tier = False]: the
    row's tier is then compared with itself. *)
Theorem own_pairings_are_never_higher_tier
  (m : string) (si : option string) (skip : bool) (sb so : string)
  (cur : option current_selection) (ps : list pairing) :
  m <> "" ->
  build_results comparator (Some m) si true skip false sb so = Ok (cur, ps) ->
  Forall (fun p => is_higher_tier p = Some false) ps.
Proof.
  intros Hm. unfold build_results.
  assert (Hsm : str_truthy (Some m) = true).
  { cbn. destruct (String.eqb_spec m ""); [contradiction | reflexivity]. }
  destruct skip; cbn [negb andb]; [intros [= <- <-]; constructor|].
  rewrite Hsm. cbn [andb]. destruct (str_truthy si) eqn:Hsi.
  - unfold exact_selection. intros Hr.
    apply bind_Ok in Hr as (current & _ & Hr).
    apply bind_Ok in Hr as (all_for_med & Hb & Hr).
    apply bind_Ok in Hr as (sorted & Hs & Hr). injection Hr as <- <-.
    eapply sort_pairings_Forall; [exact Hs|].
    apply (build_pairings_own_rows m None _ Hm) in Hb.
    apply (Forall_list_filter _
             (fun p => negb (py_eq (medicine_name p) (opt_text (Some m))
                               && py_eq (insurance_name p) (opt_text si)))) in Hb.
    rewrite !Forall_map. eapply Forall_impl; [exact Hb|]. cbn.
    intros p Hp. apply (flag_own_row m (populate_unauth p)). exact Hp.
  - intros Hr. apply bind_Ok in Hr as (sorted & Hq & Hr). injection Hr as <- <-.
    unfold broad_query in Hq. apply bind_Ok in Hq as (pairs & Hb & Hs).
    eapply sort_pairings_Forall; [exact Hs|].
    apply (build_pairings_own_rows m si _ Hm) in Hb.
    rewrite Hsm, Hsi. cbn [negb andb opt_text].
    assert (Hwith : Forall (Shape.own_row comparator m)
              match cash_row comparator (VStr m) with
              | Some row => row :: pairs
              | None => pairs
              end).
    { destruct (cash_row comparator (VStr m)) eqn:Ec; [|exact Hb].
      constructor; [right; eapply cash_row_no_coverage; exact Ec | exact Hb]. }
    rewrite !Forall_map. eapply Forall_impl; [exact Hwith|]. cbn.
    intros p Hp. apply (flag_own_row m p Hp).
Qed.

End OwnRows.

Section ExactSelection.
Context `{Builtins}.
Variable comparator : DiabetesCostComparator.

Lemma truthy_text (s : string) : s <> "" -> str_truthy (Some s) = true.
Proof. intros Hs. cbn. destruct (String.eqb_spec s ""); [contradiction | reflexivity]. Qed.

Lemma filter_ext_Forall {A} (f g : A -> bool) (l : list A) :
  Forall (fun x => f x = g x) l -> List.filter f l = List.filter g l.
Proof.
  induction 1 as [|x l Hx _ IH]; cbn; [reflexivity|]. now rewrite Hx, IH.
Qed.

(** X9: with both a medicine and an insurance selected, the rows listed
    are the selected medicine's, one for every row of the insurance frame
    whose name differs from the selected insurance, and the top card, when
    there is one, carries the records the three lookups return and the cost
    the resolver gives for them. The flag that ends the trial questionnaire
    plays no part on this branch. *)
Theorem exact_selection_lists_the_other_plans
  (m i : string) (tried show_all : bool) (sb so : string)
  (cur : option current_selection) (ps : list pairing) :
  m <> "" -> i <> "" ->
  build_results comparator (Some m) (Some i) tried false show_all sb so
    = Ok (cur, ps) ->
  Forall (fun p => medicine_name p = VStr m) ps
  /\ map insurance_name ps ≡ₚ
     List.filter (fun name => negb (py_eq name (VStr i)))
       (column (insurance_df comparator) "insurance_name")
  /\ (forall c, cur = Some c ->
      cur_medicine c = get_medicine_info comparator (VStr m)
      /\ cur_insurance c = get_insurance_info comparator (VStr i)
      /\ cur_coverage c = get_coverage_info comparator (VStr i) (VStr m)
      /\ calculate_total_cost (cur_medicine c) (cur_insurance c) (cur_coverage c) 12
         = Ok (cur_annual_cost c))
  /\ build_results comparator (Some m) (Some i) tried false (negb show_all) sb so
     = Ok (cur, ps).
Proof.
  intros Hm Hi Hr.
  assert (Hsame : build_results comparator (Some m) (Some i) tried false
                    (negb show_all) sb so = Ok (cur, ps)).
  { unfold build_results in *. cbn [andb] in *.
    now rewrite (truthy_text m Hm), (truthy_text i Hi) in *. }
  split; [|split; [|split; [|exact Hsame]]].
  - destruct show_all;
      [exact (results_for_medicine comparator m (Some i) tried sb so cur ps Hm Hsame)
      |exact (results_for_medicine comparator m (Some i) tried sb so cur ps Hm Hr)].
  - unfold build_results in Hr. cbn [andb] in Hr.
    rewrite (truthy_text m Hm), (truthy_text i Hi) in Hr. cbn [andb] in Hr.
    unfold exact_selection in Hr.
    apply bind_Ok in Hr as (current & _ & Hr).
    apply bind_Ok in Hr as (all_for_med & Hb & Hr).
    apply bind_Ok in Hr as (sorted & Hs & Hr). injection Hr as <- <-.
    apply list_sort_perm in Hs. rewrite Hs.
    pose proof (build_pairings_names comparator _ _ _ Hb) as Hnames.
    pose proof (build_pairings_for_medicine comparator m None _ Hm Hb) as Hmed.
    unfold Shape.enumeration in Hnames. rewrite (truthy_text m Hm) in Hnames.
    cbn [str_truthy opt_text] in Hnames.
    assert (Hins : map insurance_name all_for_med
                   = column (insurance_df comparator) "insurance_name").
    { apply (f_equal (map snd)) in Hnames.
      rewrite !map_map in Hnames. cbn in Hnames. now rewrite map_id in Hnames. }
    rewrite <- Hins.
    assert (Hmaps : forall l, map insurance_name
                     (if tried
                      then map (flag_higher_tier comparator (opt_text (Some m)))
                             (map populate_unauth l)
                      else map populate_unauth l)
                    = map insurance_name l).
    { intros l. destruct tried; rewrite !map_map; reflexivity. }
    rewrite Hmaps.
    rewrite (filter_ext_Forall _
               (fun p => negb (py_eq (insurance_name p) (VStr i)))).
    + rewrite List.filter_map_swap. reflexivity.
    + eapply Forall_impl; [exact Hmed|]. cbn. intros p ->. cbn.
      now rewrite String.eqb_refl.
  - intros c ->.
    unfold build_results in Hr. cbn [andb] in Hr.
    rewrite (truthy_text m Hm), (truthy_text i Hi) in Hr. cbn [andb] in Hr.
    unfold exact_selection in Hr.
    apply bind_Ok in Hr as (current & Hc & Hr).
    apply bind_Ok in Hr as (all_for_med & _ & Hr).
    apply bind_Ok in Hr as (sorted & _ & Hr). injection Hr as -> <-.
    cbn [opt_text] in Hc.
    destruct (dict_truthy _ && dict_truthy _); [|discriminate].
    apply bind_Ok in Hc as (annual & Ha & Hc).
    apply bind_Ok in Hc as (monthly & _ & Hc). injection Hc as <-. cbn.
    repeat split. exact Ha.
Qed.

End ExactSelection.

(** ** Sorting without a total order *)

Section SortTotal.
Context `{Builtins} {A : Type}.
Variable kind : pyval -> bool.
Hypothesis kind_comparable :
  forall a b, kind a = true -> kind b = true -> exists r, py_lt a b = Ok r.

Lemma insert_by_key_returns (x : pyval * A) (l : list (pyval * A)) :
  kind x.1 = true -> Forall (fun kx => kind kx.1 = true) l ->
  exists s, insert_by_key x l = Ok s.
Proof.
  intros Hx. induction 1 as [|y l Hy _ [s IH]]; cbn; [eauto|].
  destruct (kind_comparable _ _ Hy Hx) as [r ->]. cbn.
  destruct r; [|eauto]. rewrite IH. cbn. eauto.
Qed.

Lemma sort_by_key_returns (l : list (pyval * A)) :
  Forall (fun kx => kind kx.1 = true) l -> exists s, sort_by_key l = Ok s.
Proof.
  induction 1 as [|x l Hx Hl [s IH]]; cbn; [eauto|].
  rewrite IH. cbn. apply insert_by_key_returns; [exact Hx|].
  apply sort_by_key_perm in IH. now rewrite IH.
Qed.

Lemma list_sort_returns (key : A -> result pyval) (reverse : bool) (l : list A) :
  Forall (fun x => exists k, key x = Ok k /\ kind k = true) l ->
  exists s, list_sort key reverse l = Ok s.
Proof.
  intros Hl. unfold list_sort.
  assert (Hk : exists keyed,
            mapM (fun x => k ← key x; Ok (k, x)) l = Ok keyed
            /\ Forall (fun kx => kind kx.1 = true) keyed).
  { induction Hl as [|x l (k & Hk & Hx) _ (keyed & Hm & Hall)]; cbn.
    - exists []. split; [reflexivity | constructor].
    - rewrite Hk. cbn. rewrite Hm. cbn. eexists. split; [reflexivity|].
      constructor; [exact Hx | exact Hall]. }
  destruct Hk as (keyed & -> & Hall). cbn. unfold sort_keyed.
  destruct (unordered _); [cbn; eauto|].
  destruct (sort_by_key_returns (if reverse then rev keyed else keyed)) as [s ->].
  - destruct reverse; [|exact Hall]. now rewrite <- Permutation_rev.
  - cbn. eauto.
Qed.

End SortTotal.

Lemma numbers_comparable (a b : pyval) :
  is_number a = true -> is_number b = true -> exists r, py_lt a b = Ok r.
Proof.
  destruct a, b; try discriminate; intros _ _; cbn;
    repeat match goal with |- context [exact_of_float ?f] =>
      destruct (exact_of_float f) end; eauto.
Qed.

Lemma texts_comparable (a b : pyval) :
  Shape.is_text a = true -> Shape.is_text b = true -> exists r, py_lt a b = Ok r.
Proof. destruct a, b; try discriminate; cbn; eauto. Qed.

Section SortStageMore.
Context `{Builtins}.

(** X10: the sort stage never loses or repeats a row: whenever it
    returns, for any key and order, its result is a permutation of its
    input; and it does return whenever the keys are all numbers, a NaN
    included, or all text. *)
Theorem sort_stage_permutes_and_returns (sb so : string) (ps : list pairing) :
  (forall s, sort_pairings sb so ps = Ok s -> s ≡ₚ ps)
  /\ (Shape.comparable_keys sb ps -> exists s, sort_pairings sb so ps = Ok s).
Proof.
  split.
  - intros s. apply list_sort_perm.
  - unfold sort_pairings. intros [Hnum | Htxt].
    + now apply (list_sort_returns is_number numbers_comparable).
    + now apply (list_sort_returns Shape.is_text texts_comparable).
Qed.

End SortStageMore.

(** ** Trial flow: indices outside the questionnaire *)

Section TrialBounds.
Context `{Builtins}.

Lemma list_index_negative {A} (l : list A) (i : Z) :
  - Z.of_nat (length l) <= i < 0 ->
  exists x, l !! Z.to_nat (i + Z.of_nat (length l)) = Some x /\ list_index l i = Ok x.
Proof.
  intros Hi. unfold list_index.
  destruct (Z.ltb_spec i 0); [|lia].
  destruct (Z.leb_spec 0 (i + Z.of_nat (length l))); [|lia].
  destruct (Z.ltb_spec (i + Z.of_nat (length l)) (Z.of_nat (length l))); [|lia]. cbn.
  destruct (lookup_lt_is_Some_2 l (Z.to_nat (i + Z.of_nat (length l)))) as [x Hx];
    [lia|].
  exists x. now rewrite Hx.
Qed.

Lemma list_index_below {A} (l : list A) (i : Z) :
  i < - Z.of_nat (length l) -> list_index l i = Raise IndexError.
Proof.
  intros Hi. unfold list_index.
  destruct (Z.ltb_spec i 0); [|lia].
  destruct (Z.leb_spec 0 (i + Z.of_nat (length l))); [lia|]. reflexivity.
Qed.

(** X11: the posted trial index is not checked against its lower bound.
    On a "No", an index from N up selects no medicine; an index i with
    -N <= i < 0 selects the medicine N + i places into the sequence, counting
    from the end; an index below -N raises IndexError, out of the view. *)
Theorem trial_index_outside_the_sequence
  (comparator : DiabetesCostComparator) (req : request) (a : string) (i : Z) :
  let f := form req in
  let N := Z.of_nat (length TRIAL_SEQUENCE) in
  method req = POST ->
  f !! "trial_action" = Some "trial" ->
  f !! "trial_answer" = Some a ->
  lower (strip a) = "no" ->
  posted_trial_index f = i ->
  (N <= i ->
   trial_flow f =
     Ok {| trial_selected := None; trial_index := i; trial_question := None;
           skip_build_results := false; show_all_after_trial := false |})
  /\ (- N <= i < 0 ->
      exists m,
        TRIAL_SEQUENCE !! Z.to_nat (i + N) = Some m
        /\ trial_flow f =
           Ok {| trial_selected := Some m; trial_index := i;
                 trial_question := None; skip_build_results := false;
                 show_all_after_trial := false |})
  /\ (i < - N ->
      trial_flow f = Raise IndexError
      /\ index comparator req = Raise IndexError).
Proof.
  intros f N Hpost Hact Hans Hno Hidx.
  assert (Hform : form_is f "trial_action" "trial" = true)
    by (unfold form_is; now rewrite Hact).
  assert (Hflow : trial_flow f =
            if i <? N
            then m ← list_index TRIAL_SEQUENCE i;
                 Ok {| trial_selected := Some m; trial_index := i;
                       trial_question := None; skip_build_results := false;
                       show_all_after_trial := false |}
            else Ok {| trial_selected := None; trial_index := i;
                       trial_question := None; skip_build_results := false;
                       show_all_after_trial := false |}).
  { unfold trial_flow. rewrite Hform, Hans, Hidx, Hno. reflexivity. }
  split; [|split].
  - intros Hi. rewrite Hflow. destruct (Z.ltb_spec i N); [lia | reflexivity].
  - intros Hi. destruct (list_index_negative TRIAL_SEQUENCE i Hi) as (m & Hm & Hli).
    exists m. split; [exact Hm|]. rewrite Hflow.
    destruct (Z.ltb_spec i N); [|fold N in Hi; lia]. now rewrite Hli.
  - intros Hi.
    assert (Hraise : trial_flow f = Raise IndexError).
    { rewrite Hflow. destruct (Z.ltb_spec i N); [|fold N in Hi; lia].
      now rewrite (list_index_below TRIAL_SEQUENCE i Hi). }
    split; [exact Hraise|].
    unfold index. rewrite Hpost. fold f. now rewrite Hraise.
Qed.

End TrialBounds.

(** *** The index and the tier label, written and read back *)

Section ReadBackMore.
Context `{Builtins}.

(** X12: the decimal text of an index, as the page writes it into its
    hidden field, is read back by the view as that index, a negative one
    included, unless it has more digits than the interpreter converts: the
    view then falls back to 0. No index below 10 ^ 640 has that many. *)
Theorem posted_index_reads_back (z : Z) (f : gmap string string) :
  f !! "trial_index" = Some (decimal z) ->
  posted_trial_index f = (if over_limit (decimal_digits z) then 0 else z)
  /\ (Z.abs z < 10 ^ 640 -> posted_trial_index f = z).
Proof.
  intros Hf. split; [now apply posted_index_decimal|].
  intros Hz. rewrite (posted_index_decimal z f Hf).
  now rewrite (over_limit_below z Hz).
Qed.

(** X13: a tier cell that spells "tier" in any letter case, then any
    blanks, then the decimal text of an integer, is read as that integer;
    a cell holding the integer itself is read as that integer too, except 0,
    which is read as no tier. An integer of more digits than the interpreter
    converts is read as no tier either way; none below 10 ^ 640 is that
    long. *)
Theorem tier_labels_read_back (label sep : string) (z : Z) :
  ascii_lower label = "tier" -> Text.blank sep ->
  tier_num (VStr (label ++ sep ++ decimal z))
  = (if over_limit (decimal_digits z) then None else Some z)
  /\ tier_num (VInt z)
     = (if (z =? 0) || over_limit (decimal_digits z) then None else Some z)
  /\ (Z.abs z < 10 ^ 640 ->
      tier_num (VStr (label ++ sep ++ decimal z)) = Some z
      /\ tier_num (VInt z) = (if z =? 0 then None else Some z)).
Proof.
  intros Hl Hsep.
  split; [now apply tier_num_of_label | split; [apply tier_num_of_int|]].
  intros Hz. rewrite (tier_num_of_label label sep z Hl Hsep), tier_num_of_int.
  rewrite (over_limit_below z Hz), orb_false_r. split; reflexivity.
Qed.

End ReadBackMore.

Import Money.

(** *** The money filter *)

Lemma SFeqb_refl x : SFeqb x x = match x with S754_nan => false | _ => true end.
Proof.
  unfold SFeqb, SFcompare. destruct x as [s | s | | s m e];
    try reflexivity; try now destruct s.
  rewrite Z.compare_refl, Pos.compare_cont_refl. now destruct s.
Qed.

Lemma is_nan_SF f : PrimFloat.is_nan f = true <-> Prim2SF f = S754_nan.
Proof.
  unfold PrimFloat.is_nan. rewrite FloatAxioms.eqb_spec, SFeqb_refl.
  destruct (Prim2SF f); cbn; split; congruence.
Qed.

Lemma is_infinity_SF f :
  PrimFloat.is_infinity f = true <-> exists s, Prim2SF f = S754_infinity s.
Proof.
  unfold PrimFloat.is_infinity. rewrite FloatAxioms.eqb_spec, FloatAxioms.abs_spec.
  change (Prim2SF infinity) with (S754_infinity false).
  destruct (Prim2SF f) as [s | s | | s m e]; cbn; split;
    try congruence; try (intros [s' Hs]; congruence); eauto.
Qed.

Lemma int_of_float_raises v e :
  PrimFloat.is_nan v = false -> int_of_float v = Raise e ->
  e = OverflowError /\ PrimFloat.is_infinity v = true.
Proof.
  intros Hn. unfold int_of_float. destruct (Prim2SF v) eqn:Ev; try discriminate.
  - intros [= <-]. split; [reflexivity|]. apply is_infinity_SF. eauto.
  - apply is_nan_SF in Ev. congruence.
Qed.

Lemma digits2_pos_bound m : Z.pos m < 2 ^ Z.pos (digits2_pos m).
Proof.
  induction m as [m IH|m IH|]; cbn [digits2_pos]; [| |reflexivity];
    rewrite Pos2Z.inj_succ, Z.pow_succ_r by lia; lia.
Qed.

(** The integer part of a finite float is below 2 ^ 1024. *)
Lemma int_of_float_bound v n : int_of_float v = Ok n -> Z.abs n < 2 ^ 1024.
Proof.
  unfold int_of_float. pose proof (Prim2SF_valid v) as Hv.
  destruct (Prim2SF v) as [s|s| |s m e]; try discriminate.
  - intros [= <-]. reflexivity.
  - intros [= <-]. cbn in Hv. unfold bounded, canonical_mantissa, fexp in Hv.
    apply andb_prop in Hv as [Hc He].
    apply Z.eqb_eq in Hc. apply Z.leb_le in He.
    pose proof (digits2_pos_bound m) as Hm.
    assert (Hd : Z.pos (digits2_pos m) <= 53).
    { change (SpecFloat.emin prec emax) with (-1074) in Hc.
      change prec with 53 in Hc. lia. }
    assert (Hm53 : Z.pos m < 2 ^ 53).
    { eapply Z.lt_le_trans; [exact Hm|]. apply Z.pow_le_mono_r; lia. }
    change (emax - prec) with 971 in He.
    assert (Hn : 0 <= (if 0 <=? e then Z.pos m * 2 ^ e else Z.pos m / 2 ^ (- e))
                 < 2 ^ 1024).
    { destruct (Z.leb_spec 0 e).
      - assert (2 ^ e <= 2 ^ 971) by (apply Z.pow_le_mono_r; lia).
        assert (0 < 2 ^ e) by (apply Z.pow_pos_nonneg; lia).
        change (2 ^ 1024) with (2 ^ 53 * 2 ^ 971). nia.
      - assert (0 < 2 ^ (- e)) by (apply Z.pow_pos_nonneg; lia).
        split; [apply Z.div_pos; lia|].
        eapply Z.le_lt_trans;
          [apply Z.div_le_upper_bound with (q := Z.pos m); [lia|nia]|].
        eapply Z.lt_trans; [exact Hm53|]. reflexivity. }
    destruct s; cbn [cond_Zopp]; lia.
Qed.

Section MoneyFilter.
Context `{Builtins}.

(** [str] writes the integer part of every finite float: it has at most
    309 digits. *)
Lemma str_of_int_of_float v n :
  int_of_float v = Ok n -> str_of_int n = Ok (decimal n).
Proof.
  intros Hn. apply int_of_float_bound in Hn. unfold str_of_int.
  rewrite over_limit_below; [reflexivity|].
  eapply Z.lt_trans; [exact Hn|]. reflexivity.
Qed.

Lemma py_float_raises value e :
  py_float value = Raise e ->
  e = TypeError \/ e = ValueError \/ e = OverflowError.
Proof.
  destruct value as [|s|z|f]; cbn.
  - intros [= <-]. auto.
  - destruct (float_of_str s); [discriminate|]. intros [= <-]. auto.
  - unfold float_of_int. destruct (PrimFloat.is_infinity _); [|discriminate].
    intros [= <-]. auto.
  - discriminate.
Qed.

(** X14: what the money filter does off the finite numbers. A value that
    [float] rejects comes back unchanged, [None] as the empty text; a NaN
    gives the empty text; an infinite value raises OverflowError, out of the
    filter; and OverflowError is the only exception the filter lets out. *)
Theorem format_money_off_the_finite_numbers (value : pyval) :
  (py_float value = Raise TypeError \/ py_float value = Raise ValueError ->
   format_money value = Ok (if is_none value then VStr "" else value)) /\
  (forall v, py_float value = Ok v -> PrimFloat.is_nan v = true ->
             format_money value = Ok (VStr "")) /\
  (forall v, py_float value = Ok v -> PrimFloat.is_infinity v = true ->
             format_money value = Raise OverflowError) /\
  (forall e, format_money value = Raise e -> e = OverflowError).
Proof.
  unfold format_money. repeat split.
  - now intros [-> | ->].
  - intros v -> Hn. now rewrite Hn.
  - intros v -> Hi. apply is_infinity_SF in Hi as [s Hs].
    destruct (PrimFloat.is_nan v) eqn:Hn.
    + apply is_nan_SF in Hn. congruence.
    + unfold int_of_float. now rewrite Hs.
  - intros e. destruct (py_float value) as [v | e'] eqn:Ef.
    + destruct (PrimFloat.is_nan v) eqn:Hn; [discriminate|].
      destruct (int_of_float v) as [n | e1] eqn:En.
      * cbn. rewrite (str_of_int_of_float v n En). unfold float_of_int.
        destruct (PrimFloat.is_infinity _); cbn; [now intros [= <-]|].
        destruct (PrimFloat.ltb _ _); discriminate.
      * cbn. intros [= <-]. now destruct (int_of_float_raises v e1 Hn En).
    + destruct (py_float_raises value e' Ef) as [-> | [-> | ->]];
        try discriminate. now intros [= <-].
Qed.

End MoneyFilter.

(** ** Reading a result through a projection *)

Lemma fmap_Ok {A B} (g : A -> B) (r : result A) (b : B) :
  g <$> r = Ok b -> exists a, r = Ok a /\ g a = b.
Proof.
  destruct r as [a|e]; cbn; [|discriminate]. intros [= <-]. eauto.
Qed.

(** ** Worked instances *)

#[local] Existing Instance Sample.builtins.

(** C1 at the record of the specification's example: Metformin under Cigna,
    copay 10, deductible 100, twelve months; and the same record over
    2 ** 1024 months, which [float] cannot represent. *)
Lemma covered_cost_witness :
  let cov := Sample.coverage_row "Cigna" "Metformin" (VStr "Yes") (VFloat 10)
               (VStr "Tier 1") in
  covered_flag (Some cov) = true
  /\ calculate_total_cost (Some Sample.metformin) (Some Sample.cigna) (Some cov) 12
     = Ok (VFloat 220)
  /\ calculate_total_cost (Some Sample.metformin) (Some Sample.cigna) (Some cov)
       (2 ^ 1024)
     = Raise OverflowError.
Proof.
  intros cov.
  assert (Hc : covered_flag (Some cov) = true) by (vm_compute; reflexivity).
  split; [exact Hc|]. split.
  - destruct (covered_cost_is_copay_times_months_plus_deductible
                (Some Sample.metformin) (Some Sample.cigna) cov 12 Hc)
      as [E _].
    rewrite (E 12%float); vm_compute; reflexivity.
  - destruct (covered_cost_is_copay_times_months_plus_deductible
                (Some Sample.metformin) (Some Sample.cigna) cov (2 ^ 1024) Hc)
      as (_ & E & _).
    apply (E OverflowError). vm_compute. reflexivity.
Defined.

(** C1 as worded fails on a copay that is NaN, which is how the loader
    stores a blank or non-numeric cell: the code returns NaN where the
    wording gives 0 × 12 + 100. It also fails on a duration that [float]
    cannot represent, 2 ** 1024 months: the code raises OverflowError and
    returns nothing. A "Yes" followed by a no-break space counts as
    covered, as in Python. *)
Lemma covered_cost_nan_copay_counterexample :
  let cov := Sample.coverage_row "Cigna" "Metformin" (VStr "Yes") (VFloat nan)
               (VStr "Tier 1") in
  let ten := Sample.coverage_row "Cigna" "Metformin"
               (VStr ("Yes" ++ String "194" (String "160" "")))
               (VFloat 10) (VStr "Tier 1") in
  covered_flag (Some cov) = true
  /\ Spec.numeric (dict_get cov "copay_amount") = None
  /\ calculate_total_cost (Some Sample.metformin) (Some Sample.cigna) (Some cov) 12
     = Ok (VFloat nan)
  /\ Spec.claimed_covered_cost (Some Sample.cigna) cov 12 = Ok (VFloat 100)
  /\ covered_flag (Some ten) = true
  /\ calculate_total_cost (Some Sample.metformin) (Some Sample.cigna) (Some ten) 12
     = Ok (VFloat 220)
  /\ calculate_total_cost (Some Sample.metformin) (Some Sample.cigna) (Some ten)
       (2 ^ 1024)
     = Raise OverflowError.
Proof. vm_compute. repeat split. Qed.



(** C3 at Glipizide, cash price 25. *)
Lemma cash_cost_witness :
  Spec.numeric (dict_get Sample.glipizide "goodrx_price") = Some 25%float
  /\ covered_flag None = false
  /\ calculate_total_cost (Some Sample.glipizide) None None 12 = Ok (VFloat 300)
  /\ calculate_total_cost (Some Sample.glipizide) None None 24 = Ok (VFloat 600).
Proof.
  assert (Hg : Spec.numeric (dict_get Sample.glipizide "goodrx_price") = Some 25%float)
    by (vm_compute; reflexivity).
  split; [exact Hg | split; [reflexivity|]].
  destruct (cash_cost_is_goodrx_times_months Sample.glipizide None 24 25
              Hg eq_refl) as (E & _ & E12).
  split.
  - rewrite E12. vm_compute. reflexivity.
  - rewrite (E 24%float); vm_compute; reflexivity.
Defined.

(** C3 as worded fails on a duration that [float] cannot represent: over
    2 ** 1024 months the product with the cash price raises inside the
    [try] block, and the resolver goes on to the average cost. With an
    average of 10 (an int) and a cash price of 25 it returns 10 × months;
    with the float average of the sample row it raises OverflowError. *)
Lemma cash_cost_long_duration_counterexample :
  let whole := Sample.medicine_row "Glipizide" (VInt 10) (VFloat 25) in
  Spec.numeric (dict_get whole "goodrx_price") = Some 25%float
  /\ covered_flag None = false
  /\ calculate_total_cost (Some whole) None None (2 ^ 1024)
     = Ok (VInt (10 * 2 ^ 1024))
  /\ Spec.numeric (dict_get Sample.glipizide "goodrx_price") = Some 25%float
  /\ calculate_total_cost (Some Sample.glipizide) None None (2 ^ 1024)
     = Raise OverflowError.
Proof. vm_compute. repeat split. Qed.

(** C4 at the specification's example: Metformin under Cigna costs 220 a
    year and 18.33 a month. *)
Lemma monthly_cost_witness :
  exists ctx c,
    index Sample.clinic
      (Sample.post [("medicine", "Metformin"); ("insurance", "Cigna")]) = Ok ctx
    /\ ctx_current ctx = Some c
    /\ cur_annual_cost c = VFloat 220
    /\ cur_monthly_cost c = VFloat 0x1.2555555555555p+4
    /\ Spec.monthly_is_annual_over_12 (cur_annual_cost c) (cur_monthly_cost c)
    /\ length (ctx_pairings ctx) = 1%nat
    /\ Forall Spec.pairing_monthly_ok (ctx_pairings ctx).
Proof.
  destruct (fmap_Ok
              (fun ctx => (option_map (fun c => (cur_annual_cost c, cur_monthly_cost c))
                             (ctx_current ctx),
                           length (ctx_pairings ctx)))
              (index Sample.clinic
                 (Sample.post [("medicine", "Metformin"); ("insurance", "Cigna")]))
              (Some (VFloat 220, VFloat 0x1.2555555555555p+4), 1%nat))
    as (ctx & E & Hctx); [vm_compute; reflexivity|].
  injection Hctx as Hcur Hlen.
  destruct (ctx_current ctx) as [c|] eqn:Ec; [|discriminate Hcur].
  injection Hcur as Ha Hm.
  exists ctx, c.
  destruct (monthly_cost_is_annual_cost_over_12 Sample.clinic) as (_ & _ & Hidx).
  destruct (Hidx _ _ E) as [Hrows Hc].
  repeat split; try assumption. exact (Hc _ Ec).
Defined.

(** The cash row at the specification's example: a cash price of 25 gives
    a row with full_annual = annual_cost = 300. *)
Lemma cash_row_witness :
  "Glipizide" <> ""
  /\ get_medicine_info Sample.clinic (VStr "Glipizide") = Some Sample.glipizide
  /\ Spec.numeric (dict_get Sample.glipizide "goodrx_price") = Some 25%float
  /\ truthy (dict_get Sample.glipizide "goodrx_price") = true
  /\ exists row,
       cash_row Sample.clinic (VStr "Glipizide") = Some row
       /\ is_cash row = Some true
       /\ full_annual row = VFloat 300
       /\ annual_cost row = VFloat 300.
Proof.
  assert (Hm : "Glipizide" <> "") by discriminate.
  assert (Hget : get_medicine_info Sample.clinic (VStr "Glipizide")
                 = Some Sample.glipizide) by (vm_compute; reflexivity).
  assert (Hg : Spec.numeric (dict_get Sample.glipizide "goodrx_price")
               = Some 25%float) by (vm_compute; reflexivity).
  assert (Ht : truthy (dict_get Sample.glipizide "goodrx_price") = true)
    by (vm_compute; reflexivity).
  repeat (split; [assumption|]).
  destruct (cash_row_is_prepended Sample.clinic "Glipizide" Sample.glipizide 25
              false false "annual" "asc" Hm Hget Hg Ht)
    as (row & Hrow & _ & _ & _ & Hcash & Hfull & Hannual & _).
  exists row. repeat split; assumption.
Defined.

(** C5 fails on a cash price of 0. Januvia's goodrx_price is 0.0: it is
    present, not null and not NaN, the resolver prices the medicine as cash
    (0 × 12) and [add_pair] marks its rows goodrx_eligible; but the guard
    of the injection tests the price for truth, so no cash row is offered
    and no row of the result is tagged. With a price of 25 the same request
    gets its cash row (second once sorted by annual cost). *)
Lemma zero_cash_price_gets_no_cash_row :
  get_medicine_info Sample.clinic (VStr "Januvia") = Some Sample.januvia
  /\ Spec.numeric (dict_get Sample.januvia "goodrx_price") = Some 0%float
  /\ calculate_total_cost (Some Sample.januvia) None None 12 = Ok (VFloat 0)
  /\ cash_row Sample.clinic (VStr "Januvia") = None
  /\ (fun ctx => map (fun p => (is_cash p, goodrx_eligible p)) (ctx_pairings ctx)) <$>
       index Sample.clinic (Sample.post [("medicine", "Januvia")])
     = Ok [(None, Some true); (None, Some true)]
  /\ (fun ctx => map is_cash (ctx_pairings ctx)) <$>
       index Sample.clinic (Sample.post [("medicine", "Glipizide")])
     = Ok [None; Some true; None].
Proof. vm_compute. repeat split. Qed.

(** C6 on three rows with annual costs 300, 120 and 310, and on the same
    rows by insurance name. *)
Lemma sort_stage_witness :
  let ps := [Sample.row "Glipizide" "GoodRx (CVS - DC)" (VFloat 300) VNone;
             Sample.row "Glipizide" "Cigna" (VFloat 120) (VFloat 180);
             Sample.row "Glipizide" "Aetna" (VInt 310) (VFloat (-10))] in
  Spec.ordered_keys "annual" ps
  /\ Spec.ordered_keys "insurance" ps
  /\ (exists asc desc,
       sort_pairings "annual" "asc" ps = Ok asc
       /\ sort_pairings "annual" "desc" ps = Ok desc
       /\ map insurance_name asc
          = [VStr "Cigna"; VStr "GoodRx (CVS - DC)"; VStr "Aetna"]
       /\ desc = rev asc)
  /\ (exists asc desc,
       sort_pairings "insurance" "asc" ps = Ok asc
       /\ sort_pairings "insurance" "desc" ps = Ok desc
       /\ map insurance_name asc
          = [VStr "Aetna"; VStr "Cigna"; VStr "GoodRx (CVS - DC)"]
       /\ desc = rev asc).
Proof.
  intros ps.
  assert (Hnum : Spec.ordered_keys "annual" ps).
  { left. repeat constructor; eexists; vm_compute; reflexivity. }
  assert (Htxt : Spec.ordered_keys "insurance" ps).
  { right. repeat constructor; eexists; vm_compute; reflexivity. }
  split; [exact Hnum|]. split; [exact Htxt|]. split.
  - destruct (sort_stage_is_total_and_stable "annual" ps Hnum)
      as (_ & _ & _ & _ & _ & asc & desc & Ha & Hd & _ & _ & _ & _ & _ & _
          & Hrev & _).
    exists asc, desc. split; [exact Ha|]. split; [exact Hd|]. split.
    + destruct (fmap_Ok (map insurance_name) (sort_pairings "annual" "asc" ps)
                  [VStr "Cigna"; VStr "GoodRx (CVS - DC)"; VStr "Aetna"])
        as (asc' & Ha' & Hn); [vm_compute; reflexivity|].
      rewrite Ha in Ha'. injection Ha' as <-. exact Hn.
    + apply Hrev. apply (bool_decide_unpack _). vm_compute. reflexivity.
  - destruct (sort_stage_is_total_and_stable "insurance" ps Htxt)
      as (_ & _ & _ & _ & _ & asc & desc & Ha & Hd & _ & _ & _ & _ & _ & _
          & Hrev & _).
    exists asc, desc. split; [exact Ha|]. split; [exact Hd|]. split.
    + destruct (fmap_Ok (map insurance_name) (sort_pairings "insurance" "asc" ps)
                  [VStr "Aetna"; VStr "Cigna"; VStr "GoodRx (CVS - DC)"])
        as (asc' & Ha' & Hn); [vm_compute; reflexivity|].
      rewrite Ha in Ha'. injection Ha' as <-. exact Hn.
    + apply Hrev. apply (bool_decide_unpack _). vm_compute. reflexivity.
Defined.

(** C6 as worded fails in three ways. On the savings key, a row without
    savings, such as the cash row, is ranked -infinity and comes first in
    ascending order, not last. On a NaN key, which is what a blank cost
    cell gives, [<] does not order the rows: costs 12, NaN, 6 stay as they
    are in both directions, neither sorted nor reversed. And on a row
    whose name cell is blank the name keys raise, so that the stage returns
    no list. *)
Lemma missing_savings_sort_first_counterexample :
  let cash := Sample.row "Glipizide" "GoodRx (CVS - DC)" (VFloat 300) VNone in
  let cigna := Sample.row "Glipizide" "Cigna" (VFloat 120) (VFloat 180) in
  let aetna := Sample.row "Glipizide" "Aetna" (VFloat 310) (VFloat (-10)) in
  let a := Sample.row "A" "Cigna" (VFloat 12) VNone in
  let b := Sample.row "B" "Cigna" (VFloat nan) VNone in
  let c := Sample.row "C" "Cigna" (VFloat 6) VNone in
  let unnamed :=
    {| medicine_name := VStr "Glipizide"; insurance_name := VFloat nan;
       medicine := None; insurance := None; coverage := None;
       annual_cost := VFloat 120; monthly_cost := VFloat 10;
       full_monthly := VNone; full_annual := VNone;
       goodrx_price := VNone; goodrx_eligible := None;
       unauth_annual := VNone; copay_amount := VNone;
       monthly_savings := VNone; annual_savings := VNone;
       is_cash := None; is_higher_tier := None |} in
  _key "savings" cash = Ok (VFloat neg_infinity)
  /\ sort_pairings "savings" "asc" [cigna; aetna; cash] = Ok [cash; aetna; cigna]
  /\ (fun ctx => map insurance_name (ctx_pairings ctx)) <$>
       index Sample.clinic
         (Sample.post [("medicine", "Glipizide"); ("sort_by", "savings");
                       ("order", "asc")])
     = Ok [VStr "GoodRx (CVS - DC)"; VStr "Aetna"; VStr "Cigna"]
  /\ sort_pairings "annual" "asc" [a; b; c] = Ok [a; b; c]
  /\ sort_pairings "annual" "desc" [a; b; c] = Ok [a; b; c]
  /\ sort_pairings "insurance" "asc" [unnamed] = Raise AttributeError.
Proof. vm_compute. repeat split. Qed.



(** C8 after the questionnaire has run out, with Metformin in the form:
    all pairings are flagged against Metformin, and Glipizide under Cigna
    (Tier 2 against Tier 1) is the one of a higher tier. *)
Lemma is_higher_tier_witness :
  "Metformin" <> ""
  /\ exists cur ps,
       build_results Sample.clinic (Some "Metformin") None true false true
         "annual" "asc" = Ok (cur, ps)
       /\ Forall (fun p =>
                    exists b, is_higher_tier p = Some b
                      /\ (b = true <->
                          Spec.higher_tier Sample.clinic (VStr "Metformin") p)) ps
       /\ map (fun p => (medicine_name p, insurance_name p))
            (List.filter (fun p => bool_decide (is_higher_tier p = Some true)) ps)
          = [(VStr "Glipizide", VStr "Cigna")].
Proof.
  assert (Hm : "Metformin" <> "") by discriminate.
  split; [exact Hm|].
  destruct (fmap_Ok
              (fun r => map (fun p => (medicine_name p, insurance_name p))
                          (List.filter
                             (fun p => bool_decide (is_higher_tier p = Some true))
                             r.2))
              (build_results Sample.clinic (Some "Metformin") None true false true
                 "annual" "asc")
              [(VStr "Glipizide", VStr "Cigna")])
    as ([cur ps] & E & Hps); [vm_compute; reflexivity|].
  exists cur, ps. split; [exact E|].
  destruct (is_higher_tier_iff_both_parse_and_greater Sample.clinic "Metformin"
              None false true "annual" "asc" cur ps Hm E) as (Hall & _).
  split; [exact Hall | exact Hps].
Defined.

(** C9 fails on a medicine name with no record: the enumeration raises
    instead of returning a list, and so does the view; an unknown insurance
    name, by contrast, is priced as the cash channel. *)
Lemma unknown_medicine_aborts_enumeration :
  get_medicine_info Sample.clinic (VStr "Aspirin") = None
  /\ build_pairings Sample.clinic (Some "Aspirin") None = Raise AttributeError
  /\ index Sample.clinic (Sample.post [("medicine", "Aspirin")])
     = Raise AttributeError
  /\ get_insurance_info Sample.clinic (VStr "Medicare") = None
  /\ map annual_cost <$>
       build_pairings Sample.clinic (Some "Glipizide") (Some "Medicare")
     = Ok [VFloat 300].
Proof. vm_compute. repeat split. Qed.



(** ** Worked instances of the further properties *)

(** X2 at Glipizide with no insurance selected: one row per insurance, in
    the order of the insurance frame. *)
Lemma build_pairings_enumerates_witness :
  exists ps,
    build_pairings Sample.clinic (Some "Glipizide") None = Ok ps
    /\ map Shape.names ps
       = [(VStr "Glipizide", VStr "Cigna"); (VStr "Glipizide", VStr "Aetna")].
Proof.
  destruct (fmap_Ok (fun _ => tt)
              (build_pairings Sample.clinic (Some "Glipizide") None) tt)
    as (ps & E & _); [vm_compute; reflexivity|].
  exists ps. split; [exact E|].
  rewrite (build_pairings_enumerates Sample.clinic _ _ _ E).
  vm_compute. reflexivity.
Defined.


(** X4 at the sample frames with one medicine row whose name is blank:
    the unfiltered list is not built. *)
Lemma blank_medicine_name_witness :
  VFloat nan ∈ column (medicines_df Cases.blank_clinic) "medicine_name"
  /\ Shape.self_equal (VFloat nan) = false
  /\ exists e, build_pairings Cases.blank_clinic None None = Raise e.
Proof.
  assert (H1 : VFloat nan ∈ column (medicines_df Cases.blank_clinic) "medicine_name").
  { vm_compute. do 3 apply list_elem_of_further. apply list_elem_of_here. }
  assert (H2 : Shape.self_equal (VFloat nan) = false) by (vm_compute; reflexivity).
  split; [exact H1|]. split; [exact H2|].
  destruct (build_pairings Cases.blank_clinic None None) as [ps|e] eqn:E;
    [|eauto].
  exfalso.
  refine (blank_medicine_name_aborts_enumeration Cases.blank_clinic (VFloat nan)
            None None H1 H2 eq_refl _ ps E).
  intros _ Hnil. apply (f_equal length) in Hnil. discriminate Hnil.
Defined.

(** X5 at Glipizide with no insurance selected: the cash price 25 is the
    full monthly price of both rows. *)
Lemma pairing_money_fields_witness :
  exists ps,
    build_pairings Sample.clinic (Some "Glipizide") None = Ok ps
    /\ Forall (Shape.savings_consistent None) ps
    /\ map (fun p => (full_monthly p, full_annual p, annual_savings p)) ps
       = [(VFloat 25, VFloat 300, VFloat 180);
          (VFloat 25, VFloat 300, VFloat (-10))].
Proof.
  destruct (fmap_Ok (map (fun p => (full_monthly p, full_annual p, annual_savings p)))
              (build_pairings Sample.clinic (Some "Glipizide") None)
              [(VFloat 25, VFloat 300, VFloat 180);
               (VFloat 25, VFloat 300, VFloat (-10))])
    as (ps & E & Hps); [vm_compute; reflexivity|].
  exists ps. split; [exact E|].
  split; [exact (pairing_money_fields_are_consistent Sample.clinic _ _ _ E)|].
  exact Hps.
Defined.

(** X6 at Januvia: the Cigna row takes the table's 721, the Aetna row its
    own full annual price. *)
Lemma unauthorized_price_witness :
  exists ctx,
    index Sample.clinic (Sample.post [("medicine", "Januvia")]) = Ok ctx
    /\ Forall Shape.unauth_settled (ctx_pairings ctx)
    /\ map (fun p => (insurance_name p, unauth_annual p, full_annual p))
         (ctx_pairings ctx)
       = [(VStr "Cigna", VFloat 721, VFloat 0); (VStr "Aetna", VFloat 0, VFloat 0)].
Proof.
  destruct (fmap_Ok
              (fun ctx => map (fun p => (insurance_name p, unauth_annual p, full_annual p))
                            (ctx_pairings ctx))
              (index Sample.clinic (Sample.post [("medicine", "Januvia")]))
              [(VStr "Cigna", VFloat 721, VFloat 0); (VStr "Aetna", VFloat 0, VFloat 0)])
    as (ctx & E & Hctx); [vm_compute; reflexivity|].
  exists ctx. split; [exact E|].
  split; [exact (proj1 (unauthorized_price_is_table_or_full_annual
                          Sample.clinic _ _ E))|].
  exact Hctx.
Defined.

(** X7 at Glipizide under Cigna, with and without a cash price of 1. *)
Lemma insured_cost_ignores_cash_price_witness :
  let cheap := <[ "goodrx_price" := VFloat 1 ]> Sample.glipizide in
  Sample.glipizide !! "average_cost_per_month" = cheap !! "average_cost_per_month"
  /\ calculate_total_cost (Some Sample.glipizide) (Some Sample.cigna) None 12
     = calculate_total_cost (Some cheap) (Some Sample.cigna) None 12.
Proof.
  intros cheap.
  assert (H1 : Sample.glipizide !! "average_cost_per_month"
               = cheap !! "average_cost_per_month") by (vm_compute; reflexivity).
  split; [exact H1|].
  exact (insured_cost_ignores_cash_price Sample.glipizide cheap Sample.cigna
           None 12 H1).
Defined.

(** X8 at Glipizide, "tried" ticked: the three rows, the cash row among
    them, are flagged [False]. *)
Lemma own_pairings_witness :
  exists cur ps,
    build_results Sample.clinic (Some "Glipizide") None true false false
      "annual" "asc" = Ok (cur, ps)
    /\ length ps = 3%nat
    /\ Forall (fun p => is_higher_tier p = Some false) ps.
Proof.
  destruct (fmap_Ok (fun r : option current_selection * list pairing => length r.2)
              (build_results Sample.clinic (Some "Glipizide") None true false
                 false "annual" "asc") 3%nat)
    as ([cur ps] & E & Hlen); [vm_compute; reflexivity|].
  exists cur, ps. split; [exact E|]. split; [exact Hlen|].
  refine (own_pairings_are_never_higher_tier Sample.clinic "Glipizide" None
            false "annual" "asc" cur ps _ E).
  discriminate.
Defined.

(** X9 at Glipizide under Cigna: the card costs 120 a year, the list is
    the Aetna row. *)
Lemma exact_selection_witness :
  exists c ps,
    build_results Sample.clinic (Some "Glipizide") (Some "Cigna") false false
      false "annual" "asc" = Ok (Some c, ps)
    /\ map insurance_name ps ≡ₚ [VStr "Aetna"]
    /\ calculate_total_cost (cur_medicine c) (cur_insurance c) (cur_coverage c) 12
       = Ok (VFloat 120).
Proof.
  destruct (fmap_Ok
              (fun r : option current_selection * list pairing =>
                 cur_annual_cost <$> r.1)
              (build_results Sample.clinic (Some "Glipizide") (Some "Cigna") false
                 false false "annual" "asc") (Some (VFloat 120)))
    as ([[c|] ps] & E & Hc); [vm_compute; reflexivity | | discriminate Hc].
  exists c, ps. split; [exact E|].
  assert (Hm : "Glipizide" <> "") by discriminate.
  assert (Hi : "Cigna" <> "") by discriminate.
  destruct (exact_selection_lists_the_other_plans Sample.clinic "Glipizide"
              "Cigna" false false "annual" "asc" (Some c) ps Hm Hi E)
    as (_ & Hperm & Hcur & _).
  split; [exact Hperm|].
  destruct (Hcur c eq_refl) as (_ & _ & _ & Hcost). rewrite Hcost.
  cbn in Hc. injection Hc as ->. reflexivity.
Defined.

(** X10 on two rows whose savings are a number and a NaN. *)
Lemma sort_stage_returns_witness :
  let ps := [Sample.row "Metformin" "Cigna" (VFloat 220) (VFloat nan);
             Sample.row "Glipizide" "Aetna" (VFloat 310) (VFloat (-10))] in
  Shape.comparable_keys "savings" ps
  /\ exists s, sort_pairings "savings" "desc" ps = Ok s /\ s ≡ₚ ps.
Proof.
  intros ps.
  assert (H1 : Shape.comparable_keys "savings" ps).
  { left. repeat constructor; eexists; split; vm_compute; reflexivity. }
  split; [exact H1|].
  destruct (sort_stage_permutes_and_returns "savings" "desc" ps)
    as [Hperm Hret].
  destruct (Hret H1) as [s Hs]. exists s. split; [exact Hs | exact (Hperm s Hs)].
Defined.

(** X11 at the posted index -8, below the seven questions: the view
    raises. *)
Lemma trial_index_witness :
  let req := Sample.post [("trial_action", "trial"); ("trial_answer", "No");
                          ("trial_index", "-8")] in
  method req = POST
  /\ form req !! "trial_action" = Some "trial"
  /\ form req !! "trial_answer" = Some "No"
  /\ lower (strip "No") = "no"
  /\ posted_trial_index (form req) = -8
  /\ -8 < - Z.of_nat (length TRIAL_SEQUENCE)
  /\ index Sample.clinic req = Raise IndexError.
Proof.
  intros req.
  assert (H1 : method req = POST) by reflexivity.
  assert (H2 : form req !! "trial_action" = Some "trial") by (vm_compute; reflexivity).
  assert (H3 : form req !! "trial_answer" = Some "No") by (vm_compute; reflexivity).
  assert (H4 : lower (strip "No") = "no") by (vm_compute; reflexivity).
  assert (H5 : posted_trial_index (form req) = -8) by (vm_compute; reflexivity).
  assert (H6 : -8 < - Z.of_nat (length TRIAL_SEQUENCE)) by (cbn; lia).
  repeat (split; [assumption|]).
  destruct (trial_index_outside_the_sequence Sample.clinic req "No" (-8)
              H1 H2 H3 H4 H5) as (_ & _ & Hlow).
  exact (proj2 (Hlow H6)).
Defined.

(** X12 at the index -3, and at the index 10 ^ 4300, whose 4301 digits
    are over the limit. *)
Lemma posted_index_witness :
  let f := form (Sample.post [("trial_index", "-3")]) in
  let g := form (Sample.post [("trial_index", decimal (10 ^ 4300))]) in
  f !! "trial_index" = Some (decimal (-3))
  /\ posted_trial_index f = -3
  /\ g !! "trial_index" = Some (decimal (10 ^ 4300))
  /\ over_limit (decimal_digits (10 ^ 4300)) = true
  /\ posted_trial_index g = 0.
Proof.
  intros f g.
  assert (H1 : f !! "trial_index" = Some (decimal (-3)))
    by (vm_compute; reflexivity).
  assert (H2 : g !! "trial_index" = Some (decimal (10 ^ 4300)))
    by (unfold g, Sample.post, form; apply lookup_insert_eq).
  assert (H3 : over_limit (decimal_digits (10 ^ 4300)) = true)
    by (vm_compute; reflexivity).
  split; [exact H1|].
  split; [apply (proj2 (posted_index_reads_back (-3) f H1)); reflexivity|].
  split; [exact H2|]. split; [exact H3|].
  rewrite (proj1 (posted_index_reads_back (10 ^ 4300) g H2)), H3. reflexivity.
Defined.

(** X13 at the cell "TiEr 2". *)
Lemma tier_labels_witness :
  ascii_lower "TiEr" = "tier" /\ Text.blank " "
  /\ tier_num (VStr "TiEr 2") = Some 2 /\ tier_num (VInt 2) = Some 2.
Proof.
  assert (H1 : ascii_lower "TiEr" = "tier") by (vm_compute; reflexivity).
  assert (H2 : Text.blank " ") by (repeat constructor).
  split; [exact H1|]. split; [exact H2|].
  destruct (tier_labels_read_back "TiEr" " " 2 H1 H2) as (_ & _ & Hsmall).
  apply Hsmall. reflexivity.
Defined.

(** X14 at an infinite amount. *)
Lemma format_money_witness :
  py_float (VFloat infinity) = Ok infinity
  /\ PrimFloat.is_infinity infinity = true
  /\ Money.format_money (VFloat infinity) = Raise OverflowError.
Proof.
  assert (H1 : py_float (VFloat infinity) = Ok infinity) by reflexivity.
  assert (H2 : PrimFloat.is_infinity infinity = true) by (vm_compute; reflexivity).
  split; [exact H1|]. split; [exact H2|].
  destruct (format_money_off_the_finite_numbers (VFloat infinity))
    as (_ & _ & Hinf & _).
  exact (Hinf infinity H1 H2).
Defined.
